(** * MaxiTracker sound generator: a shallow embedding of [Source/SoundGen.cpp]

    The development follows the layout of [CSoundGen]:

    - [AudioDevice]: [CSoundGen::ResetAudioDevice], the audio set-up path
      (device selection, block count, per-chip mix levels in binary32);
    - [TempoDisplay]: the averaging window created by [BeginPlayer];
    - [Engine]: the controller itself with its message inbox, the player
      thread's loop and the foreground entry points.

    Collaborators whose sources are not part of [Source/] (the APU, the
    sound driver, the wave renderer, the tempo display) appear either as
    logs of the calls made on them or as small models written from the
    specification; each such model says so in its documentation. *)

From Stdlib Require Import ZArith QArith Qabs Lia List Bool.
From Stdlib Require Import Floats.SpecFloat.
From stdpp Require Import base option list gmap.

Local Open Scope Z_scope.

(** ** Machine integers *)

(** [unsigned int] and [int] are 32 bits wide on the platforms the tracker
    is built for; conversions wrap. *)
Definition to_unsigned (n : Z) : Z := n mod 2 ^ 32.
Definition to_int (n : Z) : Z := (n + 2 ^ 31) mod 2 ^ 32 - 2 ^ 31.

Definition is_int (n : Z) : Prop := - 2 ^ 31 <= n < 2 ^ 31.


(** ** Single precision floats

    [float] in the source is IEEE-754 binary32: 24 bits of precision,
    infinities at exponent 128.  The operations are the ones of the
    standard library's executable specification. *)
Module F32.

Definition prec : Z := 24.
Definition emax : Z := 128.

(** Conversion [int -> float], round to nearest even. *)
Definition of_int (n : Z) : spec_float := binary_normalize prec emax n 0 false.

Definition div (x y : spec_float) : spec_float := SFdiv prec emax x y.

(** The literal [10.0f]. *)
Definition ten : spec_float := S754_finite false 10485760 (-20).
(** The value [1.0f]. *)
Definition one : spec_float := S754_finite false 8388608 (-23).

(** The rational a finite float stands for. *)
Definition to_Q (f : spec_float) : option Q :=
  match f with
  | S754_zero _ => Some 0%Q
  | S754_finite s m e =>
      Some ((if s then inject_Z (Z.neg m) else inject_Z (Z.pos m)) * Qpower 2 e)%Q
  | S754_infinity _ | S754_nan => None
  end.

Definition valid (f : spec_float) : bool := valid_binary prec emax f.

End F32.


(** ** Audio device set-up: [CSoundGen::ResetAudioDevice] *)
Module AudioDevice.

(** The fields of [CSettings] the sound generator reads ([Settings.h] is
    not part of [Source/]); the numeric ones are [int]. *)
Record SoundSettings := {
  iSampleSize : Z;
  iSampleRate : Z;
  iBufferLength : Z;
  iDevice : Z;
  iBassFilter : Z;
  iTrebleFilter : Z;
  iTrebleDamping : Z;
  iMixVolume : Z
}.

Record ChipLevelSettings := {
  iLevelAPU1 : Z;
  iLevelAPU2 : Z;
  iLevelVRC6 : Z;
  iLevelVRC7 : Z;
  iLevelMMC5 : Z;
  iLevelFDS : Z;
  iLevelN163 : Z;
  iLevelS5B : Z
}.

Record CSettings := {
  Sound : SoundSettings;
  ChipLevels : ChipLevelSettings;
  (** [Display.bAverageBPM], [General.bRetrieveChanState],
      [Midi.bMidiArpeggio] *)
  bAverageBPM : bool;
  bRetrieveChanState : bool;
  bMidiArpeggio : bool
}.

Definition set_iDevice (d : Z) (p : CSettings) : CSettings :=
  {| Sound := {| iSampleSize := iSampleSize (Sound p);
                 iSampleRate := iSampleRate (Sound p);
                 iBufferLength := iBufferLength (Sound p);
                 iDevice := d;
                 iBassFilter := iBassFilter (Sound p);
                 iTrebleFilter := iTrebleFilter (Sound p);
                 iTrebleDamping := iTrebleDamping (Sound p);
                 iMixVolume := iMixVolume (Sound p) |};
     ChipLevels := ChipLevels p;
     bAverageBPM := bAverageBPM p;
     bRetrieveChanState := bRetrieveChanState p;
     bMidiArpeggio := bMidiArpeggio p |}.

Inductive chip_level_t :=
| CHIP_LEVEL_APU1 | CHIP_LEVEL_APU2 | CHIP_LEVEL_VRC6 | CHIP_LEVEL_VRC7
| CHIP_LEVEL_MMC5 | CHIP_LEVEL_FDS | CHIP_LEVEL_N163 | CHIP_LEVEL_S5B.

Inductive machine_t := NTSC | PAL.

Inductive message_id :=
| IDS_DSOUND_ERROR | IDS_DSOUND_BUFFER_ERROR.

(** What [ResetAudioDevice] does to its collaborators, in program order. *)
Inductive call :=
| CloseAudioDevice
| SetupDevice (device : Z)
| AfxMessageBox (id : message_id)
| OpenChannel (SampleRate SampleSize Channels BufferLen iBlocks : Z)
| SetSampleRate (SampleRate : Z)
| SetCallback
| SetupSound (SampleRate Channels : Z) (machine : machine_t)
| SetChipLevel (chip : chip_level_t) (level : spec_float)
| SetupMixer (bass treble damping volume : Z).

(** The answers of the platform: how many output devices were enumerated
    and which of the fallible calls succeed. *)
Record Platform := {
  GetDeviceCount : Z;
  SetupDevice_ok : Z -> bool;
  OpenChannel_ok : Z -> Z -> Z -> Z -> Z -> bool;
  SetupSound_ok : Z -> bool
}.

Record State := {
  pSettings : CSettings;
  (** [m_pAudioDriver]: [None] is the null pointer, [Some b] an adapter
      whose device is open iff [b]. *)
  m_pAudioDriver : option bool;
  m_pVisualizerWnd : bool;
  m_iMachineType : machine_t;
  calls : list call
}.

Definition emit (c : call) (s : State) : State :=
  {| pSettings := pSettings s; m_pAudioDriver := m_pAudioDriver s;
     m_pVisualizerWnd := m_pVisualizerWnd s; m_iMachineType := m_iMachineType s;
     calls := calls s ++ [c] |}.

Definition with_settings (p : CSettings) (s : State) : State :=
  {| pSettings := p; m_pAudioDriver := m_pAudioDriver s;
     m_pVisualizerWnd := m_pVisualizerWnd s; m_iMachineType := m_iMachineType s;
     calls := calls s |}.

Definition with_driver (d : option bool) (s : State) : State :=
  {| pSettings := pSettings s; m_pAudioDriver := d;
     m_pVisualizerWnd := m_pVisualizerWnd s; m_iMachineType := m_iMachineType s;
     calls := calls s |}.

(** Lines 408-412: [int iBlocks = 2; if (BufferLen > 100) iBlocks +=
    (BufferLen / 66);] with [BufferLen] unsigned: the sum is computed
    unsigned and converted back to [int]. *)
Definition block_count (BufferLen : Z) : Z :=
  let iBlocks := 2 in
  if 100 <? BufferLen
  then to_int (to_unsigned (to_unsigned iBlocks + BufferLen / 66))
  else iBlocks.

(** [float(iLevel / 10.0f)]: the [int] is converted to [float] and the
    division is carried out in single precision. *)
Definition chip_level (iLevel : Z) : spec_float :=
  F32.div (F32.of_int iLevel) F32.ten.

Definition set_chip_levels (l : ChipLevelSettings) (s : State) : State :=
  let s := emit (SetChipLevel CHIP_LEVEL_APU1 (chip_level (iLevelAPU1 l))) s in
  let s := emit (SetChipLevel CHIP_LEVEL_APU2 (chip_level (iLevelAPU2 l))) s in
  let s := emit (SetChipLevel CHIP_LEVEL_VRC6 (chip_level (iLevelVRC6 l))) s in
  let s := emit (SetChipLevel CHIP_LEVEL_VRC7 (chip_level (iLevelVRC7 l))) s in
  let s := emit (SetChipLevel CHIP_LEVEL_MMC5 (chip_level (iLevelMMC5 l))) s in
  let s := emit (SetChipLevel CHIP_LEVEL_FDS (chip_level (iLevelFDS l))) s in
  let s := emit (SetChipLevel CHIP_LEVEL_N163 (chip_level (iLevelN163 l))) s in
  emit (SetChipLevel CHIP_LEVEL_S5B (chip_level (iLevelS5B l))) s.

Definition ResetAudioDevice (pf : Platform) (s : State) : bool * State :=
  let SampleSize := to_unsigned (iSampleSize (Sound (pSettings s))) in
  let SampleRate := to_unsigned (iSampleRate (Sound (pSettings s))) in
  let BufferLen := to_unsigned (iBufferLength (Sound (pSettings s))) in
  let Device := to_unsigned (iDevice (Sound (pSettings s))) in
  let s :=
    match m_pAudioDriver s with
    | Some _ => with_driver (Some false) (emit CloseAudioDevice s)
    | None => s
    end in
  let '(Device, s) :=
    if GetDeviceCount pf <=? Device
    then (0, with_settings (set_iDevice 0 (pSettings s)) s)
    else (Device, s) in
  let s := emit (SetupDevice Device) s in
  if negb (SetupDevice_ok pf Device) then
    (false, emit (AfxMessageBox IDS_DSOUND_ERROR) s)
  else
    let iBlocks := block_count BufferLen in
    let s := emit (OpenChannel SampleRate SampleSize 1 BufferLen iBlocks) s in
    let opened := OpenChannel_ok pf SampleRate SampleSize 1 BufferLen iBlocks in
    let s := with_driver (Some opened) s in
    if negb opened then
      (false, emit (AfxMessageBox IDS_DSOUND_BUFFER_ERROR) s)
    else
      let s := if m_pVisualizerWnd s then emit (SetSampleRate SampleRate) s else s in
      let s := emit SetCallback s in
      let s := emit (SetupSound SampleRate 1 (m_iMachineType s)) s in
      if negb (SetupSound_ok pf SampleRate) then (false, s)
      else
        let p := pSettings s in
        let s := set_chip_levels (ChipLevels p) s in
        let s := emit (SetupMixer (iBassFilter (Sound p)) (iTrebleFilter (Sound p))
                         (iTrebleDamping (Sound p)) (iMixVolume (Sound p))) s in
        (true, s).

(** The calls a run of [ResetAudioDevice] adds to the log. *)
Definition new_calls (s : State) (s' : State) : list call :=
  drop (length (calls s)) (calls s').

Definition chip_level_calls (l : list call) : list (chip_level_t * spec_float) :=
  omap (fun c => match c with SetChipLevel chip v => Some (chip, v) | _ => None end) l.

Definition open_channel_calls (l : list call) : list (Z * Z) :=
  omap (fun c => match c with OpenChannel _ _ _ len blocks => Some (len, blocks) | _ => None end) l.

Definition setup_device_calls (l : list call) : list Z :=
  omap (fun c => match c with SetupDevice d => Some d | _ => None end) l.

Definition message_boxes (l : list call) : list message_id :=
  omap (fun c => match c with AfxMessageBox m => Some m | _ => None end) l.

(** The persisted level of a chip. *)
Definition persisted_level (chip : chip_level_t) (l : ChipLevelSettings) : Z :=
  match chip with
  | CHIP_LEVEL_APU1 => iLevelAPU1 l
  | CHIP_LEVEL_APU2 => iLevelAPU2 l
  | CHIP_LEVEL_VRC6 => iLevelVRC6 l
  | CHIP_LEVEL_VRC7 => iLevelVRC7 l
  | CHIP_LEVEL_MMC5 => iLevelMMC5 l
  | CHIP_LEVEL_FDS => iLevelFDS l
  | CHIP_LEVEL_N163 => iLevelN163 l
  | CHIP_LEVEL_S5B => iLevelS5B l
  end.

(** The device [ResetAudioDevice] goes on with, lines 396-400. *)
Definition selected_device (pf : Platform) (s : State) : Z :=
  let Device := to_unsigned (iDevice (Sound (pSettings s))) in
  if GetDeviceCount pf <=? Device then 0 else Device.

(** The calls of a run, by the answers of the platform. *)
Definition run_calls (pf : Platform) (s : State) : list call :=
  let SampleSize := to_unsigned (iSampleSize (Sound (pSettings s))) in
  let SampleRate := to_unsigned (iSampleRate (Sound (pSettings s))) in
  let BufferLen := to_unsigned (iBufferLength (Sound (pSettings s))) in
  let Device := selected_device pf s in
  let l := ChipLevels (pSettings s) in
  (match m_pAudioDriver s with Some _ => [CloseAudioDevice] | None => [] end)
  ++ [SetupDevice Device]
  ++ (if SetupDevice_ok pf Device then
        [OpenChannel SampleRate SampleSize 1 BufferLen (block_count BufferLen)]
        ++ (if OpenChannel_ok pf SampleRate SampleSize 1 BufferLen (block_count BufferLen) then
              (if m_pVisualizerWnd s then [SetSampleRate SampleRate] else [])
              ++ [SetCallback; SetupSound SampleRate 1 (m_iMachineType s)]
              ++ (if SetupSound_ok pf SampleRate then
                    ((fun chip => SetChipLevel chip (chip_level (persisted_level chip l)))
                       <$> [CHIP_LEVEL_APU1; CHIP_LEVEL_APU2; CHIP_LEVEL_VRC6; CHIP_LEVEL_VRC7;
                            CHIP_LEVEL_MMC5; CHIP_LEVEL_FDS; CHIP_LEVEL_N163; CHIP_LEVEL_S5B])
                    ++ [SetupMixer (iBassFilter (Sound (pSettings s)))
                          (iTrebleFilter (Sound (pSettings s)))
                          (iTrebleDamping (Sound (pSettings s)))
                          (iMixVolume (Sound (pSettings s)))]
                  else [])
            else [AfxMessageBox IDS_DSOUND_BUFFER_ERROR])
      else [AfxMessageBox IDS_DSOUND_ERROR]).

Definition run_ok (pf : Platform) (s : State) : bool :=
  let SampleSize := to_unsigned (iSampleSize (Sound (pSettings s))) in
  let SampleRate := to_unsigned (iSampleRate (Sound (pSettings s))) in
  let BufferLen := to_unsigned (iBufferLength (Sound (pSettings s))) in
  SetupDevice_ok pf (selected_device pf s)
  && OpenChannel_ok pf SampleRate SampleSize 1 BufferLen (block_count BufferLen)
  && SetupSound_ok pf SampleRate.

(** Two readings of a persisted level [L] as a chip level [v]: [L / 100]
    (a percentage) and [L / 10] correctly rounded to single precision. *)
Definition percent_of (L : Z) (v : spec_float) : Prop :=
  match F32.to_Q v with
  | Some q => (q == inject_Z L / 100)%Q
  | None => False
  end.

Definition tenth_of (L : Z) (v : spec_float) : bool :=
  match F32.to_Q v with
  | Some q =>
      F32.valid v
      && Qle_bool (Qabs (q - inject_Z L / 10)) (Qabs (inject_Z L / 10) * (1 # 2 ^ 24))
      && (if (L mod 10 =? 0) then Qeq_bool q (inject_Z L / 10) else true)
  | None => false
  end.

End AudioDevice.

(** ** The tempo display: [CTempoDisplay] *)
Module TempoDisplay.

(** [DEFAULT_AVERAGE_BPM_SIZE], line 75. *)
Definition DEFAULT_AVERAGE_BPM_SIZE : nat := 24.

(** Modelled from the spec: [TempoDisplay.h] and its implementation are
    not part of [Source/].  The specification describes "a fixed-size
    circular history of the most recent per-tick tempo samples" from
    which a smoothed BPM is recomputed.  [cache] holds the slots filled
    so far (at most [cache_size]), [pos] is the slot the next sample
    goes to; once every slot is filled the oldest one is overwritten. *)
Record CTempoDisplay := {
  cache_size : nat;
  cache : list Q;
  pos : nat
}.

(** [CTempoDisplay(tempo, sz)] *)
Definition Build (sz : nat) : CTempoDisplay :=
  {| cache_size := sz; cache := []; pos := 0 |}.

Definition advance (sz p : nat) : nat :=
  if (S p =? sz)%nat then 0%nat else S p.

(** Modelled from the spec: one sample per scheduler tick. *)
Definition Tick (sample : Q) (d : CTempoDisplay) : CTempoDisplay :=
  {| cache_size := cache_size d;
     cache := if (pos d <? length (cache d))%nat
              then <[pos d := sample]> (cache d)
              else cache d ++ [sample];
     pos := advance (cache_size d) (pos d) |}.

(** Modelled from the spec: the specification gives row steps no part in
    the history. *)
Definition StepRow (d : CTempoDisplay) : CTempoDisplay := d.

Definition Qsum (l : list Q) : Q := fold_right Qplus 0%Q l.

(** Modelled from the spec: the smoothed BPM is the mean of the samples
    in the window; with no sample yet it is the instantaneous tempo. *)
Definition GetAverageBPM (instantaneous : Q) (d : CTempoDisplay) : Q :=
  match cache d with
  | [] => instantaneous
  | _ => (Qsum (cache d) / inject_Z (Z.of_nat (length (cache d))))%Q
  end.

(** The states a display can be in: the write position stays inside the
    window and, until the window is full, points just past the last
    sample. *)
Definition wf (d : CTempoDisplay) : Prop :=
  (pos d < cache_size d)%nat /\
  (length (cache d) <= cache_size d)%nat /\
  ((length (cache d) < cache_size d)%nat -> pos d = length (cache d)).

Definition feed (n : nat) (sample : Q) (d : CTempoDisplay) : CTempoDisplay :=
  Nat.iter n (Tick sample) d.

(** Slot [i] was written by one of the last [k] ticks: it lies at most
    [k] slots behind the write position, going round the window. *)
Definition written_within (d : CTempoDisplay) (k i : nat) : Prop :=
  (i < pos d /\ pos d <= i + k)%nat
  \/ (pos d <= i /\ pos d + cache_size d <= i + k)%nat.

(** The last [k] ticks all sampled the tempo [t]. *)
Definition last_samples (k : nat) (t : Q) (d : CTempoDisplay) : Prop :=
  wf d
  /\ (Nat.min k (cache_size d) <= length (cache d))%nat
  /\ forall i x, cache d !! i = Some x -> written_within d k i -> x = t.

End TempoDisplay.

(** ** The controller: [CSoundGen] *)
Module Engine.

Import AudioDevice.

(** *** Data *)

(** [chan_id_t] (declared outside [Source/]): a channel of the emulated
    hardware, or [NONE]. *)
Inductive chan_id_t := CHANID (n : nat) | NONE.

#[global] Instance chan_id_eq_dec : EqDecision chan_id_t.
Proof. solve_decision. Defined.

(** [value_cast(chan)], the index of the channel in per-channel arrays;
    [NONE] is not an index. *)
Definition value_cast (chan : chan_id_t) : option nat :=
  match chan with CHANID n => Some n | NONE => None end.

(** [stChanNote] (declared outside [Source/]): the fields of a note that
    [CSoundGen] reads, and the instrument. *)
Record stChanNote := {
  Note : Z;
  Octave : Z;
  Vol : Z;
  Instrument : Z
}.

(** [note_prio_t] (declared in [TrackerChannel.h], outside [Source/]);
    the source uses [NOTE_PRIO_1]. *)
Inductive note_prio_t := NOTE_PRIO_0 | NOTE_PRIO_1 | NOTE_PRIO_2.

Definition prio_rank (p : note_prio_t) : nat :=
  match p with NOTE_PRIO_0 => 0 | NOTE_PRIO_1 => 1 | NOTE_PRIO_2 => 2 end.

(** Modelled from the spec: [PlayerCursor.h] is not part of [Source/].  A
    cursor "identifies a song selection and mutable position (frame index,
    row index, total elapsed ticks, an optional queued-frame target)"; the
    fields are named after the getters [CSoundGen] calls. *)
Record CPlayerCursor := {
  GetCurrentSong : Z;
  GetCurrentFrame : Z;
  GetCurrentRow : Z;
  GetTotalTicks : Z;
  GetQueuedFrame : option Z
}.

(** Modelled from the spec: [CPlayerCursor(doc, track)], the start of a
    song. *)
Definition cursor_at (track : Z) : CPlayerCursor :=
  {| GetCurrentSong := track; GetCurrentFrame := 0; GetCurrentRow := 0;
     GetTotalTicks := 0; GetQueuedFrame := None |}.

(** What one tick of a playing song yields: the cursor moved on, the
    notes of the row that became due (if one did) and whether the song
    asks to halt. *)
Record tick_result := {
  next_cursor : CPlayerCursor;
  stepped_row : option (list (chan_id_t * stChanNote));
  song_halt : bool
}.

(** The document, as far as the sound generator queries it.  [SongTick]
    stands for the module's pattern data and tempo: it says what a tick
    at a cursor decodes. *)
Record CFamiTrackerDoc := {
  IsFileLoaded : bool;
  (** the channels [ForeachChannel] visits, in order *)
  Channels : list chan_id_t;
  GetActiveNote : Z -> Z -> chan_id_t -> Z -> stChanNote;
  GetChannelIndex : chan_id_t -> Z;
  GetHighlight : Z -> Z;
  GetHighlightAt : Z -> Z -> Z -> Z;
  GetBookmarkHighlight : Z -> Z -> Z -> option Z;
  SongTempo : Z -> Q;
  SongTick : CPlayerCursor -> tick_result
}.

Record CFamiTrackerView := {
  GetSelectedPos : Z * Z;
  GetSelectedChannelID : chan_id_t
}.

(** Modelled from the spec: the sound driver ([SoundDriver.h]) is not
    part of [Source/].  It "owns per-channel playback state, decodes the
    next row of a song into channel commands, queues notes with
    priority, feeds the Hardware Emulation Unit".  The model keeps the
    playing flag, the cursor handed over by [StartPlayer], the halt
    request the driver reports and, per channel, the note queued for the
    next update together with its priority. *)
Record CSoundDriver := {
  m_bPlaying : bool;
  m_pPlayerCursor : option CPlayerCursor;
  m_bDriverHalt : bool;
  pending : gmap nat (stChanNote * note_prio_t)
}.

(** Modelled from the spec: [TempoCounter.h] is not part of [Source/];
    the counter is represented by the instantaneous BPM it reports. *)
Record CTempoCounter := { GetTempo : Q }.

(** Modelled from the spec: the instrument recorder
    ([InstrumentRecorder.h] is not part of [Source/]), as far as
    [CSoundGen] forwards to it: the armed channel and whether a recording
    is in progress. *)
Record CInstrumentRecorder := {
  RecordChannel : chan_id_t;
  recording : bool
}.

(** Modelled from the spec: [WaveRenderer.h] is not part of [Source/].
    The renderer "wraps an output sink, a start/stop policy and a
    finished flag"; the record holds the answers it currently gives. *)
Record CWaveRenderer := {
  Started : bool;
  Finished : bool;
  has_output_file : bool;
  ShouldStopRender : bool;
  ShouldStartPlayer : bool;
  ShouldStopPlayerNow : bool;
  GetRenderTrack : Z
}.

(** The thread messages of the message map, lines 81-94, with their
    parameters.  The messages for sample preview, chip selection and
    closing the sound device are left out: their handlers depend on
    sample memory and chip constants defined outside [Source/]. *)
Inductive message :=
| WM_USER_SILENT_ALL
| WM_USER_LOAD_SETTINGS
| WM_USER_PLAY (cursor : CPlayerCursor)
| WM_USER_STOP
| WM_USER_RESET (cursor : CPlayerCursor)
| WM_USER_START_RENDER
| WM_USER_STOP_RENDER
| WM_USER_WRITE_APU (wParam lParam : Z)
| WM_USER_REMOVE_DOCUMENT.

Inductive ui_message_id := IDS_FILE_OPEN_ERROR.

(** Calls on the collaborators, logged in program order.  The [Apu...]
    events are the calls on [m_pAPU]; [ApuChannelWrite chan note] stands
    for the register writes by which the driver plays [note] on [chan]
    (the channel handlers that compute addresses and values are not part
    of [Source/]). *)
Inductive event :=
| ApuReset
| ApuWrite (Address Value : Z)
| ApuClearSample
| ApuChannelWrite (chan : chan_id_t) (note : stChanNote)
| AudioDriverReset
| ViewMakeSilent
| ViewPlayerPlayNote (chan : chan_id_t) (note : stChanNote)
| ViewPostPlayer (frame row : Z)
| MidiWriteNote (index note octave vol : Z)
| DriverLoadSoundState (track frame row : Z)
| RecordInstrument (ticks : Z)
| ReportAudioProblem
| WaveOpenFile (SampleRate SampleSize Channels : Z)
| MessageBox (id : ui_message_id).

Record CSoundGen := {
  (** the audio set-up state and the platform it talks to *)
  dev : AudioDevice.State;
  platform : AudioDevice.Platform;
  m_hThread : bool;
  m_pDocument : option CFamiTrackerDoc;
  m_pTrackerView : option CFamiTrackerView;
  m_pSoundDriver : CSoundDriver;
  m_pTempoCounter : CTempoCounter;
  m_pInstRecorder : CInstrumentRecorder;
  muted_ : list bool;
  m_bHaltRequest : bool;
  m_bPlayingSingleRow : bool;
  m_iLastTrack : Z;
  m_iLastHighlight : Z;
  m_iFrameCounter : Z;
  m_bWaveChanged : bool;
  m_bInternalWaveChanged : bool;
  m_pWaveRenderer : option CWaveRenderer;
  m_pTempoDisplay : option TempoDisplay.CTempoDisplay;
  (** the thread's message queue, oldest first *)
  inbox : list message;
  log : list event
}.

(** *** Field updates *)

Definition set_dev v (s : CSoundGen) : CSoundGen :=
  {| dev := v; platform := platform s; m_hThread := m_hThread s;
     m_pDocument := m_pDocument s; m_pTrackerView := m_pTrackerView s;
     m_pSoundDriver := m_pSoundDriver s; m_pTempoCounter := m_pTempoCounter s;
     m_pInstRecorder := m_pInstRecorder s; muted_ := muted_ s;
     m_bHaltRequest := m_bHaltRequest s; m_bPlayingSingleRow := m_bPlayingSingleRow s;
     m_iLastTrack := m_iLastTrack s; m_iLastHighlight := m_iLastHighlight s;
     m_iFrameCounter := m_iFrameCounter s; m_bWaveChanged := m_bWaveChanged s;
     m_bInternalWaveChanged := m_bInternalWaveChanged s;
     m_pWaveRenderer := m_pWaveRenderer s; m_pTempoDisplay := m_pTempoDisplay s;
     inbox := inbox s; log := log s |}.

Definition set_m_hThread v (s : CSoundGen) : CSoundGen :=
  {| dev := dev s; platform := platform s; m_hThread := v; m_pDocument := m_pDocument s;
     m_pTrackerView := m_pTrackerView s; m_pSoundDriver := m_pSoundDriver s;
     m_pTempoCounter := m_pTempoCounter s; m_pInstRecorder := m_pInstRecorder s;
     muted_ := muted_ s; m_bHaltRequest := m_bHaltRequest s;
     m_bPlayingSingleRow := m_bPlayingSingleRow s; m_iLastTrack := m_iLastTrack s;
     m_iLastHighlight := m_iLastHighlight s; m_iFrameCounter := m_iFrameCounter s;
     m_bWaveChanged := m_bWaveChanged s;
     m_bInternalWaveChanged := m_bInternalWaveChanged s;
     m_pWaveRenderer := m_pWaveRenderer s; m_pTempoDisplay := m_pTempoDisplay s;
     inbox := inbox s; log := log s |}.

Definition set_m_pDocument v (s : CSoundGen) : CSoundGen :=
  {| dev := dev s; platform := platform s; m_hThread := m_hThread s; m_pDocument := v;
     m_pTrackerView := m_pTrackerView s; m_pSoundDriver := m_pSoundDriver s;
     m_pTempoCounter := m_pTempoCounter s; m_pInstRecorder := m_pInstRecorder s;
     muted_ := muted_ s; m_bHaltRequest := m_bHaltRequest s;
     m_bPlayingSingleRow := m_bPlayingSingleRow s; m_iLastTrack := m_iLastTrack s;
     m_iLastHighlight := m_iLastHighlight s; m_iFrameCounter := m_iFrameCounter s;
     m_bWaveChanged := m_bWaveChanged s;
     m_bInternalWaveChanged := m_bInternalWaveChanged s;
     m_pWaveRenderer := m_pWaveRenderer s; m_pTempoDisplay := m_pTempoDisplay s;
     inbox := inbox s; log := log s |}.

Definition set_m_pTrackerView v (s : CSoundGen) : CSoundGen :=
  {| dev := dev s; platform := platform s; m_hThread := m_hThread s;
     m_pDocument := m_pDocument s; m_pTrackerView := v;
     m_pSoundDriver := m_pSoundDriver s; m_pTempoCounter := m_pTempoCounter s;
     m_pInstRecorder := m_pInstRecorder s; muted_ := muted_ s;
     m_bHaltRequest := m_bHaltRequest s; m_bPlayingSingleRow := m_bPlayingSingleRow s;
     m_iLastTrack := m_iLastTrack s; m_iLastHighlight := m_iLastHighlight s;
     m_iFrameCounter := m_iFrameCounter s; m_bWaveChanged := m_bWaveChanged s;
     m_bInternalWaveChanged := m_bInternalWaveChanged s;
     m_pWaveRenderer := m_pWaveRenderer s; m_pTempoDisplay := m_pTempoDisplay s;
     inbox := inbox s; log := log s |}.

Definition set_m_pSoundDriver v (s : CSoundGen) : CSoundGen :=
  {| dev := dev s; platform := platform s; m_hThread := m_hThread s;
     m_pDocument := m_pDocument s; m_pTrackerView := m_pTrackerView s;
     m_pSoundDriver := v; m_pTempoCounter := m_pTempoCounter s;
     m_pInstRecorder := m_pInstRecorder s; muted_ := muted_ s;
     m_bHaltRequest := m_bHaltRequest s; m_bPlayingSingleRow := m_bPlayingSingleRow s;
     m_iLastTrack := m_iLastTrack s; m_iLastHighlight := m_iLastHighlight s;
     m_iFrameCounter := m_iFrameCounter s; m_bWaveChanged := m_bWaveChanged s;
     m_bInternalWaveChanged := m_bInternalWaveChanged s;
     m_pWaveRenderer := m_pWaveRenderer s; m_pTempoDisplay := m_pTempoDisplay s;
     inbox := inbox s; log := log s |}.

Definition set_m_pTempoCounter v (s : CSoundGen) : CSoundGen :=
  {| dev := dev s; platform := platform s; m_hThread := m_hThread s;
     m_pDocument := m_pDocument s; m_pTrackerView := m_pTrackerView s;
     m_pSoundDriver := m_pSoundDriver s; m_pTempoCounter := v;
     m_pInstRecorder := m_pInstRecorder s; muted_ := muted_ s;
     m_bHaltRequest := m_bHaltRequest s; m_bPlayingSingleRow := m_bPlayingSingleRow s;
     m_iLastTrack := m_iLastTrack s; m_iLastHighlight := m_iLastHighlight s;
     m_iFrameCounter := m_iFrameCounter s; m_bWaveChanged := m_bWaveChanged s;
     m_bInternalWaveChanged := m_bInternalWaveChanged s;
     m_pWaveRenderer := m_pWaveRenderer s; m_pTempoDisplay := m_pTempoDisplay s;
     inbox := inbox s; log := log s |}.

Definition set_m_pInstRecorder v (s : CSoundGen) : CSoundGen :=
  {| dev := dev s; platform := platform s; m_hThread := m_hThread s;
     m_pDocument := m_pDocument s; m_pTrackerView := m_pTrackerView s;
     m_pSoundDriver := m_pSoundDriver s; m_pTempoCounter := m_pTempoCounter s;
     m_pInstRecorder := v; muted_ := muted_ s; m_bHaltRequest := m_bHaltRequest s;
     m_bPlayingSingleRow := m_bPlayingSingleRow s; m_iLastTrack := m_iLastTrack s;
     m_iLastHighlight := m_iLastHighlight s; m_iFrameCounter := m_iFrameCounter s;
     m_bWaveChanged := m_bWaveChanged s;
     m_bInternalWaveChanged := m_bInternalWaveChanged s;
     m_pWaveRenderer := m_pWaveRenderer s; m_pTempoDisplay := m_pTempoDisplay s;
     inbox := inbox s; log := log s |}.

Definition set_muted_ v (s : CSoundGen) : CSoundGen :=
  {| dev := dev s; platform := platform s; m_hThread := m_hThread s;
     m_pDocument := m_pDocument s; m_pTrackerView := m_pTrackerView s;
     m_pSoundDriver := m_pSoundDriver s; m_pTempoCounter := m_pTempoCounter s;
     m_pInstRecorder := m_pInstRecorder s; muted_ := v;
     m_bHaltRequest := m_bHaltRequest s; m_bPlayingSingleRow := m_bPlayingSingleRow s;
     m_iLastTrack := m_iLastTrack s; m_iLastHighlight := m_iLastHighlight s;
     m_iFrameCounter := m_iFrameCounter s; m_bWaveChanged := m_bWaveChanged s;
     m_bInternalWaveChanged := m_bInternalWaveChanged s;
     m_pWaveRenderer := m_pWaveRenderer s; m_pTempoDisplay := m_pTempoDisplay s;
     inbox := inbox s; log := log s |}.

Definition set_m_bHaltRequest v (s : CSoundGen) : CSoundGen :=
  {| dev := dev s; platform := platform s; m_hThread := m_hThread s;
     m_pDocument := m_pDocument s; m_pTrackerView := m_pTrackerView s;
     m_pSoundDriver := m_pSoundDriver s; m_pTempoCounter := m_pTempoCounter s;
     m_pInstRecorder := m_pInstRecorder s; muted_ := muted_ s; m_bHaltRequest := v;
     m_bPlayingSingleRow := m_bPlayingSingleRow s; m_iLastTrack := m_iLastTrack s;
     m_iLastHighlight := m_iLastHighlight s; m_iFrameCounter := m_iFrameCounter s;
     m_bWaveChanged := m_bWaveChanged s;
     m_bInternalWaveChanged := m_bInternalWaveChanged s;
     m_pWaveRenderer := m_pWaveRenderer s; m_pTempoDisplay := m_pTempoDisplay s;
     inbox := inbox s; log := log s |}.

Definition set_m_bPlayingSingleRow v (s : CSoundGen) : CSoundGen :=
  {| dev := dev s; platform := platform s; m_hThread := m_hThread s;
     m_pDocument := m_pDocument s; m_pTrackerView := m_pTrackerView s;
     m_pSoundDriver := m_pSoundDriver s; m_pTempoCounter := m_pTempoCounter s;
     m_pInstRecorder := m_pInstRecorder s; muted_ := muted_ s;
     m_bHaltRequest := m_bHaltRequest s; m_bPlayingSingleRow := v;
     m_iLastTrack := m_iLastTrack s; m_iLastHighlight := m_iLastHighlight s;
     m_iFrameCounter := m_iFrameCounter s; m_bWaveChanged := m_bWaveChanged s;
     m_bInternalWaveChanged := m_bInternalWaveChanged s;
     m_pWaveRenderer := m_pWaveRenderer s; m_pTempoDisplay := m_pTempoDisplay s;
     inbox := inbox s; log := log s |}.

Definition set_m_iLastTrack v (s : CSoundGen) : CSoundGen :=
  {| dev := dev s; platform := platform s; m_hThread := m_hThread s;
     m_pDocument := m_pDocument s; m_pTrackerView := m_pTrackerView s;
     m_pSoundDriver := m_pSoundDriver s; m_pTempoCounter := m_pTempoCounter s;
     m_pInstRecorder := m_pInstRecorder s; muted_ := muted_ s;
     m_bHaltRequest := m_bHaltRequest s; m_bPlayingSingleRow := m_bPlayingSingleRow s;
     m_iLastTrack := v; m_iLastHighlight := m_iLastHighlight s;
     m_iFrameCounter := m_iFrameCounter s; m_bWaveChanged := m_bWaveChanged s;
     m_bInternalWaveChanged := m_bInternalWaveChanged s;
     m_pWaveRenderer := m_pWaveRenderer s; m_pTempoDisplay := m_pTempoDisplay s;
     inbox := inbox s; log := log s |}.

Definition set_m_iLastHighlight v (s : CSoundGen) : CSoundGen :=
  {| dev := dev s; platform := platform s; m_hThread := m_hThread s;
     m_pDocument := m_pDocument s; m_pTrackerView := m_pTrackerView s;
     m_pSoundDriver := m_pSoundDriver s; m_pTempoCounter := m_pTempoCounter s;
     m_pInstRecorder := m_pInstRecorder s; muted_ := muted_ s;
     m_bHaltRequest := m_bHaltRequest s; m_bPlayingSingleRow := m_bPlayingSingleRow s;
     m_iLastTrack := m_iLastTrack s; m_iLastHighlight := v;
     m_iFrameCounter := m_iFrameCounter s; m_bWaveChanged := m_bWaveChanged s;
     m_bInternalWaveChanged := m_bInternalWaveChanged s;
     m_pWaveRenderer := m_pWaveRenderer s; m_pTempoDisplay := m_pTempoDisplay s;
     inbox := inbox s; log := log s |}.

Definition set_m_iFrameCounter v (s : CSoundGen) : CSoundGen :=
  {| dev := dev s; platform := platform s; m_hThread := m_hThread s;
     m_pDocument := m_pDocument s; m_pTrackerView := m_pTrackerView s;
     m_pSoundDriver := m_pSoundDriver s; m_pTempoCounter := m_pTempoCounter s;
     m_pInstRecorder := m_pInstRecorder s; muted_ := muted_ s;
     m_bHaltRequest := m_bHaltRequest s; m_bPlayingSingleRow := m_bPlayingSingleRow s;
     m_iLastTrack := m_iLastTrack s; m_iLastHighlight := m_iLastHighlight s;
     m_iFrameCounter := v; m_bWaveChanged := m_bWaveChanged s;
     m_bInternalWaveChanged := m_bInternalWaveChanged s;
     m_pWaveRenderer := m_pWaveRenderer s; m_pTempoDisplay := m_pTempoDisplay s;
     inbox := inbox s; log := log s |}.

Definition set_m_bWaveChanged v (s : CSoundGen) : CSoundGen :=
  {| dev := dev s; platform := platform s; m_hThread := m_hThread s;
     m_pDocument := m_pDocument s; m_pTrackerView := m_pTrackerView s;
     m_pSoundDriver := m_pSoundDriver s; m_pTempoCounter := m_pTempoCounter s;
     m_pInstRecorder := m_pInstRecorder s; muted_ := muted_ s;
     m_bHaltRequest := m_bHaltRequest s; m_bPlayingSingleRow := m_bPlayingSingleRow s;
     m_iLastTrack := m_iLastTrack s; m_iLastHighlight := m_iLastHighlight s;
     m_iFrameCounter := m_iFrameCounter s; m_bWaveChanged := v;
     m_bInternalWaveChanged := m_bInternalWaveChanged s;
     m_pWaveRenderer := m_pWaveRenderer s; m_pTempoDisplay := m_pTempoDisplay s;
     inbox := inbox s; log := log s |}.

Definition set_m_bInternalWaveChanged v (s : CSoundGen) : CSoundGen :=
  {| dev := dev s; platform := platform s; m_hThread := m_hThread s;
     m_pDocument := m_pDocument s; m_pTrackerView := m_pTrackerView s;
     m_pSoundDriver := m_pSoundDriver s; m_pTempoCounter := m_pTempoCounter s;
     m_pInstRecorder := m_pInstRecorder s; muted_ := muted_ s;
     m_bHaltRequest := m_bHaltRequest s; m_bPlayingSingleRow := m_bPlayingSingleRow s;
     m_iLastTrack := m_iLastTrack s; m_iLastHighlight := m_iLastHighlight s;
     m_iFrameCounter := m_iFrameCounter s; m_bWaveChanged := m_bWaveChanged s;
     m_bInternalWaveChanged := v; m_pWaveRenderer := m_pWaveRenderer s;
     m_pTempoDisplay := m_pTempoDisplay s; inbox := inbox s; log := log s |}.

Definition set_m_pWaveRenderer v (s : CSoundGen) : CSoundGen :=
  {| dev := dev s; platform := platform s; m_hThread := m_hThread s;
     m_pDocument := m_pDocument s; m_pTrackerView := m_pTrackerView s;
     m_pSoundDriver := m_pSoundDriver s; m_pTempoCounter := m_pTempoCounter s;
     m_pInstRecorder := m_pInstRecorder s; muted_ := muted_ s;
     m_bHaltRequest := m_bHaltRequest s; m_bPlayingSingleRow := m_bPlayingSingleRow s;
     m_iLastTrack := m_iLastTrack s; m_iLastHighlight := m_iLastHighlight s;
     m_iFrameCounter := m_iFrameCounter s; m_bWaveChanged := m_bWaveChanged s;
     m_bInternalWaveChanged := m_bInternalWaveChanged s; m_pWaveRenderer := v;
     m_pTempoDisplay := m_pTempoDisplay s; inbox := inbox s; log := log s |}.

Definition set_m_pTempoDisplay v (s : CSoundGen) : CSoundGen :=
  {| dev := dev s; platform := platform s; m_hThread := m_hThread s;
     m_pDocument := m_pDocument s; m_pTrackerView := m_pTrackerView s;
     m_pSoundDriver := m_pSoundDriver s; m_pTempoCounter := m_pTempoCounter s;
     m_pInstRecorder := m_pInstRecorder s; muted_ := muted_ s;
     m_bHaltRequest := m_bHaltRequest s; m_bPlayingSingleRow := m_bPlayingSingleRow s;
     m_iLastTrack := m_iLastTrack s; m_iLastHighlight := m_iLastHighlight s;
     m_iFrameCounter := m_iFrameCounter s; m_bWaveChanged := m_bWaveChanged s;
     m_bInternalWaveChanged := m_bInternalWaveChanged s;
     m_pWaveRenderer := m_pWaveRenderer s; m_pTempoDisplay := v; inbox := inbox s;
     log := log s |}.

Definition set_inbox v (s : CSoundGen) : CSoundGen :=
  {| dev := dev s; platform := platform s; m_hThread := m_hThread s;
     m_pDocument := m_pDocument s; m_pTrackerView := m_pTrackerView s;
     m_pSoundDriver := m_pSoundDriver s; m_pTempoCounter := m_pTempoCounter s;
     m_pInstRecorder := m_pInstRecorder s; muted_ := muted_ s;
     m_bHaltRequest := m_bHaltRequest s; m_bPlayingSingleRow := m_bPlayingSingleRow s;
     m_iLastTrack := m_iLastTrack s; m_iLastHighlight := m_iLastHighlight s;
     m_iFrameCounter := m_iFrameCounter s; m_bWaveChanged := m_bWaveChanged s;
     m_bInternalWaveChanged := m_bInternalWaveChanged s;
     m_pWaveRenderer := m_pWaveRenderer s; m_pTempoDisplay := m_pTempoDisplay s;
     inbox := v; log := log s |}.

Definition set_log v (s : CSoundGen) : CSoundGen :=
  {| dev := dev s; platform := platform s; m_hThread := m_hThread s;
     m_pDocument := m_pDocument s; m_pTrackerView := m_pTrackerView s;
     m_pSoundDriver := m_pSoundDriver s; m_pTempoCounter := m_pTempoCounter s;
     m_pInstRecorder := m_pInstRecorder s; muted_ := muted_ s;
     m_bHaltRequest := m_bHaltRequest s; m_bPlayingSingleRow := m_bPlayingSingleRow s;
     m_iLastTrack := m_iLastTrack s; m_iLastHighlight := m_iLastHighlight s;
     m_iFrameCounter := m_iFrameCounter s; m_bWaveChanged := m_bWaveChanged s;
     m_bInternalWaveChanged := m_bInternalWaveChanged s;
     m_pWaveRenderer := m_pWaveRenderer s; m_pTempoDisplay := m_pTempoDisplay s;
     inbox := inbox s; log := v |}.

Definition emit (e : event) (s : CSoundGen) : CSoundGen :=
  set_log (log s ++ [e]) s.

(** [PostThreadMessage]: the message joins the queue of the player
    thread; without a thread there is no queue to post to. *)
Definition PostThreadMessage (m : message) (s : CSoundGen) : CSoundGen :=
  if m_hThread s then set_inbox (inbox s ++ [m]) s else s.

(** *** The sound driver *)

Definition set_pending (p : gmap nat (stChanNote * note_prio_t)) (d : CSoundDriver) :=
  {| m_bPlaying := m_bPlaying d; m_pPlayerCursor := m_pPlayerCursor d;
     m_bDriverHalt := m_bDriverHalt d; pending := p |}.

(** Modelled from the spec: "begins sequencing from the given cursor". *)
Definition drv_StartPlayer (cur : CPlayerCursor) (d : CSoundDriver) : CSoundDriver :=
  {| m_bPlaying := true; m_pPlayerCursor := Some cur;
     m_bDriverHalt := false; pending := pending d |}.

(** Modelled from the spec: the cursor is "destroyed when playback
    halts". *)
Definition drv_StopPlayer (d : CSoundDriver) : CSoundDriver :=
  {| m_bPlaying := false; m_pPlayerCursor := None;
     m_bDriverHalt := false; pending := pending d |}.

(** Modelled from the spec: "a higher-priority note emitted in the same
    tick always wins; equal priority uses last-write-wins". *)
Definition drv_QueueNote (chan : chan_id_t) (note : stChanNote) (prio : note_prio_t)
    (d : CSoundDriver) : CSoundDriver :=
  match value_cast chan with
  | None => d
  | Some i =>
      match pending d !! i with
      | Some (_, p0) =>
          if (prio_rank p0 <=? prio_rank prio)%nat
          then set_pending (<[i := (note, prio)]> (pending d)) d
          else d
      | None => set_pending (<[i := (note, prio)]> (pending d)) d
      end
  end.

(** Modelled from the spec: resetting the tracks drops what is queued. *)
Definition drv_ResetTracks (d : CSoundDriver) : CSoundDriver := set_pending ∅ d.

(** Modelled from the spec: the driver "pushes accumulated register
    changes into the Hardware Emulation Unit"; every queued note becomes
    the register writes of its channel, unless the channel is muted: a
    note queued on a muted channel "must never reach the Hardware
    Emulation Unit as a register write".  The driver is constructed with
    its parent (line 98), which it asks for the mute flag: [muted] is
    the parent's [IsChannelMuted]. *)
Definition drv_writes (muted : chan_id_t -> bool) (d : CSoundDriver) : list event :=
  omap (fun '(i, (note, _)) =>
          if muted (CHANID i) then None else Some (ApuChannelWrite (CHANID i) note))
       (map_to_list (pending d)).

Definition IsPlaying (s : CSoundGen) : bool := m_bPlaying (m_pSoundDriver s).

(** [m_pAudioDriver->IsAudioDeviceOpen()].  The source does not check the
    pointer: before the first driver is created the call is undefined,
    and the [false] that the model answers there describes no behaviour
    of the source. *)
Definition IsAudioDeviceOpen (s : CSoundGen) : bool :=
  match m_pAudioDriver (dev s) with Some b => b | None => false end.

(** *** Mute and record channel, lines 638-646 and 1279-1287 *)

Definition GetRecordChannel (s : CSoundGen) : chan_id_t :=
  RecordChannel (m_pInstRecorder s).

Definition SetRecordChannel (Channel : chan_id_t) (s : CSoundGen) : CSoundGen :=
  set_m_pInstRecorder
    {| RecordChannel := Channel; recording := recording (m_pInstRecorder s) |} s.

Definition set_recording (b : bool) (s : CSoundGen) : CSoundGen :=
  set_m_pInstRecorder
    {| RecordChannel := RecordChannel (m_pInstRecorder s); recording := b |} s.

(** [muted_[value_cast(chan)] = mute]: an index outside the array is
    undefined behaviour in the source; the model leaves the array as it
    is. *)
Definition SetChannelMute (chan : chan_id_t) (mute : bool) (s : CSoundGen) : CSoundGen :=
  let s :=
    match value_cast chan with
    | Some i => set_muted_ (<[i := mute]> (muted_ s)) s
    | None => s
    end in
  if mute && bool_decide (chan = GetRecordChannel s)
  then SetRecordChannel NONE s
  else s.

Definition IsChannelMuted (chan : chan_id_t) (s : CSoundGen) : bool :=
  match value_cast chan with
  | Some i => default false (muted_ s !! i)
  | None => false
  end.

(** *** Player state functions *)

(** Lines 1173-1178; the document pointer is dereferenced for the MIDI
    channel index. *)
Definition QueueNote (Channel : chan_id_t) (NoteData : stChanNote) (Priority : note_prio_t)
    (s : CSoundGen) : CSoundGen :=
  let s := set_m_pSoundDriver (drv_QueueNote Channel NoteData Priority (m_pSoundDriver s)) s in
  match m_pDocument s with
  | Some doc =>
      emit (MidiWriteNote (GetChannelIndex doc Channel) (Note NoteData)
              (Octave NoteData) (Vol NoteData)) s
  | None => s
  end.

Definition GetPlayerPos (s : CSoundGen) : Z * Z :=
  match m_pPlayerCursor (m_pSoundDriver s) with
  | Some cursor => (GetCurrentFrame cursor, GetCurrentRow cursor)
  | None => (0, 0)
  end.

Definition GetPlayerTrack (s : CSoundGen) : Z := m_iLastTrack s.

Definition GetPlayerTicks (s : CSoundGen) : Z :=
  match m_pPlayerCursor (m_pSoundDriver s) with
  | Some cursor => GetTotalTicks cursor
  | None => 0
  end.

(** Lines 590-601.  The channel state itself lives in the driver's
    channel handlers; the model records that it was loaded. *)
Definition ApplyGlobalState (s : CSoundGen) : CSoundGen :=
  let pos :=
    if IsPlaying s then Some (GetPlayerPos s)
    else GetSelectedPos <$> m_pTrackerView s in
  match pos, m_pDocument s with
  | Some (Frame, Row), Some doc =>
      let s := emit (DriverLoadSoundState (GetPlayerTrack s) Frame Row) s in
      set_m_iLastHighlight (GetHighlightAt doc (GetPlayerTrack s) Frame Row) s
  | _, _ => s
  end.

(** Lines 271-284. *)
Definition PlaySingleRow (track : Z) (s : CSoundGen) : CSoundGen :=
  let s := set_m_iLastTrack track s in
  let s :=
    if negb (m_bPlayingSingleRow s)
    then set_m_bPlayingSingleRow true (ApplyGlobalState s)
    else s in
  match m_pTrackerView s, m_pDocument s with
  | Some view, Some doc =>
      let '(frame, row) := GetSelectedPos view in
      foldl (fun s i =>
               if negb (IsChannelMuted i s)
               then QueueNote i (GetActiveNote doc track frame i row) NOTE_PRIO_1 s
               else s)
            s (Channels doc)
  | _, _ => s
  end.

(** *** Emulation and tempo resets *)

(** Lines 696-713. *)
Definition ResetAPU (s : CSoundGen) : CSoundGen :=
  let s := emit ApuReset s in
  let s := emit (ApuWrite 0x4015 0x0F) s in
  let s := emit (ApuWrite 0x4017 0x00) s in
  let s := emit (ApuWrite 0x4023 0x02) s in
  let s := emit (ApuWrite 0x5015 0x03) s in
  emit ApuClearSample s.

(** Lines 730-742 (the arpeggiator it clears is not modelled). *)
Definition MakeSilent (s : CSoundGen) : CSoundGen :=
  let s := match m_pTrackerView s with Some _ => emit ViewMakeSilent s | None => s end in
  let s := emit ApuReset s in
  let s := emit ApuClearSample s in
  set_m_pSoundDriver (drv_ResetTracks (m_pSoundDriver s)) s.

(** Lines 751-760. *)
Definition ResetTempo (s : CSoundGen) : CSoundGen :=
  match m_pDocument s with
  | None => s
  | Some doc =>
      let s := set_m_pTempoCounter {| GetTempo := SongTempo doc (m_iLastTrack s) |} s in
      set_m_iLastHighlight (GetHighlight doc (m_iLastTrack s)) s
  end.

(** Lines 480-487. *)
Definition ResetBuffer (s : CSoundGen) : CSoundGen :=
  emit ApuReset (emit AudioDriverReset s).

(** Modelled from the spec: the register image of the Hardware Emulation
    Unit ([APU/APU.h] is not part of [Source/]): a reset returns every
    register to its power-on state (no entry), a write stores its value
    at its address. *)
Definition apu_step (regs : gmap Z Z) (e : event) : gmap Z Z :=
  match e with
  | ApuReset => ∅
  | ApuWrite a v => <[a := v]> regs
  | _ => regs
  end.

Definition RegisterImage (l : list event) : gmap Z Z := foldl apu_step ∅ l.

(** The register writes of channel [chan] that reached the emulation. *)
Definition channel_writes (chan : chan_id_t) (l : list event) : list stChanNote :=
  omap (fun e => match e with
                 | ApuChannelWrite c n => if bool_decide (c = chan) then Some n else None
                 | _ => None
                 end) l.

(** Lines 768-771. *)
Definition GetAverageBPM (s : CSoundGen) : Q :=
  match m_pTempoDisplay s with
  | Some d => TempoDisplay.GetAverageBPM (GetTempo (m_pTempoCounter s)) d
  | None => GetTempo (m_pTempoCounter s)
  end.

(** *** Starting and halting the player *)

(** Lines 554-588. *)
Definition BeginPlayer (Pos : CPlayerCursor) (s : CSoundGen) : CSoundGen :=
  match m_pDocument s with
  | None => s
  | Some doc =>
      if negb (IsAudioDeviceOpen s) || negb (IsFileLoaded doc) then s
      else
        let s := set_m_pSoundDriver (drv_StartPlayer Pos (m_pSoundDriver s)) s in
        let s := set_m_bHaltRequest false s in
        let s := set_m_bPlayingSingleRow false s in
        let s := set_m_iLastTrack (GetCurrentSong Pos) s in
        let s :=
          if bAverageBPM (pSettings (dev s))
          then set_m_pTempoDisplay
                 (Some (TempoDisplay.Build TempoDisplay.DEFAULT_AVERAGE_BPM_SIZE)) s
          else s in
        let s := ResetTempo s in
        let s := ResetAPU s in
        let s := MakeSilent s in
        let s := if bRetrieveChanState (pSettings (dev s)) then ApplyGlobalState s else s in
        if bool_decide (GetRecordChannel s <> NONE) then set_recording true s else s
  end.

(** Lines 670-694. *)
Definition HaltPlayer (s : CSoundGen) : CSoundGen :=
  let s := MakeSilent s in
  let s := emit ApuClearSample s in
  let s := match m_pTrackerView s with Some _ => set_recording false s | None => s end in
  let s := set_m_pSoundDriver (drv_StopPlayer (m_pSoundDriver s)) s in
  let s := set_m_bHaltRequest false s in
  let s := set_m_bPlayingSingleRow false s in
  set_m_pTempoDisplay None s.

(** *** Rendering *)

(** Modelled from the spec: [Start] marks the renderer started,
    [SetOutputFile] hands it its sink. *)
Definition renderer_Start (r : CWaveRenderer) : CWaveRenderer :=
  {| Started := true; Finished := Finished r; has_output_file := has_output_file r;
     ShouldStopRender := ShouldStopRender r; ShouldStartPlayer := ShouldStartPlayer r;
     ShouldStopPlayerNow := ShouldStopPlayerNow r; GetRenderTrack := GetRenderTrack r |}.

Definition renderer_SetOutputFile (r : CWaveRenderer) : CWaveRenderer :=
  {| Started := Started r; Finished := Finished r; has_output_file := true;
     ShouldStopRender := ShouldStopRender r; ShouldStartPlayer := ShouldStartPlayer r;
     ShouldStopPlayerNow := ShouldStopPlayerNow r; GetRenderTrack := GetRenderTrack r |}.

(** Lines 892-894. *)
Definition is_rendering_impl (s : CSoundGen) : bool :=
  match m_pWaveRenderer s with
  | Some r => Started r && negb (Finished r)
  | None => false
  end.

Definition IsRendering (s : CSoundGen) : bool := is_rendering_impl s.
Definition IsBackgroundTask (s : CSoundGen) : bool := IsRendering s.

(** Lines 648-651. *)
Definition ShouldStopPlayer (s : CSoundGen) : bool :=
  match m_pWaveRenderer s with
  | Some r => is_rendering_impl s && ShouldStopPlayerNow r
  | None => false
  end.

(** Lines 865-869. *)
Definition StartRendering (s : CSoundGen) : CSoundGen :=
  let s := ResetBuffer s in
  set_m_pWaveRenderer (renderer_Start <$> m_pWaveRenderer s) s.

(** Lines 871-884. *)
Definition StopRendering (s : CSoundGen) : CSoundGen :=
  if negb (is_rendering_impl s) then s
  else
    let s := set_m_pWaveRenderer None s in
    let s := ResetBuffer s in
    let s := HaltPlayer s in
    ResetAPU s.

(** *** Callbacks from the driver, lines 604-636

    The renderer's own [Tick] and [StepRow] (its policy) and the
    arpeggiator are outside the model. *)

Definition OnTick (s : CSoundGen) : CSoundGen :=
  match m_pTempoDisplay s with
  | Some d =>
      set_m_pTempoDisplay (Some (TempoDisplay.Tick (GetTempo (m_pTempoCounter s)) d)) s
  | None => s
  end.

Definition OnStepRow (s : CSoundGen) : CSoundGen :=
  match m_pTempoDisplay s with
  | Some d => set_m_pTempoDisplay (Some (TempoDisplay.StepRow d)) s
  | None => s
  end.

Definition OnPlayNote (chan : chan_id_t) (note : stChanNote) (s : CSoundGen) : CSoundGen :=
  if negb (IsChannelMuted chan s) then
    let s := match m_pTrackerView s with
             | Some _ => emit (ViewPlayerPlayNote chan note) s
             | None => s
             end in
    match m_pDocument s with
    | Some doc =>
        emit (MidiWriteNote (GetChannelIndex doc chan) (Note note) (Octave note) (Vol note)) s
    | None => s
    end
  else s.

Definition OnUpdateRow (frame row : Z) (s : CSoundGen) : CSoundGen :=
  let s :=
    match m_pDocument s with
    | Some doc =>
        match GetBookmarkHighlight doc (m_iLastTrack s) frame row with
        | Some First => if negb (First =? -1) then set_m_iLastHighlight First s else s
        | None => s
        end
    | None => s
    end in
  match m_pTrackerView s with
  | Some _ => if negb (IsBackgroundTask s) then emit (ViewPostPlayer frame row) s else s
  | None => s
  end.

(** Modelled from the spec: [m_pSoundDriver->Tick()], "decode next row if
    due, step ongoing effects".  While playing, the song says what the
    tick decodes; the driver reports the tick and, when a row became
    due, the row and each of its notes through the callbacks above, and
    queues the notes of the channels that are not muted.  A driver that
    is not playing decodes nothing. *)
Definition SoundDriver_Tick (s : CSoundGen) : CSoundGen :=
  let d := m_pSoundDriver s in
  if m_bPlaying d then
    match m_pPlayerCursor d, m_pDocument s with
    | Some cur, Some doc =>
        let r := SongTick doc cur in
        let s := set_m_pSoundDriver
                   {| m_bPlaying := true; m_pPlayerCursor := Some (next_cursor r);
                      m_bDriverHalt := m_bDriverHalt d || song_halt r;
                      pending := pending d |} s in
        let s := OnTick s in
        match stepped_row r with
        | Some notes =>
            let s := OnStepRow s in
            let s :=
              foldl (fun s '(chan, note) =>
                       OnPlayNote chan note
                         (if IsChannelMuted chan s then s
                          else set_m_pSoundDriver
                                 (drv_QueueNote chan note NOTE_PRIO_1 (m_pSoundDriver s)) s))
                    s notes in
            OnUpdateRow (GetCurrentFrame (next_cursor r)) (GetCurrentRow (next_cursor r)) s
        | None => s
        end
    | _, _ => s
    end
  else s.

(** Lines 1033-1053. *)
Definition UpdateAPU (s : CSoundGen) : CSoundGen :=
  let s := set_m_bInternalWaveChanged (m_bWaveChanged s) s in
  let s := set_m_bWaveChanged false s in
  let d := m_pSoundDriver s in
  let s := set_log (log s ++ drv_writes (fun chan => IsChannelMuted chan s) d) s in
  set_m_pSoundDriver (set_pending ∅ d) s.

(** *** Commands posted by the foreground, lines 230-269 and 286-293 *)

Definition StartPlayer (Pos : CPlayerCursor) (s : CSoundGen) : CSoundGen :=
  if negb (m_hThread s) then s else PostThreadMessage (WM_USER_PLAY Pos) s.

Definition StopPlayer (s : CSoundGen) : CSoundGen :=
  if negb (m_hThread s) then s else PostThreadMessage WM_USER_STOP s.

Definition ResetPlayer (Track : Z) (s : CSoundGen) : CSoundGen :=
  if negb (m_hThread s) then s else PostThreadMessage (WM_USER_RESET (cursor_at Track)) s.

Definition LoadSettings (s : CSoundGen) : CSoundGen :=
  if negb (m_hThread s) then s else PostThreadMessage WM_USER_LOAD_SETTINGS s.

Definition SilentAll (s : CSoundGen) : CSoundGen :=
  if negb (m_hThread s) then s else PostThreadMessage WM_USER_SILENT_ALL s.

Definition WriteAPU (Address Value : Z) (s : CSoundGen) : CSoundGen :=
  if negb (m_hThread s) then s else PostThreadMessage (WM_USER_WRITE_APU Address Value) s.

(** *** The player thread *)

(** Lines 1069-1076. *)
Definition OnLoadSettings (s : CSoundGen) : CSoundGen :=
  let '(ok, d) := ResetAudioDevice (platform s) (dev s) in
  let s := set_dev d s in
  if negb ok && m_pVisualizerWnd d then emit ReportAudioProblem s else s.

(** Lines 1083-1091. *)
Definition OnResetPlayer (pCur : CPlayerCursor) (s : CSoundGen) : CSoundGen :=
  let s := set_m_iLastTrack (GetCurrentSong pCur) s in
  if IsPlaying s then BeginPlayer pCur s else s.

(** Lines 1139-1151 (the recorder's caches are not modelled). *)
Definition OnRemoveDocument (s : CSoundGen) : CSoundGen :=
  set_m_pTrackerView None (set_m_pDocument None s).

(** The message map. *)
Definition dispatch (s : CSoundGen) (m : message) : CSoundGen :=
  match m with
  | WM_USER_SILENT_ALL => MakeSilent s
  | WM_USER_LOAD_SETTINGS => OnLoadSettings s
  | WM_USER_PLAY cursor => BeginPlayer cursor s
  | WM_USER_STOP => HaltPlayer s
  | WM_USER_RESET cursor => OnResetPlayer cursor s
  | WM_USER_START_RENDER => StartRendering s
  | WM_USER_STOP_RENDER => StopRendering s
  | WM_USER_WRITE_APU wParam lParam =>
      emit (ApuWrite (wParam mod 2 ^ 16) (lParam mod 2 ^ 8)) s
  | WM_USER_REMOVE_DOCUMENT => OnRemoveDocument s
  end.

(** The thread handles the queued messages oldest first. *)
Definition pump (s : CSoundGen) : CSoundGen :=
  foldl dispatch (set_inbox [] s) (inbox s).

(** Lines 1003-1031. *)
Definition IdleLoop (s : CSoundGen) : CSoundGen :=
  match m_pDocument s with
  | None => s
  | Some doc =>
      if negb (IsAudioDeviceOpen s) || negb (IsFileLoaded doc) then s
      else
        let s := set_m_iFrameCounter (to_unsigned (m_iFrameCounter s + 1)) s in
        let s := SoundDriver_Tick s in
        let s :=
          match m_pWaveRenderer s with
          | Some r =>
              if ShouldStopRender r then StopRendering s
              else if ShouldStartPlayer r
                   then StartPlayer (cursor_at (GetRenderTrack r)) s
                   else s
          | None => s
          end in
        let s := UpdateAPU s in
        let s :=
          if IsPlaying s && bool_decide (GetRecordChannel s <> NONE)
          then emit (RecordInstrument (GetPlayerTicks s)) s
          else s in
        if m_bDriverHalt (m_pSoundDriver s) || m_bHaltRequest s then HaltPlayer s else s
  end.

(** One round of the thread's run loop: drain the queue, then idle. *)
Definition engine_iter (s : CSoundGen) : CSoundGen := IdleLoop (pump s).

Definition engine_run (n : nat) (s : CSoundGen) : CSoundGen := Nat.iter n engine_iter s.

(** *** Foreground calls that wait for the player thread

    The foreground thread and the player thread share the object.  What
    the player thread gets done while the foreground sleeps is given by
    a schedule: [sched k] is the number of rounds of its run loop the
    thread completes during the [k]-th [Sleep(100)] of a wait. *)
Definition schedule := nat -> nat.

Definition Sleep100 (sched : schedule) (k : nat) (s : CSoundGen) : CSoundGen :=
  engine_run (sched k) s.

(** [for (int i = 0; i < 40 && IsPlaying(); ++i) Sleep(100);] with
    [fuel = 40 - i]; the result carries the final [i]. *)
Fixpoint WaitForStop_loop (sched : schedule) (fuel i : nat) (s : CSoundGen)
    : nat * CSoundGen :=
  match fuel with
  | O => (i, s)
  | S fuel' =>
      if IsPlaying s
      then WaitForStop_loop sched fuel' (S i) (Sleep100 sched i s)
      else (i, s)
  end.

(** Lines 921-934. *)
Definition WaitForStop (sched : schedule) (s : CSoundGen) : bool * CSoundGen :=
  let '(_, s') := WaitForStop_loop sched 40 0 s in
  (negb (IsPlaying s'), s').

(** Milliseconds slept by [WaitForStop]. *)
Definition WaitForStop_elapsed (sched : schedule) (s : CSoundGen) : Z :=
  100 * Z.of_nat (fst (WaitForStop_loop sched 40 0 s)).

(** Lines 834-862.  [pRender] is the shared pointer handed in ([None]
    when null), [open_ok] says whether [CWaveFile::OpenFile] succeeds. *)
Definition RenderToFile (sched : schedule) (open_ok : bool)
    (pRender : option CWaveRenderer) (s : CSoundGen) : bool * CSoundGen :=
  match pRender with
  | None => (false, s)
  | Some r =>
      let s :=
        if IsPlaying s
        then snd (WaitForStop sched (set_m_bHaltRequest true s))
        else s in
      let s := set_m_pWaveRenderer (Some r) s in
      let s := emit (WaveOpenFile (iSampleRate (Sound (pSettings (dev s))))
                       (iSampleSize (Sound (pSettings (dev s)))) 1) s in
      if open_ok then
        let s := set_m_pWaveRenderer (Some (renderer_SetOutputFile r)) s in
        (true, PostThreadMessage WM_USER_START_RENDER s)
      else
        let s := StopPlayer s in
        (false, emit (MessageBox IDS_FILE_OPEN_ERROR) s)
  end.

(** The state in which [RenderToFile] goes on after its preparation. *)
Definition render_prepared (sched : schedule) (s : CSoundGen) : CSoundGen :=
  if IsPlaying s then snd (WaitForStop sched (set_m_bHaltRequest true s)) else s.

(** *** Runs of the editor and the player thread

    The steps of a session: the view plays single rows and queues
    notes, channels are muted and unmuted, the foreground posts commands
    to the player thread, and the player thread idles or takes a whole
    round of its run loop, in any order and whether or not the player is
    playing. *)
Inductive action :=
| DoPlaySingleRow (track : Z)
| DoQueueNote (chan : chan_id_t) (note : stChanNote) (prio : note_prio_t)
| DoSetChannelMute (chan : chan_id_t) (mute : bool)
| DoIdleLoop
| DoPost (m : message)
| DoRound.

Definition step (s : CSoundGen) (a : action) : CSoundGen :=
  match a with
  | DoPlaySingleRow track => PlaySingleRow track s
  | DoQueueNote chan note prio => QueueNote chan note prio s
  | DoSetChannelMute chan mute => SetChannelMute chan mute s
  | DoIdleLoop => IdleLoop s
  | DoPost m => PostThreadMessage m s
  | DoRound => engine_iter s
  end.

Definition run (s : CSoundGen) (l : list action) : CSoundGen := foldl step s l.

(** The actions that do not unmute [chan]. *)
Definition keeps_muted (chan : chan_id_t) (a : action) : Prop :=
  match a with
  | DoSetChannelMute c mute => c = chan -> mute = true
  | _ => True
  end.

(** *** Notions used in the statements *)

(** The calls [ResetAPU] makes on the emulation. *)
Definition power_on_sequence : list event :=
  [ApuReset; ApuWrite 0x4015 0x0F; ApuWrite 0x4017 0x00; ApuWrite 0x4023 0x02;
   ApuWrite 0x5015 0x03; ApuClearSample].

(** The register image [ResetAPU] leaves behind. *)
Definition power_on_image : gmap Z Z :=
  <[0x5015 := 0x03]> (<[0x4023 := 0x02]> (<[0x4017 := 0x00]> (<[0x4015 := 0x0F]> ∅))).

(** [BeginPlayer] gets past its guard. *)
Definition ready (s : CSoundGen) : Prop :=
  exists doc, m_pDocument s = Some doc /\ IsFileLoaded doc = true
              /\ IsAudioDeviceOpen s = true.

(** The log of [s'] continues the log of [s]. *)
Definition extends (s s' : CSoundGen) : Prop := exists l, log s' = log s ++ l.

(** Channel [chan], with index [i], is muted and the register writes of
    the channel so far are [W]. *)
Definition quiet (chan : chan_id_t) (i : nat) (W : list stChanNote) (s : CSoundGen) : Prop :=
  value_cast chan = Some i
  /\ muted_ s !! i = Some true
  /\ channel_writes chan (log s) = W.

(** No renderer is registered, or the registered one was not started
    and does not ask for the player. *)
Definition renderer_inert (s : CSoundGen) : Prop :=
  match m_pWaveRenderer s with
  | Some r => Started r = false /\ ShouldStartPlayer r = false
  | None => True
  end.

(** The player is stopped and nothing is on its way that would start it. *)
Definition stopped (s : CSoundGen) : Prop :=
  IsPlaying s = false /\ inbox s = [] /\ renderer_inert s.

(** A stop request is the only message queued. *)
Definition stop_posted (s : CSoundGen) : Prop :=
  inbox s = [WM_USER_STOP] /\ renderer_inert s.

(** A halt was requested through [m_bHaltRequest] on an engine whose
    idle loop gets past its guard. *)
Definition halting (s : CSoundGen) : Prop :=
  m_bHaltRequest s = true /\ ready s /\ inbox s = [] /\ renderer_inert s.

(** [s'] differs from [s] in nothing the halting of the player looks at. *)
Definition calm (s s' : CSoundGen) : Prop :=
  m_bHaltRequest s' = m_bHaltRequest s
  /\ inbox s' = inbox s
  /\ m_pWaveRenderer s' = m_pWaveRenderer s.

End Engine.

(** * Sample configurations

    Concrete platforms, settings and states at which the statements below
    are evaluated. *)
Module Samples.

Import AudioDevice.

(** Two output devices, every call succeeds. *)
Definition pf_ok : Platform :=
  {| GetDeviceCount := 2;
     SetupDevice_ok := fun _ => true;
     OpenChannel_ok := fun _ _ _ _ _ => true;
     SetupSound_ok := fun _ => true |}.

(** 44.1 kHz, 16 bit, a 40 ms buffer; every chip level at [level];
    device index [device]. *)
Definition settings (level device buffer : Z) : CSettings :=
  {| Sound := {| iSampleSize := 16; iSampleRate := 44100; iBufferLength := buffer;
                 iDevice := device; iBassFilter := 30; iTrebleFilter := 12000;
                 iTrebleDamping := 24; iMixVolume := 100 |};
     ChipLevels := {| iLevelAPU1 := level; iLevelAPU2 := level; iLevelVRC6 := level;
                      iLevelVRC7 := level; iLevelMMC5 := level; iLevelFDS := level;
                      iLevelN163 := level; iLevelS5B := level |};
     bAverageBPM := true; bRetrieveChanState := false; bMidiArpeggio := false |}.

Definition device_state (p : CSettings) : State :=
  {| pSettings := p; m_pAudioDriver := None; m_pVisualizerWnd := false;
     m_iMachineType := NTSC; calls := [] |}.

(** The output device went away: no channel can be opened any more. *)
Definition pf_unplugged : Platform :=
  {| GetDeviceCount := 2;
     SetupDevice_ok := fun _ => true;
     OpenChannel_ok := fun _ _ _ _ _ => false;
     SetupSound_ok := fun _ => true |}.

Import Engine.

Definition note (n : Z) : stChanNote :=
  {| Note := n; Octave := 3; Vol := 15; Instrument := 0 |}.

(** A loaded module with the five channels of the 2A03; every row holds
    one note per channel, the song never asks to halt and steps no row
    on its own. *)
Definition doc : CFamiTrackerDoc :=
  {| IsFileLoaded := true;
     Channels := CHANID <$> [0; 1; 2; 3; 4]%nat;
     GetActiveNote := fun _ _ chan _ =>
       note (match chan with CHANID n => Z.of_nat n + 1 | NONE => 0 end);
     GetChannelIndex := fun chan =>
       match chan with CHANID n => Z.of_nat n | NONE => -1 end;
     GetHighlight := fun _ => 4;
     GetHighlightAt := fun _ _ _ => 4;
     GetBookmarkHighlight := fun _ _ _ => None;
     SongTempo := fun _ => 150%Q;
     SongTick := fun cur =>
       {| next_cursor :=
            {| GetCurrentSong := GetCurrentSong cur;
               GetCurrentFrame := GetCurrentFrame cur;
               GetCurrentRow := GetCurrentRow cur;
               GetTotalTicks := GetTotalTicks cur + 1;
               GetQueuedFrame := GetQueuedFrame cur |};
          stepped_row := None;
          song_halt := false |} |}.

Definition view : CFamiTrackerView :=
  {| GetSelectedPos := (0, 0); GetSelectedChannelID := CHANID 0 |}.

Definition renderer : CWaveRenderer :=
  {| Started := false; Finished := false; has_output_file := false;
     ShouldStopRender := false; ShouldStartPlayer := false;
     ShouldStopPlayerNow := false; GetRenderTrack := 0 |}.

(** The engine with its thread running, the module loaded, the audio
    device open and nothing playing. *)
Definition engine (pf : Platform) : CSoundGen :=
  {| dev := {| pSettings := settings 0 0 40; m_pAudioDriver := Some true;
               m_pVisualizerWnd := false; m_iMachineType := NTSC; calls := [] |};
     platform := pf;
     m_hThread := true;
     m_pDocument := Some doc;
     m_pTrackerView := Some view;
     m_pSoundDriver := {| m_bPlaying := false; m_pPlayerCursor := None;
                          m_bDriverHalt := false; pending := ∅ |};
     m_pTempoCounter := {| GetTempo := 150%Q |};
     m_pInstRecorder := {| RecordChannel := NONE; recording := false |};
     muted_ := replicate 5 false;
     m_bHaltRequest := false;
     m_bPlayingSingleRow := false;
     m_iLastTrack := 0;
     m_iLastHighlight := 4;
     m_iFrameCounter := 0;
     m_bWaveChanged := false;
     m_bInternalWaveChanged := false;
     m_pWaveRenderer := None;
     m_pTempoDisplay := None;
     inbox := [];
     log := [] |}.

(** The same engine after [StartPlayer] was posted and handled. *)
Definition playing_engine (pf : Platform) : CSoundGen :=
  engine_run 1 (StartPlayer (cursor_at 0) (engine pf)).

(** The playing engine after the sound settings were reloaded while the
    output device was gone: the channel could not be reopened. *)
Definition device_lost : CSoundGen :=
  engine_run 1 (LoadSettings (playing_engine pf_unplugged)).

(** The player thread completes one round of its loop during every
    [Sleep(100)] of the foreground. *)
Definition healthy : schedule := fun _ => 1%nat.

End Samples.

(** * Further parts of [CSoundGen]

    The sequence play position, the entry points around the player thread
    that the parts above do not need, and the thread's start and exit. *)

(** ** The sequence play position, lines 1230-1250 *)
Module SequencePos.

(** The three members the sequence editor polls.  A sequence pointer is
    compared by identity only: it is represented by a number, the null
    pointer by [None]. *)
Record state := {
  m_pSequencePlayPos : option nat;
  m_iSequencePlayPos : Z;
  m_iSequenceTimeout : Z
}.

(** The constructor, lines 110-112. *)
Definition initial : state :=
  {| m_pSequencePlayPos := None; m_iSequencePlayPos := 0; m_iSequenceTimeout := 0 |}.

(** Lines 1230-1235. *)
Definition SetSequencePlayPos (pSequence : option nat) (Pos : Z) (st : state) : state :=
  if bool_decide (pSequence = m_pSequencePlayPos st)
  then {| m_pSequencePlayPos := m_pSequencePlayPos st;
          m_iSequencePlayPos := Pos;
          m_iSequenceTimeout := 5 |}
  else st.

(** Lines 1237-1250; the result is [Ret] and the state left behind. *)
Definition GetSequencePlayPos (pSequence : option nat) (st : state) : Z * state :=
  let pos :=
    if bool_decide (m_pSequencePlayPos st <> pSequence) then -1 else m_iSequencePlayPos st in
  let '(pos, timeout) :=
    if m_iSequenceTimeout st =? 0
    then (-1, m_iSequenceTimeout st)
    else (pos, m_iSequenceTimeout st - 1) in
  (pos, {| m_pSequencePlayPos := pSequence;
           m_iSequencePlayPos := pos;
           m_iSequenceTimeout := timeout |}).

(** [n] polls of the same sequence in a row: the state after them. *)
Definition polls (n : nat) (pSequence : option nat) (st : state) : state :=
  Nat.iter n (fun st => snd (GetSequencePlayPos pSequence st)) st.

(** The calls made on the three members. *)
Inductive op :=
| Set_ (pSequence : option nat) (Pos : Z)
| Get_ (pSequence : option nat).

Definition apply (st : state) (o : op) : state :=
  match o with
  | Set_ p Pos => SetSequencePlayPos p Pos st
  | Get_ p => snd (GetSequencePlayPos p st)
  end.

(** The positions handed to [SetSequencePlayPos] in a run of calls. *)
Definition positions_set (l : list op) : list Z :=
  omap (fun o => match o with Set_ _ Pos => Some Pos | Get_ _ => None end) l.

End SequencePos.

(** ** Entry points around the player thread *)
Module Control.

Import AudioDevice Engine.

(** Lines 537-540: [std::exchange(m_iFrameCounter, 0)]. *)
Definition GetFrameRate (s : CSoundGen) : Z * CSoundGen :=
  (m_iFrameCounter s, set_m_iFrameCounter 0 s).

(** Lines 147-157; [pView] may be null. *)
Definition AssignView (pView : option CFamiTrackerView) (s : CSoundGen) : CSoundGen :=
  match m_pTrackerView s with
  | Some _ => s
  | None => set_m_pTrackerView pView s
  end.

(** [for (int i = 0; i < 50 && m_pDocument != NULL; ++i) Sleep(100);]
    with [fuel = 50 - i]. *)
Fixpoint RemoveDocument_loop (sched : schedule) (fuel i : nat) (s : CSoundGen)
    : nat * CSoundGen :=
  match fuel with
  | O => (i, s)
  | S fuel' =>
      match m_pDocument s with
      | Some _ => RemoveDocument_loop sched fuel' (S i) (Sleep100 sched i s)
      | None => (i, s)
      end
  end.

(** Lines 159-182.  The sleeps of the second wait come after those of
    [WaitForStop] in the schedule. *)
Definition RemoveDocument (sched : schedule) (s : CSoundGen) : CSoundGen :=
  let s := StopPlayer s in
  let slept := fst (WaitForStop_loop sched 40 0 s) in
  let s := snd (WaitForStop sched s) in
  let s := PostThreadMessage WM_USER_REMOVE_DOCUMENT s in
  snd (RemoveDocument_loop (fun k => sched (slept + k)%nat) 50 0 s).

(** Milliseconds slept by [RemoveDocument]. *)
Definition RemoveDocument_elapsed (sched : schedule) (s : CSoundGen) : Z :=
  let s1 := StopPlayer s in
  let slept := fst (WaitForStop_loop sched 40 0 s1) in
  let s2 := PostThreadMessage WM_USER_REMOVE_DOCUMENT (snd (WaitForStop sched s1)) in
  100 * Z.of_nat (slept + fst (RemoveDocument_loop (fun k => sched (slept + k)%nat) 50 0 s2)).

(** Lines 903-914.  [size] is [m_pPreviewSample->size()], a [std::size_t]
    of [size_bits] bits; the difference is computed in [std::size_t] and
    converted to [int].  The first component of the result is the size of
    the sample handed to [WriteSample]. *)
Definition PlayPreviewSample (size_bits size Offset Pitch : Z) (s : CSoundGen)
    : Z * CSoundGen :=
  let Loop := 0 in
  let Length :=
    to_int ((Z.shiftr ((size - 1) mod 2 ^ size_bits) 4 - to_int (Z.shiftl Offset 2))
            mod 2 ^ size_bits) in
  let s := emit (ApuWrite 0x4010 (Z.lor Pitch Loop)) s in
  let s := emit (ApuWrite 0x4012 Offset) s in
  let s := emit (ApuWrite 0x4013 Length) s in
  let s := emit (ApuWrite 0x4015 0x0F) s in
  let s := emit (ApuWrite 0x4015 0x1F) s in
  (size, s).

(** Where [PlayBuffer] sends a finished buffer. *)
Inductive sink :=
| RendererFlushBuffer
| DoPlayBuffer
| VisualizerFlushSamples.

(** Lines 508-535; [played] says whether [DoPlayBuffer] succeeds. *)
Definition PlayBuffer (played : bool) (s : CSoundGen) : bool * list sink :=
  let to_file :=
    match m_pWaveRenderer s with
    | Some _ => is_rendering_impl s
    | None => false
    end in
  if to_file then (true, [RendererFlushBuffer])
  else if negb played then (false, [DoPlayBuffer])
  else
    (true,
     DoPlayBuffer ::
       (if negb (is_rendering_impl s)
        then (if m_pVisualizerWnd (dev s) then [VisualizerFlushSamples] else [])
        else [])).

(** *** Notions used in the statements *)

(** The part of the log of [s'] that was added since [s]. *)
Definition new_events (s s' : CSoundGen) : list event :=
  drop (length (log s)) (log s').

Definition midi_notes (l : list event) : list (Z * Z * Z * Z) :=
  omap (fun e => match e with
                 | MidiWriteNote i n o v => Some (i, n, o, v)
                 | _ => None
                 end) l.

Definition state_loads (l : list event) : list (Z * Z * Z) :=
  omap (fun e => match e with
                 | DriverLoadSoundState t f r => Some (t, f, r)
                 | _ => None
                 end) l.

(** The MIDI note [QueueNote] writes for a note on a channel. *)
Definition midi_of (doc : CFamiTrackerDoc) (chan : chan_id_t) (n : stChanNote)
    : Z * Z * Z * Z :=
  (GetChannelIndex doc chan, Note n, Octave n, Vol n).

(** What the foreground owns: [s'] has the mute flags, the armed record
    channel, the thread handle and the platform of [s]. *)
Definition same_channels (s s' : CSoundGen) : Prop :=
  muted_ s' = muted_ s
  /\ GetRecordChannel s' = GetRecordChannel s
  /\ m_hThread s' = m_hThread s
  /\ platform s' = platform s.

(** [s'] moreover has the document, the view and the audio set-up of
    [s]. *)
Definition settled (s s' : CSoundGen) : Prop :=
  same_channels s s'
  /\ m_pDocument s' = m_pDocument s
  /\ m_pTrackerView s' = m_pTrackerView s
  /\ dev s' = dev s.

(** [s'] moreover has the frame counter and the message queue of [s]. *)
Definition steady (s s' : CSoundGen) : Prop :=
  settled s s'
  /\ m_iFrameCounter s' = m_iFrameCounter s
  /\ inbox s' = inbox s.

(** The queue of [s'] is the queue of [s], possibly followed by one play
    request. *)
Definition posted (s s' : CSoundGen) : Prop :=
  inbox s' = inbox s \/ exists c, inbox s' = inbox s ++ [WM_USER_PLAY c].

(** [s'] is [s] after the part of an idle loop that follows the count of
    the frame. *)
Definition idles (s s' : CSoundGen) : Prop :=
  settled s s' /\ m_iFrameCounter s' = m_iFrameCounter s /\ posted s s'.

(** Whether the channel of the audio device opens with the settings and
    the platform of [s]. *)
Definition channel_opens (s : CSoundGen) : bool :=
  let p := Sound (pSettings (dev s)) in
  let Len := to_unsigned (iBufferLength p) in
  SetupDevice_ok (platform s) (selected_device (platform s) (dev s))
  && OpenChannel_ok (platform s) (to_unsigned (iSampleRate p)) (to_unsigned (iSampleSize p))
       1 Len (block_count Len).

End Control.

(** ** The thread's start and exit *)
Module Thread.

Import AudioDevice Engine.

(** Calls on the operating system and on the sound object. *)
Inductive os_call :=
| CreateEvent
| EnumerateDevices
| ResumeThread
| SetThreadPriority
| CloseDevice
| CloseHandle.

(** The sound generator together with the members that only the start
    and the exit of its thread touch. *)
Record CWinThread := {
  gen : CSoundGen;
  m_pDSound : bool;
  m_hInterruptEvent : bool;
  m_bRunning : bool;
  os_calls : list os_call
}.

(** Lines 321-324. *)
Definition IsRunning (t : CWinThread) : bool := m_hThread (gen t) && m_bRunning t.

(** Lines 340-367; [make_unique] does not return null. *)
Definition InitializeSound (t : CWinThread) : bool * CWinThread :=
  (true,
   {| gen := gen t; m_pDSound := true; m_hInterruptEvent := true;
      m_bRunning := m_bRunning t;
      os_calls := os_calls t ++ [CreateEvent; EnumerateDevices; ResumeThread] |}).

(** Lines 940-975.  The handling of a failed [ResetAudioDevice] is the
    one of [OnLoadSettings], word for word. *)
Definition InitInstance (t : CWinThread) : bool * CWinThread :=
  if negb (m_pDSound t) then (false, t)
  else
    let g := OnLoadSettings (gen t) in
    let g := ResetAPU g in
    let g := set_m_iFrameCounter 0 g in
    (true,
     {| gen := g; m_pDSound := m_pDSound t; m_hInterruptEvent := m_hInterruptEvent t;
        m_bRunning := true; os_calls := os_calls t ++ [SetThreadPriority] |}).

(** Lines 459-478. *)
Definition CloseAudio (t : CWinThread) : CWinThread :=
  let g :=
    match m_pAudioDriver (dev (gen t)) with
    | Some _ =>
        set_dev (with_driver None (AudioDevice.emit CloseAudioDevice (dev (gen t)))) (gen t)
    | None => gen t
    end in
  let '(ds, calls1) :=
    if m_pDSound t then (false, [CloseDevice]) else (false, []) in
  let '(ev, calls2) :=
    if m_hInterruptEvent t then (false, [CloseHandle]) else (false, []) in
  {| gen := g; m_pDSound := ds; m_hInterruptEvent := ev; m_bRunning := m_bRunning t;
     os_calls := os_calls t ++ calls1 ++ calls2 |}.

(** Lines 977-989. *)
Definition ExitInstance (t : CWinThread) : CWinThread :=
  let t := CloseAudio t in
  {| gen := gen t; m_pDSound := m_pDSound t; m_hInterruptEvent := m_hInterruptEvent t;
     m_bRunning := false; os_calls := os_calls t |}.

End Thread.

(** * Further sample configurations *)
Module MoreSamples.

Import AudioDevice Engine.

(** The channel opens but the emulation cannot be set up for the rate. *)
Definition pf_no_sound : Platform :=
  {| GetDeviceCount := 2;
     SetupDevice_ok := fun _ => true;
     OpenChannel_ok := fun _ _ _ _ _ => true;
     SetupSound_ok := fun _ => false |}.

End MoreSamples.

(** * Facts about machine integers and floats *)

Lemma to_unsigned_range n : 0 <= to_unsigned n < 2 ^ 32.
Proof. unfold to_unsigned. apply Z.mod_pos_bound. lia. Qed.

Lemma to_unsigned_small n : 0 <= n < 2 ^ 32 -> to_unsigned n = n.
Proof. intros H. unfold to_unsigned. apply Z.mod_small. exact H. Qed.

Lemma to_int_small n : is_int n -> to_int n = n.
Proof.
  unfold is_int, to_int. intros H.
  rewrite Z.mod_small by lia. lia.
Qed.

Example F32_ten_is_10 : F32.of_int 10 = F32.ten.
Proof. reflexivity. Qed.

Example F32_one_is_1 : F32.of_int 1 = F32.one.
Proof. reflexivity. Qed.

Lemma to_unsigned_negative n : - 2 ^ 31 <= n < 0 -> 2 ^ 31 <= to_unsigned n.
Proof.
  intros H. unfold to_unsigned.
  replace n with (n + 2 ^ 32 + (-1) * 2 ^ 32) by ring.
  rewrite Z.mod_add by lia. rewrite Z.mod_small; lia.
Qed.

(** * Audio device set-up *)
Module AudioDeviceFacts.

Import AudioDevice.

Lemma block_count_unsigned B :
  0 <= B < 2 ^ 32 -> block_count B = if 100 <? B then 2 + B / 66 else 2.
Proof.
  intros HB. unfold block_count.
  destruct (100 <? B); [|reflexivity].
  assert (0 <= B / 66 <= 65075262).
  { split; [apply Z.div_pos; lia|].
    apply Z.lt_succ_r, Z.div_lt_upper_bound; lia. }
  rewrite (to_unsigned_small 2) by lia.
  rewrite to_unsigned_small by lia.
  apply to_int_small. unfold is_int. lia.
Qed.

Lemma calls_emit c s : calls (emit c s) = calls s ++ [c].
Proof. reflexivity. Qed.

Lemma new_calls_app s s' l : calls s' = calls s ++ l -> new_calls s s' = l.
Proof. intros H. unfold new_calls. rewrite H. apply drop_app_length. Qed.

Lemma ResetAudioDevice_calls pf s :
  calls (snd (ResetAudioDevice pf s)) = calls s ++ run_calls pf s.
Proof.
  unfold ResetAudioDevice, run_calls, selected_device.
  destruct s as [p drv vis mt cs]; cbn [pSettings m_pAudioDriver m_pVisualizerWnd
    m_iMachineType calls].
  destruct drv as [b|];
    destruct (GetDeviceCount pf <=? _); cbn;
    destruct (SetupDevice_ok pf _); cbn;
    try (destruct (OpenChannel_ok pf _ _ _ _ _); cbn);
    try (destruct vis; cbn);
    try (destruct (SetupSound_ok pf _); cbn);
    rewrite <- ?app_assoc; reflexivity.
Qed.

Lemma ResetAudioDevice_result pf s : fst (ResetAudioDevice pf s) = run_ok pf s.
Proof.
  unfold ResetAudioDevice, run_ok, selected_device.
  destruct s as [p drv vis mt cs]; cbn [pSettings m_pAudioDriver m_pVisualizerWnd
    m_iMachineType calls].
  destruct drv as [b|];
    destruct (GetDeviceCount pf <=? _); cbn;
    destruct (SetupDevice_ok pf _); cbn;
    try (destruct (OpenChannel_ok pf _ _ _ _ _); cbn);
    try (destruct vis; cbn);
    try (destruct (SetupSound_ok pf _); cbn);
    reflexivity.
Qed.

Lemma ResetAudioDevice_settings pf s :
  pSettings (snd (ResetAudioDevice pf s)) =
    if GetDeviceCount pf <=? to_unsigned (iDevice (Sound (pSettings s)))
    then set_iDevice 0 (pSettings s)
    else pSettings s.
Proof.
  unfold ResetAudioDevice.
  destruct s as [p drv vis mt cs]; cbn [pSettings m_pAudioDriver m_pVisualizerWnd
    m_iMachineType calls].
  destruct drv as [b|];
    destruct (GetDeviceCount pf <=? _); cbn;
    destruct (SetupDevice_ok pf _); cbn;
    try (destruct (OpenChannel_ok pf _ _ _ _ _); cbn);
    try (destruct vis; cbn);
    try (destruct (SetupSound_ok pf _); cbn);
    reflexivity.
Qed.

Lemma new_calls_run pf s : new_calls s (snd (ResetAudioDevice pf s)) = run_calls pf s.
Proof. apply new_calls_app, ResetAudioDevice_calls. Qed.

Ltac run_cases pf s :=
  unfold run_calls;
  destruct (m_pAudioDriver s);
  destruct (SetupDevice_ok pf _);
  try destruct (OpenChannel_ok pf _ _ _ _ _);
  try destruct (m_pVisualizerWnd s);
  try destruct (SetupSound_ok pf _).

(** C2.  Whenever [ResetAudioDevice] gets as far as opening the channel
    (the selected device could be set up), it opens exactly one channel,
    with the configured buffer length and with 2 blocks for a buffer of
    at most 100 ms and [2 + floor (BufferLen / 66)] blocks for a longer
    one; this holds for every sample rate and every buffer length. *)
Theorem OpenChannel_block_count pf s :
  let BufferLen := to_unsigned (iBufferLength (Sound (pSettings s))) in
  open_channel_calls (new_calls s (snd (ResetAudioDevice pf s))) =
    (if SetupDevice_ok pf (selected_device pf s)
     then [(BufferLen, if 100 <? BufferLen then 2 + BufferLen / 66 else 2)]
     else [])
  /\ 66 * (BufferLen / 66) <= BufferLen < 66 * (BufferLen / 66 + 1).
Proof.
  intros BufferLen.
  pose proof (to_unsigned_range (iBufferLength (Sound (pSettings s)))) as HB.
  fold BufferLen in HB.
  split.
  - rewrite new_calls_run, <- (block_count_unsigned BufferLen HB).
    subst BufferLen. run_cases pf s; reflexivity.
  - pose proof (Z.mul_div_le BufferLen 66 ltac:(lia)).
    pose proof (Z.mul_succ_div_gt BufferLen 66 ltac:(lia)). lia.
Qed.

Lemma to_unsigned_invalid_index (count i : Z) :
  is_int i -> 0 <= count <= 2 ^ 31 -> ~ (0 <= i < count) -> count <= to_unsigned i.
Proof.
  intros Hi Hc Hn. unfold is_int in Hi.
  destruct (Z_lt_le_dec i 0) as [Hneg|Hpos].
  - pose proof (to_unsigned_negative i ltac:(lia)). lia.
  - rewrite to_unsigned_small by lia. lia.
Qed.

(** C8.  When the persisted device index is not an index into the
    enumerated devices (negative, or not below the device count), the
    set-up goes on with device 0: [SetupDevice] is called once, with 0,
    the persisted index becomes 0, no error is raised for the index
    itself, and the outcome is the one of setting up device 0. *)
Theorem invalid_device_resets_to_first pf s :
  is_int (iDevice (Sound (pSettings s))) ->
  0 <= GetDeviceCount pf <= 2 ^ 31 ->
  ~ (0 <= iDevice (Sound (pSettings s)) < GetDeviceCount pf) ->
  let s' := snd (ResetAudioDevice pf s) in
  let Rate := to_unsigned (iSampleRate (Sound (pSettings s))) in
  let Size := to_unsigned (iSampleSize (Sound (pSettings s))) in
  let Len := to_unsigned (iBufferLength (Sound (pSettings s))) in
  setup_device_calls (new_calls s s') = [0]
  /\ iDevice (Sound (pSettings s')) = 0
  /\ fst (ResetAudioDevice pf s) =
       SetupDevice_ok pf 0 && OpenChannel_ok pf Rate Size 1 Len (block_count Len)
       && SetupSound_ok pf Rate
  /\ (SetupDevice_ok pf 0 = true -> IDS_DSOUND_ERROR ∉ message_boxes (new_calls s s'))
  /\ (fst (ResetAudioDevice pf s) = true -> message_boxes (new_calls s s') = []).
Proof.
  intros Hi Hc Hn s' Rate Size Len.
  pose proof (to_unsigned_invalid_index _ _ Hi Hc Hn) as Hge.
  apply Z.leb_le in Hge.
  assert (Hsel : selected_device pf s = 0).
  { unfold selected_device. cbn zeta. rewrite Hge. reflexivity. }
  subst s'. rewrite new_calls_run, ResetAudioDevice_settings, Hge,
    ResetAudioDevice_result.
  unfold run_ok. rewrite Hsel. fold Rate Size Len.
  repeat split.
  - unfold run_calls. rewrite Hsel. fold Rate Size Len.
    destruct (m_pAudioDriver s); destruct (SetupDevice_ok pf 0);
      try destruct (OpenChannel_ok pf _ _ _ _ _);
      try destruct (m_pVisualizerWnd s);
      try destruct (SetupSound_ok pf _); reflexivity.
  - intros Hok. unfold run_calls. rewrite Hsel, Hok. fold Rate Size Len.
    destruct (m_pAudioDriver s);
      try destruct (OpenChannel_ok pf _ _ _ _ _);
      try destruct (m_pVisualizerWnd s);
      try destruct (SetupSound_ok pf _); cbn;
      rewrite list_elem_of_In; cbn; intuition discriminate.
  - intros Hok. apply andb_prop in Hok as [Hok H3]. apply andb_prop in Hok as [H1 H2].
    unfold run_calls. rewrite Hsel, H1. fold Rate Size Len. rewrite H2, H3.
    destruct (m_pAudioDriver s); destruct (m_pVisualizerWnd s); reflexivity.
Qed.

Lemma invalid_device_resets_to_first_witness :
  let s := Samples.device_state (Samples.settings 0 7 40) in
  setup_device_calls (new_calls s (snd (ResetAudioDevice Samples.pf_ok s))) = [0]
  /\ iDevice (Sound (pSettings (snd (ResetAudioDevice Samples.pf_ok s)))) = 0
  /\ fst (ResetAudioDevice Samples.pf_ok s) = true.
Proof.
  pose proof (invalid_device_resets_to_first Samples.pf_ok
                (Samples.device_state (Samples.settings 0 7 40))
                ltac:(unfold is_int; cbn; lia) ltac:(cbn; lia) ltac:(cbn; lia)) as H.
  cbn zeta in H |- *.
  destruct H as (H1 & H2 & H3 & _).
  split; [exact H1 | split; [exact H2 | rewrite H3; reflexivity]].
Defined.

(** The levels 0..100, checked one by one. *)
Lemma tenth_of_upto_100 :
  forallb (fun n => tenth_of (Z.of_nat n) (chip_level (Z.of_nat n))) (seq 0 101) = true.
Proof. vm_compute. reflexivity. Qed.

Lemma tenth_of_level L : 0 <= L <= 100 -> tenth_of L (chip_level L) = true.
Proof.
  intros HL.
  pose proof (proj1 (forallb_forall _ _) tenth_of_upto_100 (Z.to_nat L)) as H.
  cbv beta in H. rewrite Z2Nat.id in H by lia.
  apply H, in_seq. lia.
Qed.

Lemma tenth_of_spec L v :
  tenth_of L v = true ->
  exists q, F32.to_Q v = Some q
    /\ (Qabs (q - inject_Z L / 10) <= Qabs (inject_Z L / 10) * (1 # 2 ^ 24))%Q
    /\ (L mod 10 = 0 -> (q == inject_Z L / 10)%Q).
Proof.
  unfold tenth_of. destruct (F32.to_Q v) as [q|]; [|discriminate].
  intros H. apply andb_prop in H as [H H3]. apply andb_prop in H as [_ H2].
  exists q. split; [reflexivity|]. split.
  - apply Qle_bool_iff, H2.
  - intros Hm. rewrite Hm in H3. cbn in H3. apply Qeq_bool_iff, H3.
Qed.

(** C1, as the source has it.  When the device set-up succeeds, every
    chip receives its persisted level divided by 10 in single precision:
    for a level [L] in 0..100 the value set is a finite float within a
    relative error of [2^-24] of [L / 10], exactly [L / 10] when [L] is a
    multiple of 10; 100 gives 10.0 and 10 gives 1.0. *)
Theorem chip_level_is_tenth pf s chip L :
  fst (ResetAudioDevice pf s) = true ->
  persisted_level chip (ChipLevels (pSettings s)) = L ->
  0 <= L <= 100 ->
  SetChipLevel chip (chip_level L) ∈ new_calls s (snd (ResetAudioDevice pf s))
  /\ (exists q, F32.to_Q (chip_level L) = Some q
        /\ (Qabs (q - inject_Z L / 10) <= Qabs (inject_Z L / 10) * (1 # 2 ^ 24))%Q
        /\ (L mod 10 = 0 -> (q == inject_Z L / 10)%Q))
  /\ chip_level 100 = F32.ten
  /\ chip_level 10 = F32.one.
Proof.
  intros Hok HL Hrange. split; [|split; [|split; reflexivity]].
  - rewrite new_calls_run. rewrite ResetAudioDevice_result in Hok.
    unfold run_ok in Hok.
    apply andb_prop in Hok as [Hok H3]. apply andb_prop in Hok as [H1 H2].
    unfold run_calls. rewrite H1, H2, H3. subst L.
    rewrite !elem_of_app. do 5 right. left.
    apply list_elem_of_fmap. exists chip. split; [reflexivity|].
    destruct chip; rewrite list_elem_of_In; cbn; tauto.
  - apply tenth_of_spec, tenth_of_level, Hrange.
Qed.

Lemma chip_level_is_tenth_witness :
  SetChipLevel CHIP_LEVEL_APU1 F32.ten
    ∈ new_calls (Samples.device_state (Samples.settings 100 0 40))
        (snd (ResetAudioDevice Samples.pf_ok
                (Samples.device_state (Samples.settings 100 0 40)))).
Proof.
  exact (proj1 (chip_level_is_tenth Samples.pf_ok
                  (Samples.device_state (Samples.settings 100 0 40))
                  CHIP_LEVEL_APU1 100
                  ltac:(reflexivity) ltac:(reflexivity) ltac:(lia))).
Defined.

(** C1, as the specification words it, fails: with the persisted level
    100 the first chip level set is 10.0, which is not 100/100. *)
Lemma chip_level_100_is_not_1 :
  chip_level_calls
    (new_calls (Samples.device_state (Samples.settings 100 0 40))
       (snd (ResetAudioDevice Samples.pf_ok
               (Samples.device_state (Samples.settings 100 0 40))))) !! 0%nat
    = Some (CHIP_LEVEL_APU1, F32.ten)
  /\ ~ percent_of 100 F32.ten.
Proof.
  split; [reflexivity|].
  unfold percent_of. cbn. intros H. vm_compute in H. discriminate H.
Qed.

End AudioDeviceFacts.

(** * The tempo averaging window *)
Module TempoDisplayFacts.

Import TempoDisplay.

Lemma wf_Build sz : (0 < sz)%nat -> wf (Build sz).
Proof. intros H. unfold wf, Build. cbn. lia. Qed.

Lemma cache_size_Tick t d : cache_size (Tick t d) = cache_size d.
Proof. reflexivity. Qed.

Lemma cache_size_feed n t d : cache_size (feed n t d) = cache_size d.
Proof. induction n as [|n IH]; [reflexivity|]. cbn. exact IH. Qed.

Lemma last_samples_0 t d : wf d -> last_samples 0 t d.
Proof.
  intros Hwf. split; [exact Hwf|]. split; [cbn; lia|].
  intros i x Hi Hw. apply lookup_lt_Some in Hi.
  destruct Hwf as (Hp & Hl & _). unfold written_within in Hw. lia.
Qed.

Lemma last_samples_Tick k t d : last_samples k t d -> last_samples (S k) t (Tick t d).
Proof.
  intros ((Hp & Hl & Hfill) & Hmin & Hall).
  unfold last_samples, wf, written_within, Tick, advance in *. cbn [cache_size cache pos].
  destruct (Nat.ltb_spec (pos d) (length (cache d))) as [Hlt|Hge];
    destruct (Nat.eqb_spec (S (pos d)) (cache_size d)) as [Heq|Hne].
  - rewrite length_insert. repeat split; try lia.
    intros i x Hi Hw. destruct (decide (i = pos d)) as [->|Hi'].
    + rewrite list_lookup_insert_eq in Hi by lia. congruence.
    + rewrite list_lookup_insert_ne in Hi by lia.
      pose proof (lookup_lt_Some _ _ _ Hi). apply (Hall i x Hi). lia.
  - rewrite length_insert. repeat split; try lia.
    intros i x Hi Hw. destruct (decide (i = pos d)) as [->|Hi'].
    + rewrite list_lookup_insert_eq in Hi by lia. congruence.
    + rewrite list_lookup_insert_ne in Hi by lia.
      pose proof (lookup_lt_Some _ _ _ Hi). apply (Hall i x Hi). lia.
  - rewrite length_app. cbn [length]. repeat split; try lia.
    intros i x Hi Hw. destruct (decide (i = pos d)) as [->|Hi'].
    + rewrite lookup_app_r in Hi by lia.
      replace (pos d - length (cache d))%nat with 0%nat in Hi by lia.
      cbn in Hi. congruence.
    + pose proof (lookup_lt_Some _ _ _ Hi) as Hlen.
      rewrite length_app in Hlen. cbn [length] in Hlen.
      rewrite lookup_app_l in Hi by lia. apply (Hall i x Hi). lia.
  - rewrite length_app. cbn [length]. repeat split; try lia.
    intros i x Hi Hw. destruct (decide (i = pos d)) as [->|Hi'].
    + rewrite lookup_app_r in Hi by lia.
      replace (pos d - length (cache d))%nat with 0%nat in Hi by lia.
      cbn in Hi. congruence.
    + pose proof (lookup_lt_Some _ _ _ Hi) as Hlen.
      rewrite length_app in Hlen. cbn [length] in Hlen.
      rewrite lookup_app_l in Hi by lia. apply (Hall i x Hi). lia.
Qed.

Lemma last_samples_feed n t d : wf d -> last_samples n t (feed n t d).
Proof.
  intros Hwf. induction n as [|n IH].
  - apply last_samples_0, Hwf.
  - cbn. apply last_samples_Tick, IH.
Qed.

Lemma Qsum_constant (l : list Q) t :
  Forall (fun x => x = t) l -> (Qsum l == inject_Z (Z.of_nat (length l)) * t)%Q.
Proof.
  induction 1 as [|x l Hx _ IH].
  - cbn. ring.
  - subst x. cbn [Qsum fold_right length]. fold (Qsum l). rewrite IH.
    rewrite Nat2Z.inj_succ, <- Z.add_1_r, inject_Z_plus. ring.
Qed.

Lemma average_constant t inst d :
  cache d <> [] -> Forall (fun x => x = t) (cache d) -> (GetAverageBPM inst d == t)%Q.
Proof.
  intros Hne Hall. unfold GetAverageBPM.
  destruct (cache d) as [|x l] eqn:E; [congruence|].
  rewrite (Qsum_constant _ t Hall).
  field. cbn [length]. rewrite Nat2Z.inj_succ.
  intros H. apply (Qeq_bool_neq (inject_Z (Z.succ (Z.of_nat (length l)))) 0); [|exact H].
  unfold Qeq_bool. cbn. apply Z.eqb_neq. lia.
Qed.

(** Once as many samples as the window holds were taken at tempo [t],
    the window holds nothing else and its mean is [t]. *)
Lemma feed_fills n t inst d :
  wf d -> (cache_size d <= n)%nat ->
  length (cache (feed n t d)) = cache_size d
  /\ Forall (fun x => x = t) (cache (feed n t d))
  /\ (GetAverageBPM inst (feed n t d) == t)%Q.
Proof.
  intros Hwf Hn.
  destruct (last_samples_feed n t d Hwf) as ((Hp & Hl & Hfill) & Hmin & Hall).
  rewrite cache_size_feed in *.
  assert (Hlen : length (cache (feed n t d)) = cache_size d) by lia.
  assert (HF : Forall (fun x => x = t) (cache (feed n t d))).
  { apply Forall_lookup. intros i x Hi. apply (Hall i x Hi).
    apply lookup_lt_Some in Hi. unfold written_within.
    rewrite cache_size_feed. lia. }
  split; [exact Hlen|]. split; [exact HF|].
  apply average_constant; [|exact HF].
  intros E. rewrite E in Hlen. cbn in Hlen. lia.
Qed.

End TempoDisplayFacts.

(** * The controller *)
Module EngineFacts.

Import AudioDevice Engine.

(** ** Mute and the record channel *)

(** C10.  [SetChannelMute] disarms recording exactly when it mutes the
    channel that is armed; muting another channel or unmuting any
    channel leaves the record channel as it was. *)
Theorem SetChannelMute_record_channel chan mute s :
  GetRecordChannel (SetChannelMute chan mute s) =
    (if mute && bool_decide (chan = GetRecordChannel s) then NONE else GetRecordChannel s)
  /\ GetRecordChannel (SetChannelMute (GetRecordChannel s) true s) = NONE
  /\ GetRecordChannel (SetChannelMute chan false s) = GetRecordChannel s
  /\ recording (m_pInstRecorder (SetChannelMute chan mute s)) = recording (m_pInstRecorder s).
Proof.
  unfold SetChannelMute. repeat apply conj.
  - destruct (value_cast chan); cbn;
      destruct mute; cbn; try reflexivity;
      destruct (bool_decide (chan = _)); reflexivity.
  - destruct (value_cast (GetRecordChannel s)); cbn;
      rewrite bool_decide_eq_true_2 by reflexivity; reflexivity.
  - destruct (value_cast chan); reflexivity.
  - destruct (value_cast chan); cbn;
      destruct mute; cbn; try reflexivity;
      destruct (bool_decide (chan = _)); reflexivity.
Qed.

(** ** Resetting the emulation when playback starts *)

Lemma log_emit e s : log (emit e s) = log s ++ [e].
Proof. reflexivity. Qed.

Lemma extends_refl s : extends s s.
Proof. exists []. symmetry. apply app_nil_r. Qed.

Lemma extends_trans s1 s2 s3 : extends s1 s2 -> extends s2 s3 -> extends s1 s3.
Proof.
  intros [l1 H1] [l2 H2]. exists (l1 ++ l2). rewrite H2, H1. symmetry. apply app_assoc.
Qed.

Lemma extends_emit e s : extends s (emit e s).
Proof. exists [e]. reflexivity. Qed.

Lemma extends_same_log s s' : log s' = log s -> extends s s'.
Proof. intros H. exists []. rewrite H. symmetry. apply app_nil_r. Qed.

Lemma log_ResetAPU s : log (ResetAPU s) = log s ++ power_on_sequence.
Proof. unfold ResetAPU, power_on_sequence. cbn. rewrite <- !app_assoc. reflexivity. Qed.

Lemma extends_MakeSilent s : extends s (MakeSilent s).
Proof.
  unfold MakeSilent. destruct (m_pTrackerView s); cbn.
  - exists [ViewMakeSilent; ApuReset; ApuClearSample]. cbn. rewrite <- !app_assoc. reflexivity.
  - exists [ApuReset; ApuClearSample]. cbn. rewrite <- !app_assoc. reflexivity.
Qed.

Lemma extends_ApplyGlobalState s : extends s (ApplyGlobalState s).
Proof.
  unfold ApplyGlobalState.
  destruct (if IsPlaying s then _ else _) as [[Frame Row]|]; [|apply extends_refl].
  destruct (m_pDocument s); [|apply extends_refl].
  eexists. reflexivity.
Qed.

Lemma RegisterImage_power_on l :
  RegisterImage (l ++ power_on_sequence) = power_on_image.
Proof. unfold RegisterImage. rewrite foldl_app. reflexivity. Qed.

(** What the steps of [BeginPlayer] and [HaltPlayer] leave alone. *)
Ltac frame :=
  intros;
  unfold ApplyGlobalState, MakeSilent, ResetAPU, ResetTempo, ResetBuffer, set_recording,
    SetRecordChannel, emit;
  repeat case_match; reflexivity.

Lemma driver_ApplyGlobalState s : m_pSoundDriver (ApplyGlobalState s) = m_pSoundDriver s.
Proof. frame. Qed.
Lemma driver_MakeSilent s :
  m_pSoundDriver (MakeSilent s) = drv_ResetTracks (m_pSoundDriver s).
Proof. frame. Qed.
Lemma driver_ResetAPU s : m_pSoundDriver (ResetAPU s) = m_pSoundDriver s.
Proof. frame. Qed.
Lemma driver_ResetTempo s : m_pSoundDriver (ResetTempo s) = m_pSoundDriver s.
Proof. frame. Qed.
Lemma log_ResetTempo s : log (ResetTempo s) = log s.
Proof. frame. Qed.
Lemma display_ApplyGlobalState s : m_pTempoDisplay (ApplyGlobalState s) = m_pTempoDisplay s.
Proof. frame. Qed.
Lemma display_MakeSilent s : m_pTempoDisplay (MakeSilent s) = m_pTempoDisplay s.
Proof. frame. Qed.
Lemma display_ResetAPU s : m_pTempoDisplay (ResetAPU s) = m_pTempoDisplay s.
Proof. frame. Qed.
Lemma display_ResetTempo s : m_pTempoDisplay (ResetTempo s) = m_pTempoDisplay s.
Proof. frame. Qed.

Lemma BeginPlayer_ready Pos s :
  ready s ->
  exists s2,
    log s2 = log s
    /\ m_pSoundDriver s2 = drv_StartPlayer Pos (m_pSoundDriver s)
    /\ m_pTempoDisplay s2 =
         (if bAverageBPM (pSettings (dev s))
          then Some (TempoDisplay.Build TempoDisplay.DEFAULT_AVERAGE_BPM_SIZE)
          else m_pTempoDisplay s)
    /\ extends (ResetAPU s2) (BeginPlayer Pos s)
    /\ m_pSoundDriver (BeginPlayer Pos s) = drv_ResetTracks (m_pSoundDriver s2)
    /\ m_pTempoDisplay (BeginPlayer Pos s) = m_pTempoDisplay s2.
Proof.
  intros (doc & Hdoc & Hl & Ho). unfold BeginPlayer. rewrite Hdoc, Hl, Ho. cbn [negb orb].
  set (s1 := set_m_iLastTrack _ _).
  change (dev s1) with (dev s).
  set (s2 := if bAverageBPM _ then _ else s1).
  exists (ResetTempo s2).
  assert (H1 : log s2 = log s) by (subst s2; destruct (bAverageBPM _); reflexivity).
  assert (H2 : m_pSoundDriver s2 = drv_StartPlayer Pos (m_pSoundDriver s))
    by (subst s2; destruct (bAverageBPM _); reflexivity).
  assert (H3 : m_pTempoDisplay s2 =
               (if bAverageBPM (pSettings (dev s))
                then Some (TempoDisplay.Build TempoDisplay.DEFAULT_AVERAGE_BPM_SIZE)
                else m_pTempoDisplay s))
    by (subst s2; destruct (bAverageBPM _); reflexivity).
  set (s5 := MakeSilent (ResetAPU (ResetTempo s2))).
  set (s6 := if bRetrieveChanState _ then ApplyGlobalState s5 else s5).
  rewrite log_ResetTempo, driver_ResetTempo, display_ResetTempo.
  split; [exact H1|]. split; [exact H2|]. split; [exact H3|].
  assert (H4 : extends (ResetAPU (ResetTempo s2)) s6).
  { eapply extends_trans; [apply extends_MakeSilent|]. fold s5. subst s6.
    destruct (bRetrieveChanState _); [apply extends_ApplyGlobalState | apply extends_refl]. }
  assert (H5 : m_pSoundDriver s6 = drv_ResetTracks (m_pSoundDriver s2)).
  { subst s6. destruct (bRetrieveChanState _); rewrite ?driver_ApplyGlobalState; subst s5;
      rewrite driver_MakeSilent, driver_ResetAPU, driver_ResetTempo; reflexivity. }
  assert (H6 : m_pTempoDisplay s6 = m_pTempoDisplay s2).
  { subst s6. destruct (bRetrieveChanState _); rewrite ?display_ApplyGlobalState; subst s5;
      rewrite display_MakeSilent, display_ResetAPU, display_ResetTempo; reflexivity. }
  destruct (bool_decide _).
  - split; [|split; [exact H5 | exact H6]].
    eapply extends_trans; [exact H4|]. apply extends_same_log. reflexivity.
  - split; [exact H4|]. split; [exact H5 | exact H6].
Qed.

(** Without a loaded document or an open audio device [BeginPlayer] does
    nothing: no playback starts without the reset below. *)
Lemma BeginPlayer_guard Pos s :
  (forall doc, m_pDocument s = Some doc ->
     IsFileLoaded doc = false \/ IsAudioDeviceOpen s = false) ->
  BeginPlayer Pos s = s.
Proof.
  intros H. unfold BeginPlayer. destruct (m_pDocument s) as [doc|]; [|reflexivity].
  destruct (H doc eq_refl) as [-> | ->]; [rewrite orb_true_r|]; reflexivity.
Qed.

(** C5.  A start of playback that gets past the guard of [BeginPlayer]
    runs [ResetAPU] before the driver has taken a tick on the new cursor
    (the cursor is still the one handed in, so no row was decoded): the
    emulation is reset and its registers are written to one fixed image,
    whatever came before, in which the channel-enable register 0x4015
    holds 0x0F. *)
Theorem BeginPlayer_resets_APU Pos s :
  ready s ->
  IsPlaying (BeginPlayer Pos s) = true
  /\ m_pPlayerCursor (m_pSoundDriver (BeginPlayer Pos s)) = Some Pos
  /\ (exists rest, log (BeginPlayer Pos s) = log s ++ power_on_sequence ++ rest)
  /\ log (ResetAPU s) = log s ++ power_on_sequence
  /\ RegisterImage (log s ++ power_on_sequence) = power_on_image
  /\ RegisterImage (log s ++ power_on_sequence) !! 0x4015 = Some 0x0F.
Proof.
  intros Hready.
  destruct (BeginPlayer_ready Pos s Hready) as (s2 & H1 & H2 & _ & [rest H4] & H5 & _).
  unfold IsPlaying. rewrite H5, H2.
  split; [reflexivity|]. split; [reflexivity|].
  split.
  - exists rest. rewrite H4, log_ResetAPU, H1. symmetry. apply app_assoc.
  - split; [apply log_ResetAPU|].
    rewrite RegisterImage_power_on. split; reflexivity.
Qed.

Lemma BeginPlayer_resets_APU_witness :
  ready (Samples.engine Samples.pf_ok)
  /\ IsPlaying (BeginPlayer (cursor_at 0) (Samples.engine Samples.pf_ok)) = true
  /\ RegisterImage (log (Samples.engine Samples.pf_ok) ++ power_on_sequence) !! 0x4015
     = Some 0x0F.
Proof.
  assert (Hready : ready (Samples.engine Samples.pf_ok)).
  { exists Samples.doc. split; [reflexivity|]. split; reflexivity. }
  pose proof (BeginPlayer_resets_APU (cursor_at 0) (Samples.engine Samples.pf_ok) Hready)
    as (H1 & _ & _ & _ & _ & H6).
  split; [exact Hready|]. split; [exact H1 | exact H6].
Defined.

(** ** The averaging window set up by [BeginPlayer] *)

Lemma OnTick_samples s d :
  m_pTempoDisplay s = Some d ->
  m_pTempoDisplay (OnTick s) = Some (TempoDisplay.Tick (GetTempo (m_pTempoCounter s)) d).
Proof. intros H. unfold OnTick. rewrite H. reflexivity. Qed.

Lemma OnTick_iter n s d :
  m_pTempoDisplay s = Some d ->
  m_pTempoDisplay (Nat.iter n OnTick s)
    = Some (TempoDisplay.feed n (GetTempo (m_pTempoCounter s)) d)
  /\ m_pTempoCounter (Nat.iter n OnTick s) = m_pTempoCounter s.
Proof.
  intros H. induction n as [|n [IH1 IH2]]; [split; [exact H | reflexivity]|].
  change (Nat.iter (S n) OnTick s) with (OnTick (Nat.iter n OnTick s)).
  change (TempoDisplay.feed (S n) (GetTempo (m_pTempoCounter s)) d)
    with (TempoDisplay.Tick (GetTempo (m_pTempoCounter s))
            (TempoDisplay.feed n (GetTempo (m_pTempoCounter s)) d)).
  split.
  - rewrite (OnTick_samples _ _ IH1), IH2. reflexivity.
  - rewrite <- IH2. generalize (Nat.iter n OnTick s). intros s'.
    unfold OnTick. destruct (m_pTempoDisplay s'); reflexivity.
Qed.

(** C9.  With tempo averaging enabled, [BeginPlayer] creates a display
    whose window holds [DEFAULT_AVERAGE_BPM_SIZE] = 24 samples.  The
    window never holds more; once 24 or more samples were taken at a
    constant tempo [t], from whatever the window held before, all 24
    slots hold [t] and the averaged BPM equals [t].  In particular, 24 or
    more ticks after the start the averaged BPM the sound generator
    reports is the tempo of the tempo counter. *)
Theorem average_of_constant_tempo Pos s :
  ready s ->
  bAverageBPM (pSettings (dev s)) = true ->
  exists d,
    m_pTempoDisplay (BeginPlayer Pos s) = Some d
    /\ TempoDisplay.cache_size d = 24%nat
    /\ TempoDisplay.wf d
    /\ (forall d' t inst n,
          TempoDisplay.wf d' -> TempoDisplay.cache_size d' = 24%nat -> (24 <= n)%nat ->
          TempoDisplay.cache_size (TempoDisplay.feed n t d') = 24%nat
          /\ length (TempoDisplay.cache (TempoDisplay.feed n t d')) = 24%nat
          /\ (TempoDisplay.GetAverageBPM inst (TempoDisplay.feed n t d') == t)%Q)
    /\ (forall n, (24 <= n)%nat ->
          (GetAverageBPM (Nat.iter n OnTick (BeginPlayer Pos s))
           == GetTempo (m_pTempoCounter (BeginPlayer Pos s)))%Q).
Proof.
  intros Hready Havg.
  destruct (BeginPlayer_ready Pos s Hready) as (s2 & _ & _ & H3 & _ & _ & H6).
  rewrite Havg in H3.
  exists (TempoDisplay.Build TempoDisplay.DEFAULT_AVERAGE_BPM_SIZE).
  assert (Hwf0 : TempoDisplay.wf (TempoDisplay.Build TempoDisplay.DEFAULT_AVERAGE_BPM_SIZE))
    by (apply TempoDisplayFacts.wf_Build; unfold TempoDisplay.DEFAULT_AVERAGE_BPM_SIZE; lia).
  assert (Hd : m_pTempoDisplay (BeginPlayer Pos s)
               = Some (TempoDisplay.Build TempoDisplay.DEFAULT_AVERAGE_BPM_SIZE))
    by (rewrite H6; exact H3).
  split; [exact Hd|]. split; [reflexivity|]. split; [exact Hwf0|].
  assert (Hgen : forall d' t inst n,
             TempoDisplay.wf d' -> TempoDisplay.cache_size d' = 24%nat -> (24 <= n)%nat ->
             TempoDisplay.cache_size (TempoDisplay.feed n t d') = 24%nat
             /\ length (TempoDisplay.cache (TempoDisplay.feed n t d')) = 24%nat
             /\ (TempoDisplay.GetAverageBPM inst (TempoDisplay.feed n t d') == t)%Q).
  { intros d' t inst n Hwf Hsz Hn.
    rewrite TempoDisplayFacts.cache_size_feed.
    split; [exact Hsz|].
    assert (Hle : (TempoDisplay.cache_size d' <= n)%nat) by (rewrite Hsz; exact Hn).
    destruct (TempoDisplayFacts.feed_fills n t inst d' Hwf Hle) as (Hlen & _ & Hmean).
    split; [congruence | exact Hmean]. }
  split; [exact Hgen|].
  intros n Hn. unfold GetAverageBPM.
  destruct (OnTick_iter n _ _ Hd) as [-> ->].
  apply Hgen; [exact Hwf0 | reflexivity | exact Hn].
Qed.

Lemma average_of_constant_tempo_witness :
  (TempoDisplay.GetAverageBPM 0
     (TempoDisplay.feed 24 150 (TempoDisplay.Build 24)) == 150)%Q.
Proof.
  assert (Hready : ready (Samples.engine Samples.pf_ok)).
  { exists Samples.doc. split; [reflexivity|]. split; reflexivity. }
  destruct (average_of_constant_tempo (cursor_at 0) (Samples.engine Samples.pf_ok)
              Hready ltac:(reflexivity)) as (d & _ & _ & _ & H & _).
  apply (H (TempoDisplay.Build 24) 150%Q 0%Q 24%nat).
  - unfold TempoDisplay.wf. cbn. lia.
  - reflexivity.
  - lia.
Defined.

(** ** Muted channels *)

Ltac fields :=
  cbn [dev platform m_hThread m_pDocument m_pTrackerView m_pSoundDriver m_pTempoCounter
       m_pInstRecorder muted_ m_bHaltRequest m_bPlayingSingleRow m_iLastTrack
       m_iLastHighlight m_iFrameCounter m_bWaveChanged m_bInternalWaveChanged
       m_pWaveRenderer m_pTempoDisplay inbox log
       set_dev set_m_hThread set_m_pDocument set_m_pTrackerView set_m_pSoundDriver
       set_m_pTempoCounter set_m_pInstRecorder set_muted_ set_m_bHaltRequest
       set_m_bPlayingSingleRow set_m_iLastTrack set_m_iLastHighlight set_m_iFrameCounter
       set_m_bWaveChanged set_m_bInternalWaveChanged set_m_pWaveRenderer
       set_m_pTempoDisplay set_inbox set_log
       emit set_recording SetRecordChannel PostThreadMessage
       m_bPlaying m_pPlayerCursor m_bDriverHalt pending set_pending
       drv_ResetTracks drv_StopPlayer drv_StartPlayer] in *.

Lemma channel_writes_app chan l1 l2 :
  channel_writes chan (l1 ++ l2) = channel_writes chan l1 ++ channel_writes chan l2.
Proof. apply omap_app. Qed.

Lemma quiet_same chan i W s s' :
  muted_ s' = muted_ s -> log s' = log s -> quiet chan i W s -> quiet chan i W s'.
Proof. unfold quiet. intros -> ->. trivial. Qed.

Lemma quiet_emit chan i W e s :
  channel_writes chan [e] = [] -> quiet chan i W s -> quiet chan i W (emit e s).
Proof.
  intros He (Hc & Hm & Hw). unfold quiet.
  change (muted_ (emit e s)) with (muted_ s).
  rewrite log_emit, channel_writes_app, He, app_nil_r. auto.
Qed.

Ltac field_refl :=
  cbn [dev platform m_hThread m_pDocument m_pTrackerView m_pSoundDriver m_pTempoCounter
       m_pInstRecorder muted_ m_bHaltRequest m_bPlayingSingleRow m_iLastTrack
       m_iLastHighlight m_iFrameCounter m_bWaveChanged m_bInternalWaveChanged
       m_pWaveRenderer m_pTempoDisplay inbox log
       set_dev set_m_hThread set_m_pDocument set_m_pTrackerView set_m_pSoundDriver
       set_m_pTempoCounter set_m_pInstRecorder set_muted_ set_m_bHaltRequest
       set_m_bPlayingSingleRow set_m_iLastTrack set_m_iLastHighlight set_m_iFrameCounter
       set_m_bWaveChanged set_m_bInternalWaveChanged set_m_pWaveRenderer
       set_m_pTempoDisplay set_inbox set_log emit set_recording SetRecordChannel];
  reflexivity.

Ltac quiet_step :=
  match goal with
  | H : quiet ?c ?i ?W ?a |- quiet ?c ?i ?W ?a => exact H
  | |- quiet _ _ _ (if ?c then _ else _) => destruct c
  | |- quiet _ _ _ (match ?c with Some _ => _ | None => _ end) => destruct c
  | |- quiet _ _ _ (emit _ _) => apply quiet_emit; [reflexivity|]
  | |- quiet _ _ _ (?f _ ?x) => apply (quiet_same _ _ _ x); [field_refl | field_refl |]
  | |- quiet _ _ _ (?f ?x) => apply (quiet_same _ _ _ x); [field_refl | field_refl |]
  end.

Lemma quiet_MakeSilent chan i W s : quiet chan i W s -> quiet chan i W (MakeSilent s).
Proof. intros H. unfold MakeSilent. cbv zeta. repeat quiet_step. Qed.

Lemma quiet_ResetAPU chan i W s : quiet chan i W s -> quiet chan i W (ResetAPU s).
Proof. intros H. unfold ResetAPU. cbv zeta. repeat quiet_step. Qed.

Lemma quiet_ResetBuffer chan i W s : quiet chan i W s -> quiet chan i W (ResetBuffer s).
Proof. intros H. unfold ResetBuffer. repeat quiet_step. Qed.

Lemma quiet_ResetTempo chan i W s : quiet chan i W s -> quiet chan i W (ResetTempo s).
Proof. intros H. unfold ResetTempo. cbv zeta. repeat quiet_step. Qed.

Lemma quiet_HaltPlayer chan i W s : quiet chan i W s -> quiet chan i W (HaltPlayer s).
Proof.
  intros H. apply quiet_MakeSilent in H. revert H. unfold HaltPlayer. cbv zeta.
  generalize (MakeSilent s). intros s1 H. repeat quiet_step.
Qed.

Lemma quiet_StopRendering chan i W s : quiet chan i W s -> quiet chan i W (StopRendering s).
Proof.
  intros H. unfold StopRendering. destruct (negb (is_rendering_impl s)); [exact H|].
  apply quiet_ResetAPU, quiet_HaltPlayer, quiet_ResetBuffer. repeat quiet_step.
Qed.

Lemma quiet_StartRendering chan i W s : quiet chan i W s -> quiet chan i W (StartRendering s).
Proof.
  intros H. apply quiet_ResetBuffer in H. revert H. unfold StartRendering. cbv zeta.
  generalize (ResetBuffer s). intros s1 H. repeat quiet_step.
Qed.

Lemma quiet_ApplyGlobalState chan i W s :
  quiet chan i W s -> quiet chan i W (ApplyGlobalState s).
Proof.
  unfold ApplyGlobalState. intros H. cbv zeta.
  destruct (if IsPlaying s then _ else _) as [[Frame Row]|]; [|exact H].
  destruct (m_pDocument s); [|exact H]. repeat quiet_step.
Qed.

Lemma value_cast_inj c1 c2 i : value_cast c1 = Some i -> value_cast c2 = Some i -> c1 = c2.
Proof. destruct c1, c2; cbn; congruence. Qed.

(** [QueueNote] has no mute check: the note goes to the driver, and to
    the MIDI output, whatever the channel. *)
Lemma quiet_QueueNote chan i W c note prio s :
  quiet chan i W s -> quiet chan i W (QueueNote c note prio s).
Proof.
  intros H. unfold QueueNote. cbv zeta.
  assert (H1 : quiet chan i W
                 (set_m_pSoundDriver (drv_QueueNote c note prio (m_pSoundDriver s)) s))
    by repeat quiet_step.
  revert H1.
  generalize (set_m_pSoundDriver (drv_QueueNote c note prio (m_pSoundDriver s)) s).
  intros s1 H1. destruct (m_pDocument s1); repeat quiet_step.
Qed.

Lemma IsChannelMuted_quiet chan i W s : quiet chan i W s -> IsChannelMuted chan s = true.
Proof.
  intros (Hc & Hm & _). unfold IsChannelMuted. rewrite Hc, Hm. reflexivity.
Qed.

Lemma foldl_invariant {A B} (P : A -> Prop) (f : A -> B -> A) (l : list B) a :
  (forall a b, P a -> P (f a b)) -> P a -> P (foldl f a l).
Proof.
  intros Hf. revert a. induction l as [|b l IH]; intros a Ha; [exact Ha|].
  cbn. apply IH, Hf, Ha.
Qed.

Lemma quiet_PlaySingleRow chan i W track s :
  quiet chan i W s -> quiet chan i W (PlaySingleRow track s).
Proof.
  intros H. unfold PlaySingleRow.
  set (s1 := set_m_iLastTrack track s).
  assert (H1 : quiet chan i W s1) by (revert H; apply quiet_same; reflexivity).
  set (s2 := if negb (m_bPlayingSingleRow s1) then _ else s1).
  assert (H2 : quiet chan i W s2).
  { subst s2. destruct (negb _); [|exact H1].
    generalize (quiet_ApplyGlobalState _ _ _ _ H1). apply quiet_same; reflexivity. }
  clearbody s2. clear s1 H1 H.
  destruct (m_pTrackerView s2) as [view|]; [|exact H2].
  destruct (m_pDocument s2) as [doc|]; [|exact H2].
  destruct (GetSelectedPos view) as [frame row].
  apply foldl_invariant; [|exact H2].
  intros a c Ha. destruct (negb _); [|exact Ha]. apply quiet_QueueNote, Ha.
Qed.

Lemma quiet_SetChannelMute chan i W c mute s :
  (c = chan -> mute = true) ->
  quiet chan i W s -> quiet chan i W (SetChannelMute c mute s).
Proof.
  intros Hk (Hc & Hm & Hw).
  unfold SetChannelMute.
  set (s1 := match value_cast c with Some _ => _ | None => s end).
  assert (H1 : quiet chan i W s1).
  { subst s1. destruct (value_cast c) as [j|] eqn:Hj; [|repeat apply conj; assumption].
    unfold quiet. cbn [muted_ set_muted_ log]. split; [exact Hc|]. split; [|exact Hw].
    destruct (decide (j = i)) as [->|Hji].
    - rewrite (Hk (value_cast_inj _ _ _ Hj Hc)).
      apply list_lookup_insert_eq. eapply lookup_lt_Some, Hm.
    - rewrite list_lookup_insert_ne by assumption. exact Hm. }
  clearbody s1.
  destruct (mute && _); [|exact H1].
  revert H1. apply quiet_same; reflexivity.
Qed.

Lemma SoundDriver_Tick_stopped s : IsPlaying s = false -> SoundDriver_Tick s = s.
Proof. unfold IsPlaying, SoundDriver_Tick. intros ->. reflexivity. Qed.

Lemma quiet_OnTick chan i W s : quiet chan i W s -> quiet chan i W (OnTick s).
Proof. intros H. unfold OnTick. repeat quiet_step. Qed.

Lemma quiet_OnStepRow chan i W s : quiet chan i W s -> quiet chan i W (OnStepRow s).
Proof. intros H. unfold OnStepRow. repeat quiet_step. Qed.

Lemma quiet_OnPlayNote chan i W c note s :
  quiet chan i W s -> quiet chan i W (OnPlayNote c note s).
Proof.
  intros H. unfold OnPlayNote. cbv zeta. destruct (negb _); [|exact H].
  destruct (m_pTrackerView s); repeat quiet_step.
Qed.

Lemma quiet_OnUpdateRow chan i W frame row s :
  quiet chan i W s -> quiet chan i W (OnUpdateRow frame row s).
Proof.
  intros H. unfold OnUpdateRow. cbv zeta.
  match goal with
  | |- quiet _ _ _ (match m_pTrackerView ?x with _ => _ end) =>
      assert (H1 : quiet chan i W x); [|revert H1; generalize x; intros s1 H1]
  end.
  { destruct (m_pDocument s) as [doc|]; [|exact H].
    destruct (GetBookmarkHighlight _ _ _ _); repeat quiet_step. }
  repeat quiet_step.
Qed.

(** While playing, the driver queues the notes of a row on the channels
    that are not muted and reports every note to [OnPlayNote]; none of
    this writes to the emulation. *)
Lemma quiet_SoundDriver_Tick chan i W s :
  quiet chan i W s -> quiet chan i W (SoundDriver_Tick s).
Proof.
  intros H. unfold SoundDriver_Tick. cbv zeta.
  destruct (m_bPlaying _); [|exact H].
  destruct (m_pPlayerCursor _) as [cur|]; [|exact H].
  destruct (m_pDocument s) as [doc|]; [|exact H].
  match goal with
  | |- context [OnTick ?x] =>
      assert (H1 : quiet chan i W (OnTick x)) by (apply quiet_OnTick; repeat quiet_step);
      revert H1; generalize (OnTick x); intros s1 H1
  end.
  destruct (stepped_row _) as [notes|]; [|exact H1].
  apply quiet_OnUpdateRow, foldl_invariant; [|apply quiet_OnStepRow, H1].
  intros a [c note] Ha. apply quiet_OnPlayNote. repeat quiet_step.
Qed.

Lemma channel_writes_drv_writes chan muted d :
  muted chan = true -> channel_writes chan (drv_writes muted d) = [].
Proof.
  intros Hm. unfold drv_writes. induction (map_to_list (pending d)) as [|[j [n p]] l IH];
    [reflexivity|].
  cbn [omap list_omap]. destruct (muted (CHANID j)) eqn:Hj; [exact IH|].
  cbn [omap list_omap]. change (channel_writes chan (ApuChannelWrite (CHANID j) n ::
    omap (fun '(i, (note, _)) =>
            if muted (CHANID i) then None else Some (ApuChannelWrite (CHANID i) note)) l)
    = []).
  unfold channel_writes. cbn [omap list_omap].
  rewrite bool_decide_eq_false_2; [exact IH|]. intros E. congruence.
Qed.

(** What the driver pushes to the emulation holds no write for a muted
    channel, whatever was queued on it. *)
Lemma quiet_UpdateAPU chan i W s : quiet chan i W s -> quiet chan i W (UpdateAPU s).
Proof.
  intros H. pose proof (IsChannelMuted_quiet _ _ _ _ H) as Hmute.
  destruct H as (Hc & Hm & Hw). unfold quiet, UpdateAPU. cbv zeta.
  cbn [muted_ log set_m_pSoundDriver set_log set_m_bWaveChanged set_m_bInternalWaveChanged
       m_pSoundDriver].
  rewrite channel_writes_app, Hw, channel_writes_drv_writes, app_nil_r; [auto|].
  exact Hmute.
Qed.

Lemma quiet_PostThreadMessage chan i W m s :
  quiet chan i W s -> quiet chan i W (PostThreadMessage m s).
Proof. intros H. unfold PostThreadMessage. repeat quiet_step. Qed.

Lemma quiet_IdleLoop chan i W s : quiet chan i W s -> quiet chan i W (IdleLoop s).
Proof.
  intros H. unfold IdleLoop.
  destruct (m_pDocument s) as [doc|]; [|exact H].
  destruct (negb (IsAudioDeviceOpen s) || negb (IsFileLoaded doc)); [exact H|]. cbv zeta.
  match goal with
  | |- context [SoundDriver_Tick ?x] =>
      assert (H1 : quiet chan i W (SoundDriver_Tick x))
        by (apply quiet_SoundDriver_Tick; repeat quiet_step);
      revert H1; generalize (SoundDriver_Tick x); intros s1 H1
  end.
  match goal with
  | |- context [UpdateAPU ?x] =>
      assert (H2 : quiet chan i W (UpdateAPU x)); [|revert H2; generalize (UpdateAPU x);
                                                     intros s2 H2]
  end.
  { apply quiet_UpdateAPU. destruct (m_pWaveRenderer s1) as [r|]; [|exact H1].
    destruct (ShouldStopRender r); [apply quiet_StopRendering, H1|].
    destruct (ShouldStartPlayer r); [|exact H1].
    unfold StartPlayer. destruct (negb _); [exact H1|]. apply quiet_PostThreadMessage, H1. }
  destruct (_ || _); [apply quiet_HaltPlayer|]; destruct (_ && _); repeat quiet_step.
Qed.

Lemma quiet_BeginPlayer chan i W Pos s :
  quiet chan i W s -> quiet chan i W (BeginPlayer Pos s).
Proof.
  intros H. unfold BeginPlayer. destruct (m_pDocument s) as [doc|]; [|exact H].
  destruct (_ || _); [exact H|]. cbv zeta.
  set (s1 := set_m_iLastTrack _ _).
  change (dev s1) with (dev s).
  set (s2 := if bAverageBPM _ then _ else s1).
  assert (H2 : quiet chan i W s2) by (subst s2 s1; repeat quiet_step).
  clearbody s2. clear s1.
  set (s5 := MakeSilent (ResetAPU (ResetTempo s2))).
  assert (H5 : quiet chan i W s5)
    by (apply quiet_MakeSilent, quiet_ResetAPU, quiet_ResetTempo, H2).
  clearbody s5. clear s2 H2.
  set (s6 := if bRetrieveChanState _ then ApplyGlobalState s5 else s5).
  assert (H6 : quiet chan i W s6)
    by (subst s6; destruct (bRetrieveChanState _); [apply quiet_ApplyGlobalState|]; exact H5).
  clearbody s6. destruct (bool_decide _); [|exact H6].
  unfold set_recording. repeat quiet_step.
Qed.

Lemma quiet_dispatch chan i W m s : quiet chan i W s -> quiet chan i W (dispatch s m).
Proof.
  intros H. destruct m; cbn [dispatch].
  - apply quiet_MakeSilent, H.
  - unfold OnLoadSettings. destruct (ResetAudioDevice _ _) as [ok d]. repeat quiet_step.
  - apply quiet_BeginPlayer, H.
  - apply quiet_HaltPlayer, H.
  - unfold OnResetPlayer. cbv zeta. destruct (IsPlaying _).
    + apply quiet_BeginPlayer. repeat quiet_step.
    + repeat quiet_step.
  - apply quiet_StartRendering, H.
  - apply quiet_StopRendering, H.
  - repeat quiet_step.
  - unfold OnRemoveDocument. repeat quiet_step.
Qed.

Lemma quiet_engine_iter chan i W s : quiet chan i W s -> quiet chan i W (engine_iter s).
Proof.
  intros H. unfold engine_iter, pump. apply quiet_IdleLoop, foldl_invariant.
  - intros a m Ha. apply quiet_dispatch, Ha.
  - repeat quiet_step.
Qed.

Lemma quiet_step_action chan i W a s :
  keeps_muted chan a -> quiet chan i W s -> quiet chan i W (step s a).
Proof.
  destruct a as [track|c note prio|c mute| |m|]; cbn [keeps_muted step]; intros Hk H.
  - apply quiet_PlaySingleRow, H.
  - apply quiet_QueueNote, H.
  - apply quiet_SetChannelMute; assumption.
  - apply quiet_IdleLoop, H.
  - apply quiet_PostThreadMessage, H.
  - apply quiet_engine_iter, H.
Qed.

Lemma quiet_run chan i W l s :
  Forall (keeps_muted chan) l -> quiet chan i W s -> quiet chan i W (run s l).
Proof.
  intros Hl. revert s. induction Hl as [|a l Ha _ IH]; intros s H; [exact H|].
  cbn. apply IH, quiet_step_action; assumption.
Qed.

(** C3.  The sound driver is not part of [Source/]; it is modelled from
    the specification, as asking its parent for the mute flag before a
    queued note becomes a register write.  With that driver, once a
    channel is muted, and for as long as no call unmutes it, no note
    reaches the emulation as a register write of that channel: not one
    queued by [QueueNote] on the muted channel itself (which has no mute
    check of its own), not one of a single-row play, not one of a row
    the playing driver decodes, through any run of such calls, commands
    posted to the player thread, idle loops and rounds of the run loop,
    from any state; and the channel stays muted. *)
Theorem muted_channel_stays_silent chan i s l :
  value_cast chan = Some i ->
  (i < length (muted_ s))%nat ->
  Forall (keeps_muted chan) l ->
  IsChannelMuted chan (run (SetChannelMute chan true s) l) = true
  /\ channel_writes chan (log (run (SetChannelMute chan true s) l))
     = channel_writes chan (log s).
Proof.
  intros Hc Hi Hl.
  assert (H0 : quiet chan i (channel_writes chan (log s)) (SetChannelMute chan true s)).
  { unfold SetChannelMute. rewrite Hc.
    set (s1 := set_muted_ _ s).
    assert (H1 : quiet chan i (channel_writes chan (log s)) s1).
    { unfold quiet. subst s1. cbn [muted_ set_muted_ log].
      split; [exact Hc|]. split; [|reflexivity]. apply list_lookup_insert_eq, Hi. }
    clearbody s1. destruct (true && _); [|exact H1].
    revert H1. apply quiet_same; reflexivity. }
  pose proof (quiet_run _ _ _ _ _ Hl H0) as H.
  split; [eapply IsChannelMuted_quiet, H | apply H].
Qed.

Lemma muted_channel_stays_silent_witness :
  IsChannelMuted (CHANID 2)
    (run (SetChannelMute (CHANID 2) true (Samples.engine Samples.pf_ok))
       [DoQueueNote (CHANID 2) (Samples.note 60) NOTE_PRIO_2; DoIdleLoop;
        DoPost (WM_USER_PLAY (cursor_at 0)); DoRound; DoSetChannelMute (CHANID 1) false;
        DoPlaySingleRow 0; DoRound]) = true
  /\ channel_writes (CHANID 2)
       (log (run (SetChannelMute (CHANID 2) true (Samples.engine Samples.pf_ok))
               [DoQueueNote (CHANID 2) (Samples.note 60) NOTE_PRIO_2; DoIdleLoop;
                DoPost (WM_USER_PLAY (cursor_at 0)); DoRound;
                DoSetChannelMute (CHANID 1) false; DoPlaySingleRow 0; DoRound]))
     = channel_writes (CHANID 2) (log (Samples.engine Samples.pf_ok)).
Proof.
  apply (muted_channel_stays_silent (CHANID 2) 2 (Samples.engine Samples.pf_ok)).
  - reflexivity.
  - cbn. lia.
  - repeat (constructor; [first [exact I | cbn; discriminate]|]). constructor.
Defined.

(** The modelled driver is silent for muted channels only: the same note
    queued on channel 2 while it is not muted is written by the next
    idle loop. *)
Lemma unmuted_channel_note_is_written :
  channel_writes (CHANID 2)
    (log (run (Samples.engine Samples.pf_ok)
            [DoQueueNote (CHANID 2) (Samples.note 60) NOTE_PRIO_2; DoIdleLoop]))
  = [Samples.note 60].
Proof. vm_compute. reflexivity. Qed.

(** ** Waiting for the player to stop *)

Lemma stopped_same s s' :
  m_pSoundDriver s' = m_pSoundDriver s -> inbox s' = inbox s ->
  m_pWaveRenderer s' = m_pWaveRenderer s ->
  stopped s -> stopped s'.
Proof. unfold stopped, renderer_inert, IsPlaying. intros -> -> ->. trivial. Qed.

Lemma inbox_MakeSilent s : inbox (MakeSilent s) = inbox s.
Proof. frame. Qed.
Lemma renderer_MakeSilent s : m_pWaveRenderer (MakeSilent s) = m_pWaveRenderer s.
Proof. frame. Qed.

Lemma HaltPlayer_effect s :
  IsPlaying (HaltPlayer s) = false
  /\ inbox (HaltPlayer s) = inbox s
  /\ m_pWaveRenderer (HaltPlayer s) = m_pWaveRenderer s.
Proof.
  unfold HaltPlayer, IsPlaying.
  rewrite <- (inbox_MakeSilent s), <- (renderer_MakeSilent s).
  generalize (MakeSilent s). intros s1.
  destruct (m_pTrackerView _); repeat apply conj; reflexivity.
Qed.

Lemma HaltPlayer_stops s : inbox s = [] -> renderer_inert s -> stopped (HaltPlayer s).
Proof.
  intros Hi Hr. destruct (HaltPlayer_effect s) as (H1 & H2 & H3).
  unfold stopped, renderer_inert. rewrite H1, H2, H3. auto.
Qed.

Lemma StopRendering_inert s : renderer_inert s -> StopRendering s = s.
Proof.
  unfold renderer_inert, StopRendering, is_rendering_impl.
  destruct (m_pWaveRenderer s) as [r|]; [|reflexivity].
  intros [-> _]. reflexivity.
Qed.

Lemma stopped_UpdateAPU s : stopped s -> stopped (UpdateAPU s).
Proof. unfold stopped, renderer_inert, IsPlaying, UpdateAPU. fields. trivial. Qed.

Lemma stopped_IdleLoop s : stopped s -> stopped (IdleLoop s).
Proof.
  intros H. unfold IdleLoop.
  destruct (m_pDocument s) as [doc|]; [|exact H].
  destruct (negb (IsAudioDeviceOpen s) || negb (IsFileLoaded doc)); [exact H|].
  set (s1 := set_m_iFrameCounter _ s).
  assert (H1 : stopped s1) by (revert H; apply stopped_same; reflexivity).
  clearbody s1. clear H s.
  rewrite SoundDriver_Tick_stopped by apply H1.
  set (s3 := match m_pWaveRenderer s1 with Some _ => _ | None => s1 end).
  assert (H3 : s3 = s1).
  { subst s3. destruct H1 as (_ & _ & Hr).
    pose proof (StopRendering_inert s1 Hr) as Hs.
    unfold renderer_inert in Hr. destruct (m_pWaveRenderer s1) as [r|]; [|reflexivity].
    destruct Hr as [_ ->]. rewrite Hs. destruct (ShouldStopRender r); reflexivity. }
  rewrite H3. clearbody s3. clear s3 H3.
  apply stopped_UpdateAPU in H1. revert H1. generalize (UpdateAPU s1). clear s1.
  intros s4 H4.
  assert (Hp : IsPlaying s4 = false) by apply H4.
  rewrite Hp. cbn [andb].
  destruct (_ || _); [|exact H4].
  apply HaltPlayer_stops; apply H4.
Qed.

Lemma pump_stop s :
  inbox s = [WM_USER_STOP] -> renderer_inert s -> stopped (pump s).
Proof.
  intros Hi Hr. unfold pump. rewrite Hi. cbn [foldl dispatch].
  apply HaltPlayer_stops; [reflexivity | exact Hr].
Qed.

Lemma pump_stopped s : stopped s -> stopped (pump s).
Proof.
  intros H. unfold pump. destruct H as (Hp & Hi & Hr). rewrite Hi. cbn [foldl].
  repeat apply conj; [exact Hp | reflexivity | exact Hr].
Qed.

Lemma engine_iter_stopped s : stopped s -> stopped (engine_iter s).
Proof. intros H. apply stopped_IdleLoop, pump_stopped, H. Qed.

Lemma engine_run_stopped n s : stopped s -> stopped (engine_run n s).
Proof.
  intros H. induction n as [|n IH]; [exact H|]. cbn. apply engine_iter_stopped, IH.
Qed.

Lemma engine_run_reaches_stopped (P : CSoundGen -> Prop) n s :
  (forall s, P s -> stopped (engine_iter s)) -> P s -> (0 < n)%nat ->
  stopped (engine_run n s).
Proof.
  intros HP Hs Hn. destruct n as [|n]; [lia|]. clear Hn.
  induction n as [|n IH].
  - apply HP, Hs.
  - change (stopped (engine_iter (engine_run (S n) s))). apply engine_iter_stopped, IH.
Qed.

Lemma engine_iter_stop_posted s : stop_posted s -> stopped (engine_iter s).
Proof. intros [Hi Hr]. apply stopped_IdleLoop, pump_stop; assumption. Qed.

Lemma WaitForStop_loop_bound sched fuel i s :
  (fst (WaitForStop_loop sched fuel i s) <= i + fuel)%nat.
Proof.
  revert i s. induction fuel as [|fuel IH]; intros i s; cbn; [lia|].
  destruct (IsPlaying s); cbn; [|lia].
  specialize (IH (S i) (Sleep100 sched i s)). lia.
Qed.

Lemma WaitForStop_loop_stopped sched fuel i s :
  IsPlaying s = false -> WaitForStop_loop sched fuel i s = (i, s).
Proof. intros H. destruct fuel; cbn; [|rewrite H]; reflexivity. Qed.

Lemma WaitForStop_loop_stop (P : CSoundGen -> Prop) sched fuel i s :
  (forall s, P s -> stopped (engine_iter s)) -> P s ->
  (exists k, (i <= k < i + fuel)%nat /\ (0 < sched k)%nat) ->
  IsPlaying (snd (WaitForStop_loop sched fuel i s)) = false.
Proof.
  intros HP. revert i s. induction fuel as [|fuel IH]; intros i s Hs (k & Hk & Hk'); [lia|].
  cbn. destruct (IsPlaying s) eqn:Hp; [|exact Hp].
  destruct (Nat.eq_dec (sched i) 0%nat) as [Hz|Hnz].
  - unfold Sleep100. rewrite Hz. cbn. apply IH; [exact Hs|].
    exists k. split; [|exact Hk'].
    assert (k <> i) by (intros ->; lia). lia.
  - assert (Hst : stopped (Sleep100 sched i s))
      by (apply (engine_run_reaches_stopped P); [exact HP | exact Hs | lia]).
    rewrite WaitForStop_loop_stopped by apply Hst. apply Hst.
Qed.

Lemma WaitForStop_result sched s :
  WaitForStop sched s =
    (negb (IsPlaying (snd (WaitForStop_loop sched 40 0 s))),
     snd (WaitForStop_loop sched 40 0 s)).
Proof. unfold WaitForStop. destruct (WaitForStop_loop sched 40 0 s). reflexivity. Qed.

Lemma WaitForStop_elapsed_bound sched s : 0 <= WaitForStop_elapsed sched s <= 4000.
Proof.
  unfold WaitForStop_elapsed.
  pose proof (WaitForStop_loop_bound sched 40 0 s). lia.
Qed.

(** C7.  [WaitForStop] polls at most 40 times 100 ms apart, so it
    returns within 4 seconds, and its result says whether the player is
    stopped when it returns.  After [StopPlayer] on an engine whose
    thread exists, has nothing else queued, has no renderer about to
    start the player and completes at least one round of its loop within
    the 40 polls, the result is [true]. *)
Theorem WaitForStop_bounded_poll sched s :
  (0 <= WaitForStop_elapsed sched s <= 4000
   /\ fst (WaitForStop sched s) = negb (IsPlaying (snd (WaitForStop sched s))))
  /\ (m_hThread s = true -> inbox s = [] -> renderer_inert s ->
      (exists k, (k < 40)%nat /\ (0 < sched k)%nat) ->
      fst (WaitForStop sched (StopPlayer s)) = true
      /\ 0 <= WaitForStop_elapsed sched (StopPlayer s) <= 4000).
Proof.
  split.
  - split; [apply WaitForStop_elapsed_bound|].
    rewrite WaitForStop_result. reflexivity.
  - intros Ht Hi Hr (k & Hk & Hs).
    split; [|apply WaitForStop_elapsed_bound].
    rewrite WaitForStop_result. cbn [fst].
    rewrite (WaitForStop_loop_stop stop_posted);
      [reflexivity | apply engine_iter_stop_posted | |].
    + unfold stop_posted, StopPlayer, PostThreadMessage. rewrite Ht. cbn. rewrite Hi.
      split; [reflexivity | exact Hr].
    + exists k. split; [lia | exact Hs].
Qed.

Lemma WaitForStop_bounded_poll_witness :
  IsPlaying (Samples.playing_engine Samples.pf_ok) = true
  /\ fst (WaitForStop Samples.healthy (StopPlayer (Samples.playing_engine Samples.pf_ok)))
     = true.
Proof.
  split; [vm_compute; reflexivity|].
  apply (proj2 (WaitForStop_bounded_poll Samples.healthy
                  (Samples.playing_engine Samples.pf_ok))).
  - vm_compute. reflexivity.
  - vm_compute. reflexivity.
  - vm_compute. exact I.
  - exists 0%nat. split; [lia | unfold Samples.healthy; lia].
Defined.

(** ** Rendering to a file *)

Lemma RenderToFile_open_failed sched r s :
  RenderToFile sched false (Some r) s =
    (false,
     emit (MessageBox IDS_FILE_OPEN_ERROR)
       (StopPlayer
          (emit (WaveOpenFile (iSampleRate (Sound (pSettings (dev (render_prepared sched s)))))
                   (iSampleSize (Sound (pSettings (dev (render_prepared sched s))))) 1)
             (set_m_pWaveRenderer (Some r) (render_prepared sched s))))).
Proof. reflexivity. Qed.

(** C6.  [RenderToFile] returns failure and changes nothing when no
    renderer is supplied.  When the output file cannot be opened it
    returns failure after reporting [IDS_FILE_OPEN_ERROR]; it leaves the
    player as the preparation left it and posts nothing but a stop
    request.  If the player was stopped by then, nothing else is queued
    and the renderer handed in was not started and does not ask for the
    player, the player stays stopped over every number of rounds of the
    player thread. *)
Theorem RenderToFile_rejected sched open_ok r s :
  RenderToFile sched open_ok None s = (false, s)
  /\ fst (RenderToFile sched false (Some r) s) = false
  /\ log (snd (RenderToFile sched false (Some r) s)) =
       log (render_prepared sched s)
       ++ [WaveOpenFile (iSampleRate (Sound (pSettings (dev (render_prepared sched s)))))
             (iSampleSize (Sound (pSettings (dev (render_prepared sched s))))) 1;
           MessageBox IDS_FILE_OPEN_ERROR]
  /\ m_pSoundDriver (snd (RenderToFile sched false (Some r) s))
     = m_pSoundDriver (render_prepared sched s)
  /\ inbox (snd (RenderToFile sched false (Some r) s)) =
       inbox (render_prepared sched s)
       ++ (if m_hThread (render_prepared sched s) then [WM_USER_STOP] else [])
  /\ (IsPlaying (render_prepared sched s) = false ->
      m_hThread (render_prepared sched s) = true ->
      inbox (render_prepared sched s) = [] ->
      Started r = false -> ShouldStartPlayer r = false ->
      forall n, IsPlaying (engine_run n (snd (RenderToFile sched false (Some r) s))) = false).
Proof.
  split; [reflexivity|].
  rewrite RenderToFile_open_failed. cbn [fst snd].
  generalize (render_prepared sched s). clear s. intros p.
  unfold StopPlayer, PostThreadMessage. fields.
  split; [reflexivity|].
  destruct (m_hThread p) eqn:Ht; cbn [negb]; fields.
  - split; [rewrite <- app_assoc; reflexivity|].
    split; [reflexivity|]. split; [reflexivity|].
    intros Hp _ Hi Hs Hr n.
    destruct n as [|n]; [exact Hp|].
    apply (engine_run_reaches_stopped stop_posted);
      [apply engine_iter_stop_posted | | lia].
    unfold stop_posted, renderer_inert. fields. rewrite Hi. auto.
  - split; [rewrite <- app_assoc; reflexivity|].
    split; [reflexivity|]. split; [rewrite app_nil_r; reflexivity|].
    intros _ Hf. discriminate Hf.
Qed.

Lemma RenderToFile_rejected_witness :
  fst (RenderToFile Samples.healthy false (Some Samples.renderer)
         (Samples.playing_engine Samples.pf_ok)) = false
  /\ IsPlaying (engine_run 3
                  (snd (RenderToFile Samples.healthy false (Some Samples.renderer)
                          (Samples.playing_engine Samples.pf_ok)))) = false.
Proof.
  pose proof (RenderToFile_rejected Samples.healthy false Samples.renderer
                (Samples.playing_engine Samples.pf_ok)) as (_ & H1 & _ & _ & _ & H5).
  split; [exact H1|].
  apply H5.
  - vm_compute. reflexivity.
  - vm_compute. reflexivity.
  - vm_compute. reflexivity.
  - reflexivity.
  - reflexivity.
Defined.

(** ** A halt request on a running engine *)

Lemma calm_refl s : calm s s.
Proof. repeat split. Qed.

Lemma calm_trans s1 s2 s3 : calm s1 s2 -> calm s2 s3 -> calm s1 s3.
Proof. unfold calm. intros (-> & -> & ->) (-> & -> & ->). repeat split. Qed.

Lemma calm_OnTick s : calm s (OnTick s).
Proof. unfold OnTick. destruct (m_pTempoDisplay s); repeat split. Qed.

Lemma calm_OnStepRow s : calm s (OnStepRow s).
Proof. unfold OnStepRow. destruct (m_pTempoDisplay s); repeat split. Qed.

Lemma calm_OnPlayNote chan note s : calm s (OnPlayNote chan note s).
Proof.
  unfold OnPlayNote. destruct (negb _); [|apply calm_refl].
  destruct (m_pTrackerView s); fields; destruct (m_pDocument s); repeat split.
Qed.

Lemma calm_OnUpdateRow frame row s : calm s (OnUpdateRow frame row s).
Proof.
  unfold OnUpdateRow.
  set (s1 := match m_pDocument s with Some _ => _ | None => s end).
  assert (H1 : calm s s1).
  { subst s1. destruct (m_pDocument s); [|apply calm_refl].
    destruct (GetBookmarkHighlight _ _ _ _); [|apply calm_refl].
    destruct (negb _); repeat split. }
  clearbody s1. eapply calm_trans; [exact H1|].
  destruct (m_pTrackerView s1); [|apply calm_refl].
  destruct (negb _); repeat split.
Qed.

Lemma calm_SoundDriver_Tick s : calm s (SoundDriver_Tick s).
Proof.
  unfold SoundDriver_Tick.
  destruct (m_bPlaying _); [|apply calm_refl].
  destruct (m_pPlayerCursor _) as [cur|]; [|apply calm_refl].
  destruct (m_pDocument s) as [doc|]; [|apply calm_refl].
  set (s1 := set_m_pSoundDriver _ s).
  assert (H1 : calm s (OnTick s1)).
  { eapply calm_trans; [|apply calm_OnTick]. repeat split. }
  generalize dependent (OnTick s1). clear s1. intros s2 H2.
  destruct (stepped_row _) as [notes|]; [|exact H2].
  eapply calm_trans; [|apply calm_OnUpdateRow].
  apply foldl_invariant.
  - intros a [chan note] Ha. eapply calm_trans; [exact Ha|].
    eapply calm_trans; [|apply calm_OnPlayNote].
    destruct (IsChannelMuted chan a); repeat split.
  - eapply calm_trans; [exact H2 | apply calm_OnStepRow].
Qed.

Lemma engine_iter_halting s : halting s -> stopped (engine_iter s).
Proof.
  intros (Hh & (doc & Hdoc & Hl & Ho) & Hi & Hr).
  unfold engine_iter, pump. rewrite Hi. cbn [foldl].
  unfold IdleLoop. fields. rewrite Hdoc.
  change (IsAudioDeviceOpen (set_inbox [] s)) with (IsAudioDeviceOpen s).
  rewrite Ho, Hl. cbn [negb orb].
  set (s1 := set_m_iFrameCounter _ _).
  assert (H1 : calm s s1) by (repeat split; cbn; auto).
  pose proof (calm_trans _ _ _ H1 (calm_SoundDriver_Tick s1)) as H2.
  generalize dependent (SoundDriver_Tick s1). clear s1 H1. intros s2 (H2h & H2i & H2r).
  assert (Hr2 : renderer_inert s2) by (unfold renderer_inert; rewrite H2r; exact Hr).
  set (s3 := match m_pWaveRenderer s2 with Some _ => _ | None => s2 end).
  assert (H3 : s3 = s2).
  { subst s3. pose proof (StopRendering_inert s2 Hr2) as Hs.
    unfold renderer_inert in Hr2. destruct (m_pWaveRenderer s2) as [r|]; [|reflexivity].
    destruct Hr2 as [_ ->]. rewrite Hs. destruct (ShouldStopRender r); reflexivity. }
  rewrite H3. clear s3 H3.
  set (s4 := UpdateAPU s2).
  set (s5 := if IsPlaying s4 && _ then _ else s4).
  assert (H5 : m_bHaltRequest s5 = true /\ inbox s5 = [] /\ renderer_inert s5).
  { subst s5 s4. unfold renderer_inert in *.
    destruct (_ && _); unfold UpdateAPU; fields; rewrite H2h, H2i, H2r, Hh, Hi; auto. }
  clearbody s5. destruct H5 as (H5h & H5i & H5r).
  rewrite H5h, orb_true_r. apply HaltPlayer_stops; assumption.
Qed.

(** On an engine that gets a round of its loop within the polls and
    whose idle loop gets past its guard, the preparation of
    [RenderToFile] leaves the player stopped, and rendering starts
    from there. *)
Lemma RenderToFile_halts_first sched r s :
  ready s -> inbox s = [] -> renderer_inert s ->
  (exists k, (k < 40)%nat /\ (0 < sched k)%nat) ->
  IsPlaying (render_prepared sched s) = false
  /\ fst (RenderToFile sched true (Some r) s) = true
  /\ IsPlaying (snd (RenderToFile sched true (Some r) s)) = false.
Proof.
  intros Hready Hi Hr (k & Hk & Hs).
  assert (Hp : IsPlaying (render_prepared sched s) = false).
  { unfold render_prepared. destruct (IsPlaying s) eqn:E; [|exact E].
    rewrite WaitForStop_result. cbn [snd].
    apply (WaitForStop_loop_stop halting); [apply engine_iter_halting | |].
    - repeat split; assumption.
    - exists k. split; [lia | exact Hs]. }
  split; [exact Hp|].
  change (RenderToFile sched true (Some r) s) with
    (true, PostThreadMessage WM_USER_START_RENDER
             (set_m_pWaveRenderer (Some (renderer_SetOutputFile r))
                (emit (WaveOpenFile (iSampleRate (Sound (pSettings (dev (render_prepared sched s)))))
                         (iSampleSize (Sound (pSettings (dev (render_prepared sched s))))) 1)
                   (set_m_pWaveRenderer (Some r) (render_prepared sched s))))).
  cbn [fst snd]. split; [reflexivity|].
  unfold PostThreadMessage. fields. destruct (m_hThread _); exact Hp.
Qed.

(** The result of [WaitForStop] plays no part in [RenderToFile]: when the
    wait gives up with the player still playing, a request whose file
    opens is accepted all the same. *)
Lemma RenderToFile_ignores_timeout sched r s :
  IsPlaying s = true ->
  fst (WaitForStop sched (set_m_bHaltRequest true s)) = false ->
  fst (RenderToFile sched true (Some r) s) = true
  /\ IsPlaying (snd (RenderToFile sched true (Some r) s)) = true.
Proof.
  intros Hp Hw.
  assert (Hq : IsPlaying (render_prepared sched s) = true).
  { unfold render_prepared. rewrite Hp.
    rewrite WaitForStop_result in Hw |- *. cbn [fst snd] in Hw |- *.
    apply negb_false_iff, Hw. }
  change (RenderToFile sched true (Some r) s) with
    (true, PostThreadMessage WM_USER_START_RENDER
             (set_m_pWaveRenderer (Some (renderer_SetOutputFile r))
                (emit (WaveOpenFile
                         (iSampleRate (Sound (pSettings (dev (render_prepared sched s)))))
                         (iSampleSize (Sound (pSettings (dev (render_prepared sched s))))) 1)
                   (set_m_pWaveRenderer (Some r) (render_prepared sched s))))).
  cbn [fst snd]. split; [reflexivity|].
  unfold PostThreadMessage. fields. destruct (m_hThread _); exact Hq.
Qed.

(** C4 at an input where it fails.  The player is playing and the
    output device is gone, so that the idle loop returns before it looks
    at the halt request.  [RenderToFile] raises the request, waits the
    full 4 seconds, ignores that [WaitForStop] reports the player still
    playing, accepts the request and posts the start of the rendering:
    once that message is handled the renderer is started while the
    player is still playing. *)
Lemma RenderToFile_accepted_while_playing :
  IsPlaying Samples.device_lost = true
  /\ WaitForStop_elapsed Samples.healthy (set_m_bHaltRequest true Samples.device_lost) = 4000
  /\ fst (WaitForStop Samples.healthy (set_m_bHaltRequest true Samples.device_lost)) = false
  /\ fst (RenderToFile Samples.healthy true (Some Samples.renderer) Samples.device_lost)
     = true
  /\ inbox (snd (RenderToFile Samples.healthy true (Some Samples.renderer)
                   Samples.device_lost)) = [WM_USER_START_RENDER]
  /\ IsPlaying (snd (RenderToFile Samples.healthy true (Some Samples.renderer)
                       Samples.device_lost)) = true
  /\ is_rendering_impl
       (engine_run 1 (snd (RenderToFile Samples.healthy true (Some Samples.renderer)
                             Samples.device_lost))) = true
  /\ IsPlaying
       (engine_run 1 (snd (RenderToFile Samples.healthy true (Some Samples.renderer)
                             Samples.device_lost))) = true.
Proof. vm_compute. repeat split. Qed.

End EngineFacts.

(** * The sequence play position *)
Module SequencePosFacts.

Import SequencePos.

Lemma polls_S n seq st :
  polls (S n) seq st = snd (GetSequencePlayPos seq (polls n seq st)).
Proof. reflexivity. Qed.

(** The state [n] polls after a position was set with [t] polls left. *)
Lemma polls_countdown n seq p t :
  0 <= t ->
  polls n seq {| m_pSequencePlayPos := seq; m_iSequencePlayPos := p;
                 m_iSequenceTimeout := t |}
  = if Z.of_nat n <=? t
    then {| m_pSequencePlayPos := seq; m_iSequencePlayPos := p;
            m_iSequenceTimeout := t - Z.of_nat n |}
    else {| m_pSequencePlayPos := seq; m_iSequencePlayPos := -1;
            m_iSequenceTimeout := 0 |}.
Proof.
  intros Ht. induction n as [|n IH].
  - change (Z.of_nat 0) with 0. rewrite (proj2 (Z.leb_le _ _)) by lia.
    rewrite Z.sub_0_r. reflexivity.
  - rewrite polls_S, IH. clear IH.
    destruct (Z.leb_spec (Z.of_nat n) t) as [Hn|Hn];
      destruct (Z.leb_spec (Z.of_nat (S n)) t) as [Hn'|Hn']; try lia;
      unfold GetSequencePlayPos; cbn [m_pSequencePlayPos m_iSequencePlayPos m_iSequenceTimeout];
      rewrite bool_decide_eq_false_2 by (intros H; apply H; reflexivity).
    + destruct (Z.eqb_spec (t - Z.of_nat n) 0) as [E|E]; [lia|].
      cbn [snd]. f_equal. lia.
    + destruct (Z.eqb_spec (t - Z.of_nat n) 0) as [E|E]; [|lia].
      cbn [snd]. f_equal. exact E.
    + reflexivity.
Qed.

(** X1.  After [SetSequencePlayPos] for the sequence being polled, the
    position set is reported by the next five polls of that sequence and
    by none after them: from the sixth poll on the result is -1. *)
Theorem position_reported_for_five_polls seq p st n :
  m_pSequencePlayPos st = seq ->
  fst (GetSequencePlayPos seq (polls n seq (SetSequencePlayPos seq p st)))
  = if (n <? 5)%nat then p else -1.
Proof.
  intros Hseq. unfold SetSequencePlayPos.
  rewrite bool_decide_eq_true_2 by (symmetry; exact Hseq).
  rewrite Hseq, polls_countdown by lia.
  destruct (Nat.ltb_spec n 5) as [Hn|Hn];
    destruct (Z.leb_spec (Z.of_nat n) 5) as [Hn'|Hn']; try lia;
    unfold GetSequencePlayPos; cbn [m_pSequencePlayPos m_iSequencePlayPos m_iSequenceTimeout];
    rewrite bool_decide_eq_false_2 by (intros H; apply H; reflexivity).
  - destruct (Z.eqb_spec (5 - Z.of_nat n) 0); [lia | reflexivity].
  - destruct (Z.eqb_spec (5 - Z.of_nat n) 0); [reflexivity | lia].
  - reflexivity.
Qed.

Lemma position_reported_for_five_polls_witness :
  fst (GetSequencePlayPos (Some 7%nat)
         (polls 4 (Some 7%nat)
            (SetSequencePlayPos (Some 7%nat) 3
               (snd (GetSequencePlayPos (Some 7%nat) initial))))) = 3
  /\ fst (GetSequencePlayPos (Some 7%nat)
            (polls 5 (Some 7%nat)
               (SetSequencePlayPos (Some 7%nat) 3
                  (snd (GetSequencePlayPos (Some 7%nat) initial))))) = -1.
Proof.
  split.
  - exact (position_reported_for_five_polls (Some 7%nat) 3
             (snd (GetSequencePlayPos (Some 7%nat) initial)) 4 eq_refl).
  - exact (position_reported_for_five_polls (Some 7%nat) 3
             (snd (GetSequencePlayPos (Some 7%nat) initial)) 5 eq_refl).
Defined.

Lemma Get_minus_one seq st :
  m_pSequencePlayPos st = seq -> m_iSequencePlayPos st = -1 ->
  fst (GetSequencePlayPos seq st) = -1
  /\ m_pSequencePlayPos (snd (GetSequencePlayPos seq st)) = seq
  /\ m_iSequencePlayPos (snd (GetSequencePlayPos seq st)) = -1.
Proof.
  intros Hs Hp. unfold GetSequencePlayPos. rewrite Hp.
  destruct (bool_decide _); destruct (_ =? 0); repeat apply conj; reflexivity.
Qed.

(** X2.  A position set for a sequence other than the one last polled is
    dropped, and when the polled sequence changes no position is
    reported for the new sequence: every poll gives -1 until a position
    is set for it. *)
Theorem other_sequence_reports_nothing seq p st n :
  m_pSequencePlayPos st <> seq ->
  SetSequencePlayPos seq p st = st
  /\ fst (GetSequencePlayPos seq (polls n seq st)) = -1.
Proof.
  intros Hne. split.
  - unfold SetSequencePlayPos. rewrite bool_decide_eq_false_2; [reflexivity|].
    intros E. apply Hne. symmetry. exact E.
  - destruct n as [|n].
    + change (polls 0 seq st) with st. unfold GetSequencePlayPos.
      rewrite bool_decide_eq_true_2 by exact Hne.
      destruct (_ =? 0); reflexivity.
    + assert (H : m_pSequencePlayPos (polls (S n) seq st) = seq
                  /\ m_iSequencePlayPos (polls (S n) seq st) = -1).
      { induction n as [|n [IH1 IH2]].
        - change (polls 1 seq st) with (snd (GetSequencePlayPos seq st)).
          unfold GetSequencePlayPos.
          rewrite bool_decide_eq_true_2 by exact Hne.
          destruct (_ =? 0); split; reflexivity.
        - rewrite polls_S. split; apply (Get_minus_one seq _ IH1 IH2). }
      destruct H as [H1 H2]. apply (Get_minus_one seq _ H1 H2).
Qed.

Lemma other_sequence_reports_nothing_witness :
  fst (GetSequencePlayPos (Some 2%nat)
         (polls 3 (Some 2%nat)
            (SetSequencePlayPos (Some 1%nat) 9
               (snd (GetSequencePlayPos (Some 1%nat) initial))))) = -1.
Proof.
  apply (proj2 (other_sequence_reports_nothing (Some 2%nat) 0
                  (SetSequencePlayPos (Some 1%nat) 9
                     (snd (GetSequencePlayPos (Some 1%nat) initial))) 3
                  ltac:(cbn; discriminate))).
Defined.

Lemma positions_set_snoc l o :
  positions_set (l ++ [o])
  = positions_set l ++ match o with Set_ _ Pos => [Pos] | Get_ _ => [] end.
Proof. unfold positions_set. rewrite omap_app. destruct o; reflexivity. Qed.

(** X3.  From the constructed state on, whatever calls are made, the
    timeout stays between 0 and 5, and a poll reports either -1 or one of
    the positions that were set. *)
Theorem polls_report_set_positions l seq :
  0 <= m_iSequenceTimeout (foldl apply initial l) <= 5
  /\ (fst (GetSequencePlayPos seq (foldl apply initial l)) = -1
      \/ fst (GetSequencePlayPos seq (foldl apply initial l)) ∈ positions_set l).
Proof.
  assert (Inv : 0 <= m_iSequenceTimeout (foldl apply initial l) <= 5
                /\ (m_iSequenceTimeout (foldl apply initial l) = 0
                    \/ m_iSequencePlayPos (foldl apply initial l) = -1
                    \/ m_iSequencePlayPos (foldl apply initial l) ∈ positions_set l)).
  { induction l as [|o l IH] using rev_ind.
    - cbn. split; [lia | left; reflexivity].
    - rewrite foldl_app, positions_set_snoc. cbn [foldl].
      destruct IH as [Ht Hp]. generalize dependent (foldl apply initial l). intros st Ht Hp.
      destruct o as [q Pos|q]; cbn [apply].
      + unfold SetSequencePlayPos. destruct (bool_decide _).
        * cbn. split; [lia|]. right. right. apply elem_of_app. right. apply list_elem_of_singleton.
          reflexivity.
        * split; [exact Ht|]. rewrite elem_of_app. tauto.
      + rewrite app_nil_r. unfold GetSequencePlayPos.
        destruct (Z.eqb_spec (m_iSequenceTimeout st) 0) as [E|E]; cbn.
        * split; [lia | left; exact E].
        * split; [lia|]. destruct (bool_decide _); [right; left; reflexivity|].
          destruct Hp as [Hp|Hp]; [contradiction | right; exact Hp]. }
  destruct Inv as [Ht Hp]. split; [exact Ht|].
  generalize dependent (foldl apply initial l). intros st Ht Hp.
  unfold GetSequencePlayPos.
  destruct (Z.eqb_spec (m_iSequenceTimeout st) 0) as [E|E]; cbn; [left; reflexivity|].
  destruct (bool_decide _); [left; reflexivity|].
  destruct Hp as [Hp|[Hp|Hp]]; [contradiction | left; exact Hp | right; exact Hp].
Qed.

End SequencePosFacts.

(** * More on the audio device set-up *)
Module AudioDeviceMoreFacts.

Import AudioDevice AudioDeviceFacts.

Lemma ResetAudioDevice_driver pf s :
  m_pAudioDriver (snd (ResetAudioDevice pf s)) =
    if SetupDevice_ok pf (selected_device pf s)
    then Some (OpenChannel_ok pf (to_unsigned (iSampleRate (Sound (pSettings s))))
                 (to_unsigned (iSampleSize (Sound (pSettings s)))) 1
                 (to_unsigned (iBufferLength (Sound (pSettings s))))
                 (block_count (to_unsigned (iBufferLength (Sound (pSettings s))))))
    else match m_pAudioDriver s with Some _ => Some false | None => None end.
Proof.
  unfold ResetAudioDevice, selected_device.
  destruct s as [p drv vis mt cs]; cbn [pSettings m_pAudioDriver m_pVisualizerWnd
    m_iMachineType calls].
  destruct drv as [b|];
    destruct (GetDeviceCount pf <=? _); cbn;
    destruct (SetupDevice_ok pf _); cbn;
    try (destruct (OpenChannel_ok pf _ _ _ _ _); cbn);
    try (destruct vis; cbn);
    try (destruct (SetupSound_ok pf _); cbn);
    reflexivity.
Qed.

(** X4.  A persisted device index that is an index into the enumerated
    devices is used as it is: [SetupDevice] is called once, with that
    index, and the settings are not written. *)
Theorem valid_device_is_kept pf s :
  0 <= iDevice (Sound (pSettings s)) < GetDeviceCount pf ->
  GetDeviceCount pf <= 2 ^ 32 ->
  setup_device_calls (new_calls s (snd (ResetAudioDevice pf s)))
  = [iDevice (Sound (pSettings s))]
  /\ pSettings (snd (ResetAudioDevice pf s)) = pSettings s.
Proof.
  intros Hi Hc.
  assert (Hu : to_unsigned (iDevice (Sound (pSettings s))) = iDevice (Sound (pSettings s)))
    by (apply to_unsigned_small; lia).
  assert (Hlt : (GetDeviceCount pf <=? to_unsigned (iDevice (Sound (pSettings s)))) = false)
    by (apply Z.leb_gt; lia).
  assert (Hsel : selected_device pf s = iDevice (Sound (pSettings s))).
  { unfold selected_device. cbn zeta. rewrite Hlt. exact Hu. }
  rewrite new_calls_run, ResetAudioDevice_settings, Hlt.
  split; [|reflexivity].
  unfold run_calls. rewrite Hsel.
  destruct (m_pAudioDriver s); destruct (SetupDevice_ok pf _);
    try destruct (OpenChannel_ok pf _ _ _ _ _);
    try destruct (m_pVisualizerWnd s);
    try destruct (SetupSound_ok pf _); reflexivity.
Qed.

Lemma valid_device_is_kept_witness :
  setup_device_calls
    (new_calls (Samples.device_state (Samples.settings 0 1 40))
       (snd (ResetAudioDevice Samples.pf_ok
               (Samples.device_state (Samples.settings 0 1 40))))) = [1].
Proof.
  exact (proj1 (valid_device_is_kept Samples.pf_ok
                  (Samples.device_state (Samples.settings 0 1 40))
                  ltac:(cbn; lia) ltac:(cbn; lia))).
Defined.

(** X5.  A failure of [SetupSound] is the one failure that shows no
    message box: the set-up returns false, yet the channel it opened
    stays open. *)
Theorem SetupSound_failure_is_silent pf s :
  run_ok pf s = false ->
  SetupDevice_ok pf (selected_device pf s)
  && OpenChannel_ok pf (to_unsigned (iSampleRate (Sound (pSettings s))))
       (to_unsigned (iSampleSize (Sound (pSettings s)))) 1
       (to_unsigned (iBufferLength (Sound (pSettings s))))
       (block_count (to_unsigned (iBufferLength (Sound (pSettings s))))) = true ->
  fst (ResetAudioDevice pf s) = false
  /\ message_boxes (new_calls s (snd (ResetAudioDevice pf s))) = []
  /\ m_pAudioDriver (snd (ResetAudioDevice pf s)) = Some true.
Proof.
  intros Hfail Hopen. rewrite ResetAudioDevice_result, new_calls_run, ResetAudioDevice_driver.
  split; [exact Hfail|].
  unfold run_ok in Hfail. rewrite Hopen in Hfail. cbn [andb] in Hfail.
  apply andb_prop in Hopen as [H1 H2].
  unfold run_calls. rewrite H1, H2, Hfail.
  split; [|reflexivity].
  destruct (m_pAudioDriver s); destruct (m_pVisualizerWnd s); reflexivity.
Qed.

Lemma SetupSound_failure_is_silent_witness :
  fst (ResetAudioDevice MoreSamples.pf_no_sound
         (Samples.device_state (Samples.settings 0 0 40))) = false
  /\ message_boxes
       (new_calls (Samples.device_state (Samples.settings 0 0 40))
          (snd (ResetAudioDevice MoreSamples.pf_no_sound
                  (Samples.device_state (Samples.settings 0 0 40))))) = []
  /\ m_pAudioDriver
       (snd (ResetAudioDevice MoreSamples.pf_no_sound
               (Samples.device_state (Samples.settings 0 0 40)))) = Some true.
Proof.
  exact (SetupSound_failure_is_silent MoreSamples.pf_no_sound
           (Samples.device_state (Samples.settings 0 0 40)) eq_refl eq_refl).
Defined.

(** X6.  The chip levels and the mixer are set all together or not at
    all: a successful set-up makes the eight [SetChipLevel] calls, a
    failed one makes none and leaves the mixer alone; a message box is
    shown only by a failed one, and then at most one. *)
Theorem levels_all_or_nothing pf s :
  length (chip_level_calls (new_calls s (snd (ResetAudioDevice pf s))))
  = (if fst (ResetAudioDevice pf s) then 8 else 0)%nat
  /\ (if fst (ResetAudioDevice pf s)
      then message_boxes (new_calls s (snd (ResetAudioDevice pf s))) = []
           /\ last (new_calls s (snd (ResetAudioDevice pf s)))
              = Some (SetupMixer (iBassFilter (Sound (pSettings s)))
                        (iTrebleFilter (Sound (pSettings s)))
                        (iTrebleDamping (Sound (pSettings s)))
                        (iMixVolume (Sound (pSettings s))))
      else (length (message_boxes (new_calls s (snd (ResetAudioDevice pf s)))) <= 1)%nat
           /\ Forall (fun c => match c with SetupMixer _ _ _ _ => False | _ => True end)
                (new_calls s (snd (ResetAudioDevice pf s)))).
Proof.
  rewrite new_calls_run, ResetAudioDevice_result. unfold run_ok, run_calls.
  destruct (m_pAudioDriver s); destruct (SetupDevice_ok pf _);
    try destruct (OpenChannel_ok pf _ _ _ _ _);
    try destruct (m_pVisualizerWnd s);
    try destruct (SetupSound_ok pf _); cbn;
    (split; [reflexivity|]); split; try reflexivity; try lia;
    repeat constructor.
Qed.

Lemma set_iDevice_twice d p : set_iDevice d (set_iDevice d p) = set_iDevice d p.
Proof. reflexivity. Qed.

(** X7.  Setting up the device a second time changes the settings no
    further and selects the same device: the repair of the device index
    is done once. *)
Theorem device_repair_is_idempotent pf s :
  pSettings (snd (ResetAudioDevice pf (snd (ResetAudioDevice pf s))))
  = pSettings (snd (ResetAudioDevice pf s))
  /\ selected_device pf (snd (ResetAudioDevice pf s)) = selected_device pf s.
Proof.
  assert (H0 : to_unsigned 0 = 0) by reflexivity.
  split.
  - rewrite (ResetAudioDevice_settings pf (snd (ResetAudioDevice pf s))).
    rewrite (ResetAudioDevice_settings pf s).
    destruct (GetDeviceCount pf <=? to_unsigned (iDevice (Sound (pSettings s)))) eqn:E.
    + cbn [set_iDevice Sound iDevice]. rewrite H0.
      destruct (GetDeviceCount pf <=? 0); reflexivity.
    + rewrite E. reflexivity.
  - unfold selected_device. cbn zeta.
    rewrite (ResetAudioDevice_settings pf s).
    destruct (GetDeviceCount pf <=? to_unsigned (iDevice (Sound (pSettings s)))) eqn:E.
    + cbn [set_iDevice Sound iDevice]. rewrite H0.
      destruct (GetDeviceCount pf <=? 0); reflexivity.
    + rewrite E. reflexivity.
Qed.

(** X8.  Whatever buffer length is persisted, the block count lies
    between 2 and 65075264, so the [int] never overflows, and a longer
    buffer never gets fewer blocks. *)
Theorem block_count_bounds a b :
  0 <= a <= b -> b < 2 ^ 32 ->
  2 <= block_count a /\ block_count a <= block_count b /\ block_count b <= 65075264.
Proof.
  intros Hab Hb.
  rewrite !block_count_unsigned by lia.
  assert (Hdiv : a / 66 <= b / 66) by (apply Z.div_le_mono; lia).
  assert (Ha : 0 <= a / 66) by (apply Z.div_pos; lia).
  assert (Hbb : b / 66 <= 65075262)
    by (apply Z.lt_succ_r, Z.div_lt_upper_bound; lia).
  destruct (Z.ltb_spec 100 a); destruct (Z.ltb_spec 100 b); lia.
Qed.

Lemma block_count_bounds_witness :
  2 <= block_count 100 /\ block_count 100 <= block_count 101
  /\ block_count 101 <= 65075264.
Proof. exact (block_count_bounds 100 101 ltac:(lia) ltac:(lia)). Defined.

End AudioDeviceMoreFacts.

(** * More on the controller *)
Module EngineMoreFacts.

Import AudioDevice Engine Control EngineFacts.

(** ** What the parts of the player thread leave alone *)

Lemma steady_refl s : steady s s.
Proof. repeat split. Qed.

Lemma steady_trans s1 s2 s3 : steady s1 s2 -> steady s2 s3 -> steady s1 s3.
Proof.
  unfold steady, settled, same_channels. intuition congruence.
Qed.

Lemma steady_same s0 s s' :
  muted_ s' = muted_ s -> GetRecordChannel s' = GetRecordChannel s ->
  m_hThread s' = m_hThread s -> platform s' = platform s ->
  m_pDocument s' = m_pDocument s -> m_pTrackerView s' = m_pTrackerView s ->
  dev s' = dev s -> m_iFrameCounter s' = m_iFrameCounter s -> inbox s' = inbox s ->
  steady s0 s -> steady s0 s'.
Proof.
  intros H1 H2 H3 H4 H5 H6 H7 H8 H9 H. apply (steady_trans _ _ _ H).
  unfold steady, settled, same_channels. auto 10.
Qed.

Ltac look :=
  unfold GetRecordChannel;
  cbn [dev platform m_hThread m_pDocument m_pTrackerView m_pSoundDriver m_pTempoCounter
       m_pInstRecorder muted_ m_bHaltRequest m_bPlayingSingleRow m_iLastTrack
       m_iLastHighlight m_iFrameCounter m_bWaveChanged m_bInternalWaveChanged
       m_pWaveRenderer m_pTempoDisplay inbox log
       set_dev set_m_hThread set_m_pDocument set_m_pTrackerView set_m_pSoundDriver
       set_m_pTempoCounter set_m_pInstRecorder set_muted_ set_m_bHaltRequest
       set_m_bPlayingSingleRow set_m_iLastTrack set_m_iLastHighlight set_m_iFrameCounter
       set_m_bWaveChanged set_m_bInternalWaveChanged set_m_pWaveRenderer
       set_m_pTempoDisplay set_inbox set_log
       emit set_recording SetRecordChannel RecordChannel];
  reflexivity.

Ltac steady_step :=
  match goal with
  | H : steady ?a ?b |- steady ?a ?b => exact H
  | |- steady ?a ?a => apply steady_refl
  | |- steady _ (if ?c then _ else _) => destruct c
  | |- steady _ (match ?c with Some _ => _ | None => _ end) => destruct c
  | |- steady _ (?f _ ?x) => apply (steady_same _ x); [look..|]
  | |- steady _ (?f ?x) => apply (steady_same _ x); [look..|]
  end.

Lemma steady_MakeSilent s0 s : steady s0 s -> steady s0 (MakeSilent s).
Proof.
  intros H. unfold MakeSilent.
  destruct (m_pTrackerView s); cbv zeta; (apply (steady_same _ s); [reflexivity..|exact H]).
Qed.

Lemma steady_ResetAPU s0 s : steady s0 s -> steady s0 (ResetAPU s).
Proof. intros H. unfold ResetAPU. cbv zeta. repeat steady_step. Qed.

Lemma steady_ResetBuffer s0 s : steady s0 s -> steady s0 (ResetBuffer s).
Proof. intros H. unfold ResetBuffer. repeat steady_step. Qed.

Lemma steady_ResetTempo s0 s : steady s0 s -> steady s0 (ResetTempo s).
Proof. intros H. unfold ResetTempo. cbv zeta. repeat steady_step. Qed.

Lemma steady_ApplyGlobalState s0 s : steady s0 s -> steady s0 (ApplyGlobalState s).
Proof.
  intros H. unfold ApplyGlobalState. cbv zeta.
  destruct (if IsPlaying s then _ else _) as [[Frame Row]|]; repeat steady_step.
Qed.

Lemma steady_HaltPlayer s0 s : steady s0 s -> steady s0 (HaltPlayer s).
Proof.
  intros H. apply steady_MakeSilent in H. revert H. unfold HaltPlayer. cbv zeta.
  generalize (MakeSilent s). intros s1 H. repeat steady_step.
Qed.

Lemma steady_StartRendering s0 s : steady s0 s -> steady s0 (StartRendering s).
Proof.
  intros H. apply steady_ResetBuffer in H. revert H. unfold StartRendering. cbv zeta.
  generalize (ResetBuffer s). intros s1 H. repeat steady_step.
Qed.

Lemma steady_StopRendering s0 s : steady s0 s -> steady s0 (StopRendering s).
Proof.
  intros H. unfold StopRendering. cbv zeta. destruct (negb _); [exact H|].
  apply steady_ResetAPU, steady_HaltPlayer, steady_ResetBuffer. repeat steady_step.
Qed.

Lemma steady_UpdateAPU s0 s : steady s0 s -> steady s0 (UpdateAPU s).
Proof. intros H. unfold UpdateAPU. cbv zeta. repeat steady_step. Qed.

Lemma steady_OnTick s0 s : steady s0 s -> steady s0 (OnTick s).
Proof. intros H. unfold OnTick. repeat steady_step. Qed.

Lemma steady_OnStepRow s0 s : steady s0 s -> steady s0 (OnStepRow s).
Proof. intros H. unfold OnStepRow. repeat steady_step. Qed.

Lemma steady_OnPlayNote chan note s0 s : steady s0 s -> steady s0 (OnPlayNote chan note s).
Proof.
  intros H. unfold OnPlayNote. cbv zeta. destruct (negb _); [|exact H].
  destruct (m_pTrackerView s); repeat steady_step.
Qed.

Lemma steady_OnUpdateRow frame row s0 s : steady s0 s -> steady s0 (OnUpdateRow frame row s).
Proof.
  intros H. unfold OnUpdateRow. cbv zeta.
  match goal with
  | |- steady _ (match m_pTrackerView ?x with _ => _ end) =>
      assert (H1 : steady s0 x); [|revert H1; generalize x; intros s1 H1]
  end.
  { destruct (m_pDocument s) as [doc|]; [|exact H].
    destruct (GetBookmarkHighlight _ _ _ _); repeat steady_step. }
  repeat steady_step.
Qed.

Lemma steady_SoundDriver_Tick s0 s : steady s0 s -> steady s0 (SoundDriver_Tick s).
Proof.
  intros H. unfold SoundDriver_Tick. cbv zeta.
  destruct (m_bPlaying _); [|exact H].
  destruct (m_pPlayerCursor _) as [cur|]; [|exact H].
  destruct (m_pDocument s) as [doc|]; [|exact H].
  assert (H1 : steady s0 (OnTick (set_m_pSoundDriver
            {| m_bPlaying := true; m_pPlayerCursor := Some (next_cursor (SongTick doc cur));
               m_bDriverHalt := m_bDriverHalt (m_pSoundDriver s) || song_halt (SongTick doc cur);
               pending := pending (m_pSoundDriver s) |} s))).
  { apply steady_OnTick. repeat steady_step. }
  revert H1. generalize (OnTick (set_m_pSoundDriver
            {| m_bPlaying := true; m_pPlayerCursor := Some (next_cursor (SongTick doc cur));
               m_bDriverHalt := m_bDriverHalt (m_pSoundDriver s) || song_halt (SongTick doc cur);
               pending := pending (m_pSoundDriver s) |} s)).
  intros s1 H1. destruct (stepped_row _) as [notes|]; [|exact H1].
  apply steady_OnUpdateRow, foldl_invariant; [|apply steady_OnStepRow, H1].
  intros a [chan note] Ha. apply steady_OnPlayNote. repeat steady_step.
Qed.

Lemma steady_BeginPlayer Pos s0 s : steady s0 s -> steady s0 (BeginPlayer Pos s).
Proof.
  intros H. unfold BeginPlayer. destruct (m_pDocument s) as [doc|]; [|exact H].
  destruct (_ || _); [exact H|]. cbv zeta.
  assert (H1 : steady s0 (MakeSilent (ResetAPU (ResetTempo
            (if bAverageBPM (pSettings (dev s))
             then set_m_pTempoDisplay
                    (Some (TempoDisplay.Build TempoDisplay.DEFAULT_AVERAGE_BPM_SIZE))
                    (set_m_iLastTrack (GetCurrentSong Pos) (set_m_bPlayingSingleRow false
                       (set_m_bHaltRequest false
                          (set_m_pSoundDriver (drv_StartPlayer Pos (m_pSoundDriver s)) s))))
             else set_m_iLastTrack (GetCurrentSong Pos) (set_m_bPlayingSingleRow false
                       (set_m_bHaltRequest false
                          (set_m_pSoundDriver (drv_StartPlayer Pos (m_pSoundDriver s)) s)))))))).
  { apply steady_MakeSilent, steady_ResetAPU, steady_ResetTempo.
    destruct (bAverageBPM _); repeat steady_step. }
  revert H1. fields. generalize (MakeSilent (ResetAPU (ResetTempo
            (if bAverageBPM (pSettings (dev s))
             then set_m_pTempoDisplay
                    (Some (TempoDisplay.Build TempoDisplay.DEFAULT_AVERAGE_BPM_SIZE))
                    (set_m_iLastTrack (GetCurrentSong Pos) (set_m_bPlayingSingleRow false
                       (set_m_bHaltRequest false
                          (set_m_pSoundDriver (drv_StartPlayer Pos (m_pSoundDriver s)) s))))
             else set_m_iLastTrack (GetCurrentSong Pos) (set_m_bPlayingSingleRow false
                       (set_m_bHaltRequest false
                          (set_m_pSoundDriver (drv_StartPlayer Pos (m_pSoundDriver s)) s))))))).
  intros s1 H1.
  assert (H2 : steady s0 (if bRetrieveChanState (pSettings (dev s1))
                          then ApplyGlobalState s1 else s1)).
  { destruct (bRetrieveChanState _); [apply steady_ApplyGlobalState|]; exact H1. }
  revert H2. generalize (if bRetrieveChanState (pSettings (dev s1))
                          then ApplyGlobalState s1 else s1).
  intros s2 H2. destruct (bool_decide _); [|exact H2].
  unfold set_recording. apply (steady_same _ s2); try reflexivity. exact H2.
Qed.

Lemma steady_OnResetPlayer pCur s0 s : steady s0 s -> steady s0 (OnResetPlayer pCur s).
Proof.
  intros H. unfold OnResetPlayer. cbv zeta. destruct (IsPlaying _).
  - apply steady_BeginPlayer. repeat steady_step.
  - repeat steady_step.
Qed.

Ltac steady_block :=
  match goal with
  | |- steady _ (HaltPlayer _) => apply steady_HaltPlayer
  | |- steady _ (MakeSilent _) => apply steady_MakeSilent
  | |- steady _ (ResetAPU _) => apply steady_ResetAPU
  | |- steady _ (ResetBuffer _) => apply steady_ResetBuffer
  | |- steady _ (ResetTempo _) => apply steady_ResetTempo
  | |- steady _ (ApplyGlobalState _) => apply steady_ApplyGlobalState
  | |- steady _ (StartRendering _) => apply steady_StartRendering
  | |- steady _ (StopRendering _) => apply steady_StopRendering
  | |- steady _ (UpdateAPU _) => apply steady_UpdateAPU
  | |- steady _ (SoundDriver_Tick _) => apply steady_SoundDriver_Tick
  | |- steady _ (BeginPlayer _ _) => apply steady_BeginPlayer
  | |- steady _ (OnResetPlayer _ _) => apply steady_OnResetPlayer
  end.

Ltac steady_auto := repeat first [steady_block | steady_step].

Lemma steady_settled s s' : steady s s' -> settled s s'.
Proof. intros H. apply H. Qed.

Lemma steady_inbox s s' : steady s s' -> inbox s' = inbox s.
Proof. intros H. apply H. Qed.

Lemma steady_counter s s' : steady s s' -> m_iFrameCounter s' = m_iFrameCounter s.
Proof. intros H. apply H. Qed.

Lemma settled_channels s s' : settled s s' -> same_channels s s'.
Proof. intros H. apply H. Qed.

Lemma same_channels_refl s : same_channels s s.
Proof. repeat split. Qed.

Lemma same_channels_trans s1 s2 s3 :
  same_channels s1 s2 -> same_channels s2 s3 -> same_channels s1 s3.
Proof. unfold same_channels. intuition congruence. Qed.

Lemma settled_trans s1 s2 s3 : settled s1 s2 -> settled s2 s3 -> settled s1 s3.
Proof. unfold settled, same_channels. intuition congruence. Qed.

Lemma settled_ready s s' : settled s s' -> ready s -> ready s'.
Proof.
  intros (_ & Hd & _ & Hv) (doc & Hdoc & Hl & Ho). exists doc.
  unfold IsAudioDeviceOpen in *. rewrite Hd, Hv. auto.
Qed.

Lemma idles_steady s0 s s' : idles s0 s -> steady s s' -> idles s0 s'.
Proof.
  unfold idles, posted, steady, settled, same_channels.
  intros (H1 & H2 & H3) (H4 & H5 & H6). rewrite H5, H6. intuition congruence.
Qed.

Lemma steady_idles s s' : steady s s' -> idles s s'.
Proof. intros (H1 & H2 & H3). split; [exact H1|]. split; [exact H2|]. left. exact H3. Qed.

Lemma idles_StartPlayer c s s' : steady s s' -> idles s (StartPlayer c s').
Proof.
  intros H. unfold StartPlayer, PostThreadMessage.
  destruct (m_hThread s'); cbn [negb]; [|apply steady_idles, H].
  destruct H as (H1 & H2 & H3). split; [exact H1|]. split; [exact H2|].
  right. exists c. cbn. rewrite H3. reflexivity.
Qed.

(** After the count of the frame, an idle loop leaves the document, the
    view, the audio set-up, the channels and the frame counter alone and
    posts at most one play request. *)
Lemma IdleLoop_idles s :
  match m_pDocument s with
  | Some doc =>
      if negb (IsAudioDeviceOpen s) || negb (IsFileLoaded doc) then IdleLoop s = s
      else idles (set_m_iFrameCounter (to_unsigned (m_iFrameCounter s + 1)) s) (IdleLoop s)
  | None => IdleLoop s = s
  end.
Proof.
  unfold IdleLoop. destruct (m_pDocument s) as [doc|]; [|reflexivity].
  destruct (_ || _); [reflexivity|]. cbv zeta.
  generalize (steady_SoundDriver_Tick _ _
                (steady_refl (set_m_iFrameCounter (to_unsigned (m_iFrameCounter s + 1)) s))).
  generalize (SoundDriver_Tick (set_m_iFrameCounter (to_unsigned (m_iFrameCounter s + 1)) s)).
  generalize (set_m_iFrameCounter (to_unsigned (m_iFrameCounter s + 1)) s).
  intros s0 s1 H1.
  match goal with
  | |- context [UpdateAPU ?x] =>
      assert (H2 : idles s0 x); [|revert H2; generalize x; intros s2 H2]
  end.
  { destruct (m_pWaveRenderer s1) as [r|]; [|apply steady_idles, H1].
    destruct (ShouldStopRender r); [apply steady_idles, steady_StopRendering, H1|].
    destruct (ShouldStartPlayer r); [apply idles_StartPlayer, H1 | apply steady_idles, H1]. }
  apply (idles_steady _ _ _ H2). steady_auto.
Qed.

Lemma settled_IdleLoop s : settled s (IdleLoop s).
Proof.
  pose proof (IdleLoop_idles s) as H. destruct (m_pDocument s) as [doc|].
  - destruct (_ || _); [rewrite H; apply steady_settled, steady_refl|].
    destruct H as (H & _). revert H. apply settled_trans. repeat split.
  - rewrite H. apply steady_settled, steady_refl.
Qed.

Lemma posted_IdleLoop s : posted s (IdleLoop s).
Proof.
  pose proof (IdleLoop_idles s) as H. destruct (m_pDocument s) as [doc|].
  - destruct (_ || _); [rewrite H; left; reflexivity|]. apply H.
  - rewrite H. left. reflexivity.
Qed.

Lemma counter_IdleLoop s :
  ready s -> m_iFrameCounter (IdleLoop s) = to_unsigned (m_iFrameCounter s + 1).
Proof.
  intros (doc & Hdoc & Hl & Ho). pose proof (IdleLoop_idles s) as H.
  rewrite Hdoc, Hl, Ho in H. apply H.
Qed.

(** ** The message handlers *)

Lemma steady_channels s s' : steady s s' -> same_channels s s'.
Proof. intros H. apply H. Qed.

Lemma dispatch_channels s m : same_channels s (dispatch s m).
Proof.
  destruct m; cbn [dispatch];
    try (apply steady_channels; steady_auto; fail).
  - unfold OnLoadSettings. destruct (ResetAudioDevice _ _) as [ok d].
    destruct (negb ok && _); repeat split.
  - repeat split.
Qed.

Lemma dispatch_inbox s m : inbox (dispatch s m) = inbox s.
Proof.
  destruct m; cbn [dispatch];
    try (apply steady_inbox; steady_auto; fail).
  - unfold OnLoadSettings. destruct (ResetAudioDevice _ _) as [ok d].
    destruct (negb ok && _); reflexivity.
  - reflexivity.
Qed.

Lemma pump_inbox s : inbox (pump s) = [].
Proof.
  unfold pump. apply (foldl_invariant (fun x => inbox x = [])); [|reflexivity].
  intros a m Ha. rewrite dispatch_inbox. exact Ha.
Qed.

Lemma pump_channels s : same_channels s (pump s).
Proof.
  unfold pump. apply (foldl_invariant (same_channels s)); [|repeat split].
  intros a m Ha. apply (same_channels_trans _ _ _ Ha), dispatch_channels.
Qed.

Lemma engine_iter_inbox s :
  inbox (engine_iter s) = [] \/ exists c, inbox (engine_iter s) = [WM_USER_PLAY c].
Proof.
  unfold engine_iter. destruct (posted_IdleLoop (pump s)) as [H | [c H]];
    rewrite pump_inbox in H; [left | right; exists c]; exact H.
Qed.

(** X9.  A round of the run loop handles every queued message, and no
    handler posts one: after the round the queue is empty, or holds the
    one play request that the idle loop posted for the renderer. *)
Theorem round_drains_queue s :
  inbox (pump s) = []
  /\ (inbox (engine_iter s) = [] \/ exists c, inbox (engine_iter s) = [WM_USER_PLAY c]).
Proof. split; [apply pump_inbox | apply engine_iter_inbox]. Qed.

Lemma engine_run_channels n s : same_channels s (engine_run n s).
Proof.
  induction n as [|n IH]; [apply same_channels_refl|].
  change (engine_run (S n) s) with (engine_iter (engine_run n s)).
  apply (same_channels_trans _ _ _ IH). unfold engine_iter.
  apply (same_channels_trans _ _ _ (pump_channels _)), settled_channels, settled_IdleLoop.
Qed.

(** X10.  The player thread never writes the mute flags: after any
    number of rounds of its run loop, whatever was queued, every channel
    is muted exactly if it was before, and the thread handle is the
    same. *)
Theorem rounds_keep_mutes n s :
  muted_ (engine_run n s) = muted_ s
  /\ m_hThread (engine_run n s) = m_hThread s
  /\ forall c, IsChannelMuted c (engine_run n s) = IsChannelMuted c s.
Proof.
  destruct (engine_run_channels n s) as (Hm & _ & Ht & _).
  split; [exact Hm|]. split; [exact Ht|].
  intros c. unfold IsChannelMuted. rewrite Hm. reflexivity.
Qed.

Lemma pump_play s :
  inbox s = [] \/ (exists c, inbox s = [WM_USER_PLAY c]) -> steady (set_inbox [] s) (pump s).
Proof.
  unfold pump. intros [-> | [c ->]]; cbn [foldl dispatch]; steady_auto.
Qed.

Lemma engine_iter_counts s :
  ready s -> inbox s = [] \/ (exists c, inbox s = [WM_USER_PLAY c]) ->
  ready (engine_iter s)
  /\ m_iFrameCounter (engine_iter s) = to_unsigned (m_iFrameCounter s + 1).
Proof.
  intros Hr Hi. apply pump_play in Hi.
  assert (Hp : ready (pump s)).
  { apply (settled_ready (set_inbox [] s)); [apply steady_settled, Hi|].
    destruct Hr as (doc & H). exists doc. exact H. }
  unfold engine_iter. split; [exact (settled_ready _ _ (settled_IdleLoop _) Hp)|].
  rewrite (counter_IdleLoop _ Hp). destruct Hi as (_ & Hc & _). rewrite Hc. reflexivity.
Qed.

Lemma engine_run_counts n s :
  ready s -> inbox s = [] -> m_iFrameCounter s = 0 ->
  ready (engine_run n s)
  /\ (inbox (engine_run n s) = [] \/ exists c, inbox (engine_run n s) = [WM_USER_PLAY c])
  /\ m_iFrameCounter (engine_run n s) = to_unsigned (Z.of_nat n).
Proof.
  intros Hr Hi Hc. induction n as [|n (IH1 & IH2 & IH3)].
  - change (engine_run 0 s) with s.
    split; [exact Hr|]. split; [left; exact Hi|]. rewrite Hc. reflexivity.
  - change (engine_run (S n) s) with (engine_iter (engine_run n s)).
    destruct (engine_iter_counts _ IH1 IH2) as [H1 H2].
    split; [exact H1|]. split; [apply engine_iter_inbox|].
    rewrite H2, IH3. unfold to_unsigned. rewrite Zplus_mod_idemp_l. f_equal. lia.
Qed.

(** X11.  [GetFrameRate] reports the rounds of the run loop since it was
    last asked, as an unsigned 32-bit count, and starts the count anew:
    on an engine whose idle loop passes its guard and whose queue is
    empty, [n] rounds after a call the next call returns [n] modulo
    2^32. *)
Theorem frame_rate_counts_rounds n s :
  ready s -> inbox s = [] ->
  fst (GetFrameRate (engine_run n (snd (GetFrameRate s)))) = to_unsigned (Z.of_nat n).
Proof.
  intros Hr Hi. unfold GetFrameRate. cbn [fst snd].
  apply engine_run_counts; [|exact Hi|reflexivity].
  destruct Hr as (doc & H). exists doc. exact H.
Qed.

Lemma frame_rate_counts_rounds_witness :
  fst (GetFrameRate (engine_run 3 (snd (GetFrameRate (Samples.engine Samples.pf_ok))))) = 3.
Proof.
  apply (frame_rate_counts_rounds 3 (Samples.engine Samples.pf_ok)).
  - exists Samples.doc. repeat split.
  - reflexivity.
Defined.

(** ** Who starts and who stops the player *)

Lemma playing_MakeSilent s : IsPlaying (MakeSilent s) = IsPlaying s.
Proof. unfold IsPlaying. rewrite driver_MakeSilent. reflexivity. Qed.

Lemma idle_StopRendering s : IsPlaying s = false -> IsPlaying (StopRendering s) = false.
Proof.
  intros H. unfold StopRendering. destruct (negb _); [exact H|]. cbv zeta.
  unfold IsPlaying. rewrite driver_ResetAPU.
  apply (proj1 (HaltPlayer_effect (ResetBuffer (set_m_pWaveRenderer None s)))).
Qed.

Lemma playing_OnLoadSettings s : IsPlaying (OnLoadSettings s) = IsPlaying s.
Proof.
  unfold OnLoadSettings. destruct (ResetAudioDevice _ _) as [ok d].
  destruct (negb ok && _); reflexivity.
Qed.

Lemma idle_dispatch s m :
  (forall c, m <> WM_USER_PLAY c) -> IsPlaying s = false -> IsPlaying (dispatch s m) = false.
Proof.
  intros Hm H. destruct m; cbn [dispatch].
  - rewrite playing_MakeSilent. exact H.
  - rewrite playing_OnLoadSettings. exact H.
  - destruct (Hm cursor eq_refl).
  - apply HaltPlayer_effect.
  - unfold OnResetPlayer. cbv zeta.
    change (IsPlaying (set_m_iLastTrack (GetCurrentSong cursor) s)) with (IsPlaying s).
    rewrite H. exact H.
  - exact H.
  - apply idle_StopRendering, H.
  - exact H.
  - exact H.
Qed.

Lemma idle_IdleLoop s : IsPlaying s = false -> IsPlaying (IdleLoop s) = false.
Proof.
  intros H. unfold IdleLoop. destruct (m_pDocument s) as [doc|]; [|exact H].
  destruct (_ || _); [exact H|]. cbv zeta.
  rewrite (SoundDriver_Tick_stopped
             (set_m_iFrameCounter (to_unsigned (m_iFrameCounter s + 1)) s)) by exact H.
  assert (H0 : IsPlaying (set_m_iFrameCounter (to_unsigned (m_iFrameCounter s + 1)) s) = false)
    by exact H.
  revert H0. generalize (set_m_iFrameCounter (to_unsigned (m_iFrameCounter s + 1)) s).
  intros s0 H0.
  match goal with
  | |- context [UpdateAPU ?x] =>
      assert (H2 : IsPlaying x = false); [|revert H2; generalize x; intros s2 H2]
  end.
  { destruct (m_pWaveRenderer s0) as [r|]; [|exact H0].
    destruct (ShouldStopRender r); [apply idle_StopRendering, H0|].
    destruct (ShouldStartPlayer r); [|exact H0].
    unfold StartPlayer, PostThreadMessage. destruct (m_hThread s0); exact H0. }
  change (IsPlaying (UpdateAPU s2)) with (IsPlaying s2). rewrite H2. cbn [andb].
  destruct (_ || _); [apply HaltPlayer_effect | exact H2].
Qed.

Lemma idle_foldl_dispatch l s :
  (forall c, WM_USER_PLAY c ∉ l) -> IsPlaying s = false ->
  IsPlaying (foldl dispatch s l) = false.
Proof.
  revert s. induction l as [|m l IH]; intros s Hl H; [exact H|].
  cbn [foldl]. apply IH.
  - intros c Hc. apply (Hl c). right. exact Hc.
  - apply idle_dispatch; [|exact H]. intros c ->. apply (Hl c). left.
Qed.

(** X12.  Only a play request starts a stopped player: a round of the
    run loop that finds the player stopped and no [WM_USER_PLAY] in the
    queue leaves it stopped, whatever else is queued (a reset request
    included) and whatever the renderer asks for. *)
Theorem only_play_starts_player s :
  IsPlaying s = false -> (forall c, WM_USER_PLAY c ∉ inbox s) ->
  IsPlaying (engine_iter s) = false.
Proof.
  intros H Hq. apply idle_IdleLoop. unfold pump. apply idle_foldl_dispatch; assumption.
Qed.

Lemma only_play_starts_player_witness :
  IsPlaying (engine_iter (ResetPlayer 1 (SilentAll (Samples.engine Samples.pf_ok)))) = false.
Proof.
  apply (only_play_starts_player (ResetPlayer 1 (SilentAll (Samples.engine Samples.pf_ok)))).
  - reflexivity.
  - intros c Hc. apply list_elem_of_In in Hc. cbn in Hc.
    destruct Hc as [Hc | [Hc | []]]; discriminate Hc.
Defined.

Lemma HaltPlayer_clears s :
  m_pSoundDriver (HaltPlayer s) = drv_StopPlayer (drv_ResetTracks (m_pSoundDriver s))
  /\ m_bHaltRequest (HaltPlayer s) = false
  /\ m_bPlayingSingleRow (HaltPlayer s) = false
  /\ m_pTempoDisplay (HaltPlayer s) = None.
Proof.
  unfold HaltPlayer. rewrite <- driver_MakeSilent. generalize (MakeSilent s). intros s1.
  cbv zeta. destruct (m_pTrackerView _); repeat apply conj; reflexivity.
Qed.

(** X13.  A stop request is final: whatever is queued before it, start
    requests included, once the round that handles it is over the player
    is stopped; the handling destroys the cursor, clears the halt request
    and the single-row flag and drops the tempo display. *)
Theorem stop_request_is_final l s :
  inbox s = l ++ [WM_USER_STOP] ->
  IsPlaying (engine_iter s) = false
  /\ m_pPlayerCursor (m_pSoundDriver (pump s)) = None
  /\ m_bHaltRequest (pump s) = false
  /\ m_bPlayingSingleRow (pump s) = false
  /\ m_pTempoDisplay (pump s) = None.
Proof.
  intros Hi. unfold engine_iter, pump. rewrite Hi, foldl_app. cbn [foldl dispatch].
  generalize (foldl dispatch (set_inbox [] s) l). intros x.
  destruct (HaltPlayer_clears x) as (H1 & H2 & H3 & H4).
  split; [apply idle_IdleLoop, HaltPlayer_effect|].
  rewrite H1. repeat apply conj; first [assumption | reflexivity].
Qed.

Lemma stop_request_is_final_witness :
  IsPlaying (engine_iter (StopPlayer (StartPlayer (cursor_at 0)
                                        (Samples.engine Samples.pf_ok)))) = false.
Proof.
  exact (proj1 (stop_request_is_final [WM_USER_PLAY (cursor_at 0)]
                  (StopPlayer (StartPlayer (cursor_at 0) (Samples.engine Samples.pf_ok)))
                  eq_refl)).
Defined.

Lemma track_ApplyGlobalState s : m_iLastTrack (ApplyGlobalState s) = m_iLastTrack s.
Proof. frame. Qed.
Lemma track_MakeSilent s : m_iLastTrack (MakeSilent s) = m_iLastTrack s.
Proof. frame. Qed.
Lemma track_ResetAPU s : m_iLastTrack (ResetAPU s) = m_iLastTrack s.
Proof. frame. Qed.
Lemma track_ResetTempo s : m_iLastTrack (ResetTempo s) = m_iLastTrack s.
Proof. frame. Qed.

Lemma track_BeginPlayer Pos s :
  m_iLastTrack s = GetCurrentSong Pos -> m_iLastTrack (BeginPlayer Pos s) = GetCurrentSong Pos.
Proof.
  intros H. unfold BeginPlayer. destruct (m_pDocument s) as [doc|]; [|exact H].
  destruct (_ || _); [exact H|]. cbv zeta.
  set (s1 := set_m_iLastTrack _ _).
  set (s2 := if bAverageBPM _ then _ else s1).
  set (s5 := MakeSilent (ResetAPU (ResetTempo s2))).
  set (s6 := if bRetrieveChanState _ then ApplyGlobalState s5 else s5).
  assert (H6 : m_iLastTrack s6 = GetCurrentSong Pos).
  { subst s6. destruct (bRetrieveChanState _); rewrite ?track_ApplyGlobalState; subst s5;
      rewrite track_MakeSilent, track_ResetAPU, track_ResetTempo; subst s2;
      destruct (bAverageBPM _); reflexivity. }
  destruct (bool_decide _); exact H6.
Qed.

Lemma BeginPlayer_starts Pos s :
  ready s ->
  IsPlaying (BeginPlayer Pos s) = true
  /\ m_pPlayerCursor (m_pSoundDriver (BeginPlayer Pos s)) = Some Pos.
Proof.
  intros Hr. destruct (BeginPlayer_ready Pos s Hr) as (s2 & _ & H2 & _ & _ & H5 & _).
  unfold IsPlaying. rewrite H5, H2. split; reflexivity.
Qed.

(** X14.  A reset request always records the new track.  On a stopped
    player that is all it does; on a playing one whose [BeginPlayer]
    gets past its guard, playback restarts at the top of the new
    track. *)
Theorem reset_request Track s :
  m_hThread s = true -> inbox s = [] ->
  m_iLastTrack (pump (ResetPlayer Track s)) = Track
  /\ (IsPlaying s = false -> pump (ResetPlayer Track s) = set_m_iLastTrack Track s)
  /\ (IsPlaying s = true -> ready s ->
      IsPlaying (pump (ResetPlayer Track s)) = true
      /\ m_pPlayerCursor (m_pSoundDriver (pump (ResetPlayer Track s)))
         = Some (cursor_at Track)).
Proof.
  intros Ht Hi. unfold ResetPlayer, PostThreadMessage, pump. rewrite Ht, Hi.
  cbn [negb inbox set_inbox app foldl dispatch].
  assert (E : set_inbox [] (set_inbox [WM_USER_RESET (cursor_at Track)] s) = s).
  { destruct s. cbn in Hi. subst. reflexivity. }
  rewrite E. unfold OnResetPlayer. cbv zeta.
  change (IsPlaying (set_m_iLastTrack _ s)) with (IsPlaying s).
  split; [|split].
  - destruct (IsPlaying s); [|reflexivity]. apply (track_BeginPlayer (cursor_at Track)).
    reflexivity.
  - intros ->. reflexivity.
  - intros -> (doc & Hr). apply BeginPlayer_starts. exists doc. exact Hr.
Qed.

Lemma reset_request_witness :
  m_iLastTrack (pump (ResetPlayer 2 (Samples.engine Samples.pf_ok))) = 2.
Proof.
  exact (proj1 (reset_request 2 (Samples.engine Samples.pf_ok) eq_refl eq_refl)).
Defined.

(** X15.  A register write asked for by the foreground reaches the
    emulation with its address cut to 16 bits and its value to 8: once
    the queue is drained, the write is the last call on the emulation
    and the register at the cut address holds the cut value. *)
Theorem WriteAPU_lands_truncated Address Value s :
  m_hThread s = true -> inbox s = [] ->
  log (pump (WriteAPU Address Value s))
  = log s ++ [ApuWrite (Address mod 65536) (Value mod 256)]
  /\ RegisterImage (log (pump (WriteAPU Address Value s))) !! (Address mod 65536)
     = Some (Value mod 256)
  /\ 0 <= Address mod 65536 < 65536 /\ 0 <= Value mod 256 < 256.
Proof.
  intros Ht Hi. unfold WriteAPU, PostThreadMessage, pump. rewrite Ht, Hi.
  cbn [negb inbox set_inbox app foldl dispatch log emit set_log].
  split; [reflexivity|]. split.
  - unfold RegisterImage. rewrite foldl_app. cbn [foldl apu_step].
    apply lookup_insert_eq.
  - split; apply Z.mod_pos_bound; lia.
Qed.

Lemma WriteAPU_lands_truncated_witness :
  log (pump (WriteAPU 0x14015 0x11F (Samples.engine Samples.pf_ok)))
  = [ApuWrite 0x4015 0x1F].
Proof.
  exact (proj1 (WriteAPU_lands_truncated 0x14015 0x11F (Samples.engine Samples.pf_ok)
                  eq_refl eq_refl)).
Defined.

Lemma IsAudioDeviceOpen_OnLoadSettings s :
  IsAudioDeviceOpen (OnLoadSettings s) = channel_opens s.
Proof.
  unfold OnLoadSettings.
  pose proof (AudioDeviceMoreFacts.ResetAudioDevice_driver (platform s) (dev s)) as H.
  destruct (ResetAudioDevice _ _) as [ok d]. cbn [snd] in H.
  assert (E : IsAudioDeviceOpen (set_dev d s) = channel_opens s).
  { unfold IsAudioDeviceOpen, channel_opens. fields. rewrite H. cbv zeta.
    destruct (SetupDevice_ok _ _); [reflexivity|].
    destruct (m_pAudioDriver (dev s)); reflexivity. }
  destruct (negb ok && _); exact E.
Qed.

Lemma document_OnLoadSettings s : m_pDocument (OnLoadSettings s) = m_pDocument s.
Proof.
  unfold OnLoadSettings. destruct (ResetAudioDevice _ _) as [ok d].
  destruct (negb ok && _); reflexivity.
Qed.

Lemma driver_OnLoadSettings s b :
  m_pAudioDriver (dev s) = Some b ->
  m_pAudioDriver (dev (OnLoadSettings s)) = Some (channel_opens s).
Proof.
  intros Hb. unfold OnLoadSettings.
  pose proof (AudioDeviceMoreFacts.ResetAudioDevice_driver (platform s) (dev s)) as H.
  destruct (ResetAudioDevice _ _) as [ok d]. cbn [snd] in H.
  assert (E : m_pAudioDriver d = Some (channel_opens s)).
  { rewrite H, Hb. unfold channel_opens. cbv zeta.
    destruct (SetupDevice_ok _ _); reflexivity. }
  destruct (negb ok && _); exact E.
Qed.

(** X16.  On an engine that has an audio driver (one was created by an
    earlier set-up of the device), a reload of the sound settings leaves
    a driver in place, open exactly when the device was set up and its
    channel opened; and whether playback can start afterwards is decided
    by that alone: a play request handled after the reload starts the
    player exactly when the driver is open, whether or not the reload as
    a whole succeeded; otherwise the player stays as it was. *)
Theorem reload_decides_playback c s doc b :
  m_hThread s = true -> inbox s = [] ->
  m_pDocument s = Some doc -> IsFileLoaded doc = true ->
  m_pAudioDriver (dev s) = Some b ->
  m_pAudioDriver (dev (pump (LoadSettings s))) = Some (channel_opens s)
  /\ IsPlaying (pump (StartPlayer c (LoadSettings s))) = channel_opens s || IsPlaying s.
Proof.
  intros Ht Hi Hdoc Hl Hb. split.
  { unfold LoadSettings, PostThreadMessage, pump. rewrite Ht. cbn [negb]. fields.
    rewrite Hi. cbn [app foldl dispatch].
    apply (driver_OnLoadSettings (set_inbox [] (set_inbox [WM_USER_LOAD_SETTINGS] s)) b).
    exact Hb. }
  unfold StartPlayer, LoadSettings, PostThreadMessage, pump.
  rewrite Ht. cbn [negb]. fields. rewrite Ht, Hi.
  cbn [negb app foldl dispatch inbox set_inbox].
  set (x := OnLoadSettings _).
  assert (Ho : IsAudioDeviceOpen x = channel_opens s)
    by (subst x; rewrite IsAudioDeviceOpen_OnLoadSettings; reflexivity).
  assert (Hd : m_pDocument x = Some doc)
    by (subst x; rewrite document_OnLoadSettings; exact Hdoc).
  assert (Hp : IsPlaying x = IsPlaying s)
    by (subst x; rewrite playing_OnLoadSettings; reflexivity).
  destruct (channel_opens s); cbn [orb].
  - apply BeginPlayer_starts. exists doc. auto.
  - rewrite BeginPlayer_guard; [exact Hp|]. intros d _. right. exact Ho.
Qed.

Lemma reload_decides_playback_witness :
  m_pAudioDriver (dev (pump (LoadSettings (Samples.engine Samples.pf_unplugged))))
  = Some false
  /\ IsPlaying (pump (StartPlayer (cursor_at 0)
                        (LoadSettings (Samples.engine Samples.pf_unplugged)))) = false.
Proof.
  exact (reload_decides_playback (cursor_at 0) (Samples.engine Samples.pf_unplugged)
           Samples.doc true eq_refl eq_refl eq_refl eq_refl eq_refl).
Defined.

Lemma HaltPlayer_twice s :
  HaltPlayer (HaltPlayer s) = set_log (log (HaltPlayer (HaltPlayer s))) (HaltPlayer s).
Proof.
  destruct s as [d pf th doc view drv tc rec mu hr sr lt lh fc wc iwc wr td ib lg].
  unfold HaltPlayer, MakeSilent. destruct view; vm_compute; reflexivity.
Qed.

Lemma log_HaltPlayer s :
  log (HaltPlayer s)
  = log s ++ match m_pTrackerView s with Some _ => [ViewMakeSilent] | None => [] end
          ++ [ApuReset; ApuClearSample; ApuClearSample].
Proof.
  unfold HaltPlayer, MakeSilent. cbv zeta.
  destruct (m_pTrackerView s) eqn:E; fields; rewrite ?E; fields; rewrite <- ?app_assoc;
    reflexivity.
Qed.

Lemma view_HaltPlayer s : m_pTrackerView (HaltPlayer s) = m_pTrackerView s.
Proof.
  assert (H : steady s (HaltPlayer s)) by steady_auto.
  destruct H as ((_ & _ & H & _) & _). exact H.
Qed.

(** X17.  Halting is idempotent up to the calls it makes.  A
    [HaltPlayer] silences the view, if one is attached, resets the
    emulation and clears its sample twice; a second [HaltPlayer] makes
    exactly these calls once more and changes nothing else of the state
    the first one left. *)
Theorem HaltPlayer_idempotent s :
  log (HaltPlayer s)
  = log s ++ match m_pTrackerView s with Some _ => [ViewMakeSilent] | None => [] end
          ++ [ApuReset; ApuClearSample; ApuClearSample]
  /\ HaltPlayer (HaltPlayer s)
     = set_log (log (HaltPlayer s)
                ++ match m_pTrackerView s with Some _ => [ViewMakeSilent] | None => [] end
                ++ [ApuReset; ApuClearSample; ApuClearSample])
         (HaltPlayer s).
Proof.
  split; [apply log_HaltPlayer|].
  rewrite HaltPlayer_twice, (log_HaltPlayer (HaltPlayer s)), view_HaltPlayer. reflexivity.
Qed.

(** ** What starting and auditioning log *)

Lemma new_events_app s s' E : log s' = log s ++ E -> new_events s s' = E.
Proof. intros H. unfold new_events. rewrite H. apply drop_app_length. Qed.

Lemma log_MakeSilent s :
  log (MakeSilent s)
  = log s ++ match m_pTrackerView s with Some _ => [ViewMakeSilent] | None => [] end
          ++ [ApuReset; ApuClearSample].
Proof.
  unfold MakeSilent. destruct (m_pTrackerView s); cbn; rewrite <- !app_assoc; reflexivity.
Qed.

Lemma log_ApplyGlobalState_playing s doc :
  IsPlaying s = true -> m_pDocument s = Some doc ->
  log (ApplyGlobalState s)
  = log s ++ [DriverLoadSoundState (m_iLastTrack s) (GetPlayerPos s).1 (GetPlayerPos s).2].
Proof.
  intros Hp Hd. unfold ApplyGlobalState. rewrite Hp, Hd. cbv zeta.
  destruct (GetPlayerPos s) as [Frame Row]. reflexivity.
Qed.

(** X18.  What a start of playback that gets past the guard calls, in
    order: the power-on sequence of [ResetAPU], the silencing of the view
    (if one is attached) and of the emulation and, if the retrieval of
    the channel state is enabled, one load of the channel state, for the
    song, the frame and the row of the cursor handed in. *)
Theorem BeginPlayer_events Pos s :
  ready s ->
  new_events s (BeginPlayer Pos s)
  = power_on_sequence
    ++ match m_pTrackerView s with Some _ => [ViewMakeSilent] | None => [] end
    ++ [ApuReset; ApuClearSample]
    ++ (if bRetrieveChanState (pSettings (dev s))
        then [DriverLoadSoundState (GetCurrentSong Pos) (GetCurrentFrame Pos)
                (GetCurrentRow Pos)]
        else []).
Proof.
  intros (doc & Hdoc & Hl & Ho). apply new_events_app.
  unfold BeginPlayer. rewrite Hdoc, Hl, Ho. cbn [negb orb].
  set (s1 := set_m_iLastTrack _ _).
  change (dev s1) with (dev s).
  set (s2 := if bAverageBPM _ then _ else s1).
  assert (H2 : steady s s2) by (subst s2 s1; steady_auto).
  assert (L2 : log s2 = log s) by (subst s2; destruct (bAverageBPM _); reflexivity).
  assert (D2 : m_pSoundDriver s2 = drv_StartPlayer Pos (m_pSoundDriver s))
    by (subst s2; destruct (bAverageBPM _); reflexivity).
  assert (T2 : m_iLastTrack s2 = GetCurrentSong Pos)
    by (subst s2; destruct (bAverageBPM _); reflexivity).
  set (s5 := MakeSilent (ResetAPU (ResetTempo s2))).
  assert (H5 : steady s s5) by (subst s5; steady_auto).
  assert (L5 : log s5 = log s ++ power_on_sequence
                 ++ match m_pTrackerView s with Some _ => [ViewMakeSilent] | None => [] end
                 ++ [ApuReset; ApuClearSample]).
  { subst s5. rewrite log_MakeSilent, log_ResetAPU, log_ResetTempo, L2.
    assert (V : m_pTrackerView (ResetAPU (ResetTempo s2)) = m_pTrackerView s).
    { assert (V : steady s (ResetAPU (ResetTempo s2))) by steady_auto. apply V. }
    rewrite V, <- !app_assoc. reflexivity. }
  assert (D5 : m_pSoundDriver s5 = drv_ResetTracks (drv_StartPlayer Pos (m_pSoundDriver s))).
  { subst s5. rewrite driver_MakeSilent, driver_ResetAPU, driver_ResetTempo, D2. reflexivity. }
  assert (T5 : m_iLastTrack s5 = GetCurrentSong Pos).
  { subst s5. rewrite track_MakeSilent, track_ResetAPU, track_ResetTempo. exact T2. }
  assert (V5 : dev s5 = dev s) by apply H5.
  assert (M5 : m_pDocument s5 = Some doc).
  { destruct H5 as ((_ & H5 & _) & _). rewrite H5. exact Hdoc. }
  rewrite V5.
  assert (L6 : log (if bRetrieveChanState (pSettings (dev s)) then ApplyGlobalState s5 else s5)
               = log s ++ power_on_sequence
                 ++ match m_pTrackerView s with Some _ => [ViewMakeSilent] | None => [] end
                 ++ [ApuReset; ApuClearSample]
                 ++ (if bRetrieveChanState (pSettings (dev s))
                     then [DriverLoadSoundState (GetCurrentSong Pos) (GetCurrentFrame Pos)
                             (GetCurrentRow Pos)]
                     else [])).
  { destruct (bRetrieveChanState _).
    - rewrite (log_ApplyGlobalState_playing s5 doc);
        [|unfold IsPlaying; rewrite D5; reflexivity | exact M5].
      unfold GetPlayerPos. rewrite D5, T5, L5. cbn [m_pPlayerCursor drv_ResetTracks
        set_pending drv_StartPlayer fst snd]. rewrite <- !app_assoc. reflexivity.
    - rewrite L5, !app_nil_r. reflexivity. }
  revert L6. generalize (if bRetrieveChanState (pSettings (dev s))
                         then ApplyGlobalState s5 else s5).
  intros s6 L6. destruct (bool_decide _); exact L6.
Qed.

Lemma BeginPlayer_events_witness :
  new_events (Samples.engine Samples.pf_ok)
    (BeginPlayer (cursor_at 3) (Samples.engine Samples.pf_ok))
  = power_on_sequence ++ [ViewMakeSilent; ApuReset; ApuClearSample].
Proof.
  apply (BeginPlayer_events (cursor_at 3) (Samples.engine Samples.pf_ok)).
  exists Samples.doc. repeat split.
Defined.

Lemma midi_notes_app l1 l2 : midi_notes (l1 ++ l2) = midi_notes l1 ++ midi_notes l2.
Proof. apply omap_app. Qed.

Lemma state_loads_app l1 l2 : state_loads (l1 ++ l2) = state_loads l1 ++ state_loads l2.
Proof. apply omap_app. Qed.

Lemma log_ApplyGlobalState s :
  exists E, log (ApplyGlobalState s) = log s ++ E
            /\ midi_notes E = [] /\ (length (state_loads E) <= 1)%nat.
Proof.
  unfold ApplyGlobalState. cbv zeta.
  destruct (if IsPlaying s then _ else _) as [[Frame Row]|];
    [destruct (m_pDocument s) as [doc|]|].
  - eexists. split; [reflexivity|]. split; [reflexivity|]. cbn. lia.
  - exists []. rewrite app_nil_r. split; [reflexivity|]. split; [reflexivity|]. cbn. lia.
  - exists []. rewrite app_nil_r. split; [reflexivity|]. split; [reflexivity|]. cbn. lia.
Qed.

Lemma omap_pointwise {A B} (f g : A -> option B) (l : list A) :
  (forall a, f a = g a) -> omap f l = omap g l.
Proof.
  intros H. induction l as [|a l IH]; [reflexivity|]. cbn. rewrite H, IH. reflexivity.
Qed.

Lemma IsChannelMuted_muted c s s' : muted_ s' = muted_ s -> IsChannelMuted c s' = IsChannelMuted c s.
Proof. intros H. unfold IsChannelMuted. rewrite H. reflexivity. Qed.

(** The notes [PlaySingleRow] queues on a row: one per channel that is
    not muted, in the order of the channels. *)
Lemma queue_row_log doc (g : chan_id_t -> stChanNote) l s :
  m_pDocument s = Some doc ->
  exists E,
    log (foldl (fun s i => if negb (IsChannelMuted i s)
                           then QueueNote i (g i) NOTE_PRIO_1 s else s) s l)
    = log s ++ E
    /\ midi_notes E
       = omap (fun c => if IsChannelMuted c s then None else Some (midi_of doc c (g c))) l
    /\ state_loads E = []
    /\ m_bPlayingSingleRow
         (foldl (fun s i => if negb (IsChannelMuted i s)
                            then QueueNote i (g i) NOTE_PRIO_1 s else s) s l)
       = m_bPlayingSingleRow s.
Proof.
  revert s. induction l as [|c l IH]; intros s Hd.
  - exists []. rewrite app_nil_r. repeat split.
  - cbn [foldl omap].
    set (s1 := if negb (IsChannelMuted c s) then QueueNote c (g c) NOTE_PRIO_1 s else s).
    assert (H1 : m_pDocument s1 = Some doc /\ muted_ s1 = muted_ s
                 /\ m_bPlayingSingleRow s1 = m_bPlayingSingleRow s
                 /\ log s1 = log s ++ (if IsChannelMuted c s then []
                                       else [MidiWriteNote (GetChannelIndex doc c) (Note (g c))
                                               (Octave (g c)) (Vol (g c))])).
    { subst s1. destruct (IsChannelMuted c s); cbn [negb].
      - rewrite app_nil_r. auto.
      - unfold QueueNote. cbv zeta. fields. rewrite Hd. auto. }
    destruct H1 as (D1 & M1 & F1 & L1). destruct (IH s1 D1) as (E & HE & HM & HS & HF).
    exists ((if IsChannelMuted c s then []
             else [MidiWriteNote (GetChannelIndex doc c) (Note (g c))
                     (Octave (g c)) (Vol (g c))]) ++ E).
    split; [rewrite HE, L1, <- app_assoc; reflexivity|].
    split; [|split; [|rewrite HF; exact F1]].
    + rewrite midi_notes_app, HM.
      rewrite (omap_pointwise
                 (fun c0 => if IsChannelMuted c0 s1 then None
                            else Some (midi_of doc c0 (g c0)))
                 (fun c0 => if IsChannelMuted c0 s then None
                            else Some (midi_of doc c0 (g c0))) l)
        by (intros; rewrite (IsChannelMuted_muted _ _ _ M1); reflexivity).
      destruct (IsChannelMuted c s) eqn:Em; cbn; rewrite Em; reflexivity.
    + rewrite state_loads_app, HS. destruct (IsChannelMuted c s); reflexivity.
Qed.

Lemma PlaySingleRow_log track s :
  exists E0 E1,
    log (PlaySingleRow track s) = log s ++ E0 ++ E1
    /\ midi_notes E0 = [] /\ (length (state_loads E0) <= 1)%nat
    /\ (m_bPlayingSingleRow s = true -> E0 = [])
    /\ state_loads E1 = []
    /\ m_bPlayingSingleRow (PlaySingleRow track s) = true
    /\ forall view doc,
         m_pTrackerView s = Some view -> m_pDocument s = Some doc ->
         midi_notes E1
         = omap (fun c => if IsChannelMuted c s then None
                          else Some (midi_of doc c
                                       (GetActiveNote doc track (GetSelectedPos view).1 c
                                          (GetSelectedPos view).2)))
             (Channels doc).
Proof.
  unfold PlaySingleRow. cbv zeta.
  change (m_bPlayingSingleRow (set_m_iLastTrack track s)) with (m_bPlayingSingleRow s).
  set (s2 := if negb (m_bPlayingSingleRow s) then _ else _).
  assert (H2 : steady s s2) by (subst s2; steady_auto).
  assert (F2 : m_bPlayingSingleRow s2 = true).
  { subst s2. destruct (m_bPlayingSingleRow s) eqn:E; [exact E | reflexivity]. }
  assert (L2 : exists E0, log s2 = log s ++ E0 /\ midi_notes E0 = []
                          /\ (length (state_loads E0) <= 1)%nat
                          /\ (m_bPlayingSingleRow s = true -> E0 = [])).
  { subst s2. destruct (m_bPlayingSingleRow s); cbn [negb].
    - exists []. rewrite app_nil_r. repeat split. cbn. lia.
    - destruct (log_ApplyGlobalState (set_m_iLastTrack track s)) as (E0 & H & HM & HS).
      exists E0. split; [exact H|]. split; [exact HM|]. split; [exact HS|]. discriminate. }
  destruct L2 as (E0 & L2 & M0 & S0 & Z0). exists E0.
  assert (V2 : m_pTrackerView s2 = m_pTrackerView s) by apply H2.
  assert (D2 : m_pDocument s2 = m_pDocument s) by apply H2.
  assert (U2 : muted_ s2 = muted_ s) by apply H2.
  rewrite V2, D2.
  destruct (m_pTrackerView s) as [view|]; [destruct (m_pDocument s) as [doc|] eqn:Hd|].
  - destruct (GetSelectedPos view) as [frame row] eqn:Hpos.
    destruct (queue_row_log doc (fun i => GetActiveNote doc track frame i row)
                (Channels doc) s2 D2) as (E1 & H1 & HM & HS & HF).
    exists E1. rewrite H1, L2, <- app_assoc, HF.
    split; [reflexivity|]. split; [exact M0|]. split; [exact S0|]. split; [exact Z0|].
    split; [exact HS|]. split; [exact F2|].
    intros view' doc' Hv' Hd'. injection Hv' as <-. injection Hd' as <-.
    rewrite HM. apply omap_pointwise.
    intros c. rewrite (IsChannelMuted_muted _ _ _ U2), Hpos. reflexivity.
  - exists []. rewrite !app_nil_r. split; [exact L2|]. split; [exact M0|]. split; [exact S0|].
    split; [exact Z0|]. split; [reflexivity|]. split; [exact F2|]. discriminate.
  - exists []. rewrite !app_nil_r. split; [exact L2|]. split; [exact M0|]. split; [exact S0|].
    split; [exact Z0|]. split; [reflexivity|]. split; [exact F2|]. discriminate.
Qed.

(** X19.  Auditioning a row writes one MIDI note per channel that is
    not muted, in the order of the channels of the document and with the
    note the document holds at the position selected in the view; a
    muted channel writes none. *)
Theorem PlaySingleRow_midi track s view doc :
  m_pTrackerView s = Some view -> m_pDocument s = Some doc ->
  midi_notes (new_events s (PlaySingleRow track s))
  = omap (fun c => if IsChannelMuted c s then None
                   else Some (midi_of doc c
                                (GetActiveNote doc track (GetSelectedPos view).1 c
                                   (GetSelectedPos view).2)))
      (Channels doc).
Proof.
  intros Hv Hd.
  destruct (PlaySingleRow_log track s) as (E0 & E1 & HL & M0 & _ & _ & _ & _ & HM).
  rewrite (new_events_app _ _ _ HL), midi_notes_app, M0. apply (HM view doc Hv Hd).
Qed.

Lemma PlaySingleRow_midi_witness :
  midi_notes (new_events (SetChannelMute (CHANID 1) true (Samples.engine Samples.pf_ok))
                (PlaySingleRow 0 (SetChannelMute (CHANID 1) true
                                    (Samples.engine Samples.pf_ok))))
  = [(0, 1, 3, 15); (2, 3, 3, 15); (3, 4, 3, 15); (4, 5, 3, 15)].
Proof.
  exact (PlaySingleRow_midi 0 (SetChannelMute (CHANID 1) true (Samples.engine Samples.pf_ok))
           Samples.view Samples.doc eq_refl eq_refl).
Defined.

(** X20.  The channel state is loaded by the first single-row play
    only: a call loads it at most once, leaves the single-row flag set,
    and the call that follows loads nothing; [HaltPlayer] clears the
    flag again. *)
Theorem single_row_loads_state_once t1 t2 s :
  (length (state_loads (new_events s (PlaySingleRow t1 s))) <= 1)%nat
  /\ m_bPlayingSingleRow (PlaySingleRow t1 s) = true
  /\ state_loads (new_events (PlaySingleRow t1 s) (PlaySingleRow t2 (PlaySingleRow t1 s))) = []
  /\ m_bPlayingSingleRow (HaltPlayer (PlaySingleRow t1 s)) = false.
Proof.
  destruct (PlaySingleRow_log t1 s) as (E0 & E1 & HL & _ & S0 & _ & S1 & F & _).
  destruct (PlaySingleRow_log t2 (PlaySingleRow t1 s))
    as (E0' & E1' & HL' & _ & _ & Z0' & S1' & _ & _).
  split; [|split; [exact F|split; [|apply HaltPlayer_clears]]].
  - rewrite (new_events_app _ _ _ HL), state_loads_app, S1, app_nil_r. exact S0.
  - rewrite (new_events_app _ _ _ HL'), state_loads_app, S1', (Z0' F). reflexivity.
Qed.

(** ** Waiting for the player thread *)

Lemma WaitForStop_loop_playing sched fuel i s :
  IsPlaying (snd (WaitForStop_loop sched fuel i s)) = true ->
  fst (WaitForStop_loop sched fuel i s) = (i + fuel)%nat /\ (fuel = 0%nat \/ IsPlaying s = true).
Proof.
  revert i s. induction fuel as [|fuel IH]; intros i s H.
  - cbn. split; [lia | left; reflexivity].
  - cbn [WaitForStop_loop] in *. destruct (IsPlaying s) eqn:Hp.
    + destruct (IH _ _ H) as [-> _]. split; [lia | right; reflexivity].
    + cbn [snd] in H. congruence.
Qed.

(** X21.  [WaitForStop] gives up only after the full four seconds: when
    it returns false the player was playing at the call and all forty
    sleeps were taken, whatever the player thread did meanwhile. *)
Theorem WaitForStop_fails_only_after_4s sched s :
  fst (WaitForStop sched s) = false ->
  WaitForStop_elapsed sched s = 4000 /\ IsPlaying s = true.
Proof.
  rewrite WaitForStop_result. cbn [fst]. intros H. apply negb_false_iff in H.
  destruct (WaitForStop_loop_playing _ _ _ _ H) as [H1 [H2 | H2]]; [discriminate H2|].
  unfold WaitForStop_elapsed. rewrite H1. split; [reflexivity | exact H2].
Qed.

Lemma WaitForStop_fails_only_after_4s_witness :
  WaitForStop_elapsed Samples.healthy (set_m_bHaltRequest true Samples.device_lost) = 4000.
Proof.
  apply (WaitForStop_fails_only_after_4s Samples.healthy
           (set_m_bHaltRequest true Samples.device_lost)).
  vm_compute. reflexivity.
Defined.

Lemma IdleLoop_no_document s : m_pDocument s = None -> IdleLoop s = s.
Proof. intros H. unfold IdleLoop. rewrite H. reflexivity. Qed.

Lemma engine_iter_removed s :
  m_pDocument s = None -> m_pTrackerView s = None -> IsPlaying s = false -> inbox s = [] ->
  m_pDocument (engine_iter s) = None /\ m_pTrackerView (engine_iter s) = None
  /\ IsPlaying (engine_iter s) = false /\ inbox (engine_iter s) = [].
Proof.
  intros Hd Hv Hp Hi. unfold engine_iter, pump. rewrite Hi. cbn [foldl].
  rewrite IdleLoop_no_document by exact Hd. auto.
Qed.

Lemma iter_removed n s :
  m_pDocument s = None -> m_pTrackerView s = None -> IsPlaying s = false -> inbox s = [] ->
  m_pDocument (Nat.iter n engine_iter s) = None
  /\ m_pTrackerView (Nat.iter n engine_iter s) = None
  /\ IsPlaying (Nat.iter n engine_iter s) = false
  /\ inbox (Nat.iter n engine_iter s) = [].
Proof.
  intros Hd Hv Hp Hi. induction n as [|n (H1 & H2 & H3 & H4)]; [auto|].
  change (Nat.iter (S n) engine_iter s) with (engine_iter (Nat.iter n engine_iter s)).
  apply engine_iter_removed; assumption.
Qed.

Lemma pump_remove s :
  IsPlaying s = false ->
  inbox s = [WM_USER_STOP; WM_USER_REMOVE_DOCUMENT] \/ inbox s = [WM_USER_REMOVE_DOCUMENT] ->
  m_pDocument (pump s) = None /\ m_pTrackerView (pump s) = None
  /\ IsPlaying (pump s) = false /\ inbox (pump s) = [].
Proof.
  intros Hp [Hi | Hi]; unfold pump; rewrite Hi; cbn [foldl dispatch].
  - destruct (HaltPlayer_effect (set_inbox [] s)) as (H1 & H2 & _).
    change (inbox (set_inbox [] s)) with (@nil message) in H2.
    revert H1 H2. generalize (HaltPlayer (set_inbox [] s)). intros x H1 H2.
    split; [reflexivity|]. split; [reflexivity|]. split; [exact H1 | exact H2].
  - split; [reflexivity|]. split; [reflexivity|]. split; [exact Hp | reflexivity].
Qed.

Lemma settled_pump_stop s :
  inbox s = [WM_USER_STOP] \/ inbox s = [] -> settled s (pump s).
Proof.
  intros Hi. apply (settled_trans _ (set_inbox [] s)); [repeat split|].
  apply steady_settled. unfold pump. destruct Hi as [-> | ->]; cbn [foldl dispatch]; steady_auto.
Qed.

Lemma engine_iter_settles s :
  stop_posted s \/ stopped s -> settled s (engine_iter s) /\ stopped (engine_iter s).
Proof.
  intros H. split.
  - unfold engine_iter. apply (settled_trans _ (pump s)); [|apply settled_IdleLoop].
    apply settled_pump_stop. destruct H as [[H _] | (_ & H & _)]; auto.
  - destruct H as [H | H]; [apply engine_iter_stop_posted | apply engine_iter_stopped]; exact H.
Qed.

Lemma engine_run_settles n s :
  stop_posted s -> settled s (engine_run (S n) s) /\ stopped (engine_run (S n) s).
Proof.
  intros H. induction n as [|n [IH1 IH2]].
  - apply (engine_iter_settles s). left. exact H.
  - change (engine_run (S (S n)) s) with (engine_iter (engine_run (S n) s)).
    destruct (engine_iter_settles (engine_run (S n) s)) as [H1 H2]; [right; exact IH2|].
    split; [exact (settled_trans _ _ _ IH1 H1) | exact H2].
Qed.

Lemma WaitForStop_loop_healthy sched s :
  stop_posted s -> (forall k, (0 < sched k)%nat) ->
  exists i x,
    WaitForStop_loop sched 40 0 s = (i, x) /\ (i <= 1)%nat
    /\ settled s x /\ IsPlaying x = false
    /\ (IsPlaying s = false -> inbox x = [WM_USER_STOP])
    /\ (IsPlaying s = true -> stopped x).
Proof.
  intros Hs Hk.
  change (WaitForStop_loop sched 40 0 s)
    with (if IsPlaying s then WaitForStop_loop sched 39 1 (Sleep100 sched 0 s)
          else (0%nat, s)).
  destruct (IsPlaying s) eqn:Hp.
  - unfold Sleep100. destruct (sched 0%nat) as [|n] eqn:E; [specialize (Hk 0%nat); lia|].
    destruct (engine_run_settles n s Hs) as [H1 H2].
    rewrite WaitForStop_loop_stopped by apply H2.
    exists 1%nat, (engine_run (S n) s).
    split; [reflexivity|]. split; [lia|]. split; [exact H1|]. split; [apply H2|].
    split; [discriminate | intros _; exact H2].
  - exists 0%nat, s.
    split; [reflexivity|]. split; [lia|]. split; [apply steady_settled, steady_refl|].
    split; [exact Hp|]. split; [intros _; apply Hs | discriminate].
Qed.

Lemma RemoveDocument_loop_healthy sched s doc :
  (0 < sched 0%nat)%nat -> m_pDocument s = Some doc -> IsPlaying s = false ->
  inbox s = [WM_USER_STOP; WM_USER_REMOVE_DOCUMENT] \/ inbox s = [WM_USER_REMOVE_DOCUMENT] ->
  exists y,
    RemoveDocument_loop sched 50 0 s = (1%nat, y)
    /\ m_pDocument y = None /\ m_pTrackerView y = None /\ IsPlaying y = false.
Proof.
  intros Hk Hd Hp Hi.
  change (RemoveDocument_loop sched 50 0 s)
    with (match m_pDocument s with
          | Some _ => RemoveDocument_loop sched 49 1 (Sleep100 sched 0 s)
          | None => (0%nat, s)
          end).
  rewrite Hd. unfold Sleep100, engine_run.
  destruct (sched 0%nat) as [|n]; [lia|]. rewrite Nat.iter_succ_r.
  destruct (pump_remove s Hp Hi) as (H1 & H2 & H3 & H4).
  assert (E : engine_iter s = pump s) by (apply IdleLoop_no_document, H1).
  rewrite E. destruct (iter_removed n (pump s) H1 H2 H3 H4) as (G1 & G2 & G3 & _).
  change (RemoveDocument_loop sched 49 1 (Nat.iter n engine_iter (pump s)))
    with (match m_pDocument (Nat.iter n engine_iter (pump s)) with
          | Some _ => RemoveDocument_loop sched 48 2
                        (Sleep100 sched 1 (Nat.iter n engine_iter (pump s)))
          | None => (1%nat, Nat.iter n engine_iter (pump s))
          end).
  rewrite G1. eauto.
Qed.

Lemma RemoveDocument_detaches sched s doc :
  m_hThread s = true -> inbox s = [] -> renderer_inert s -> m_pDocument s = Some doc ->
  (forall k, (0 < sched k)%nat) ->
  m_pDocument (RemoveDocument sched s) = None
  /\ m_pTrackerView (RemoveDocument sched s) = None
  /\ IsPlaying (RemoveDocument sched s) = false
  /\ RemoveDocument_elapsed sched s <= 200.
Proof.
  intros Ht Hi Hr Hd Hk. unfold RemoveDocument, RemoveDocument_elapsed. cbv zeta.
  rewrite WaitForStop_result. cbn [snd].
  assert (Hs : stop_posted (StopPlayer s)).
  { unfold StopPlayer, PostThreadMessage. rewrite Ht. cbn [negb]. split; [|exact Hr].
    cbn. rewrite Hi. reflexivity. }
  assert (Hp1 : IsPlaying (StopPlayer s) = IsPlaying s).
  { unfold StopPlayer, PostThreadMessage. rewrite Ht. reflexivity. }
  assert (Hd1 : m_pDocument (StopPlayer s) = Some doc /\ m_hThread (StopPlayer s) = true).
  { unfold StopPlayer, PostThreadMessage. rewrite Ht. auto. }
  revert Hs Hp1 Hd1. generalize (StopPlayer s). intros s1 Hs Hp1 [Hd1 Ht1].
  destruct (WaitForStop_loop_healthy sched s1 Hs Hk) as (i & x & E & Hi1 & Hx & Hpx & Hx1 & Hx2).
  rewrite E. cbn [fst snd].
  assert (Htx : m_hThread x = true) by (destruct Hx as ((_ & _ & H & _) & _); congruence).
  assert (Hdx : m_pDocument x = Some doc) by (destruct Hx as (_ & H & _); congruence).
  unfold PostThreadMessage. rewrite Htx.
  assert (H3 : IsPlaying (set_inbox (inbox x ++ [WM_USER_REMOVE_DOCUMENT]) x) = false
               /\ (inbox (set_inbox (inbox x ++ [WM_USER_REMOVE_DOCUMENT]) x)
                   = [WM_USER_STOP; WM_USER_REMOVE_DOCUMENT]
                   \/ inbox (set_inbox (inbox x ++ [WM_USER_REMOVE_DOCUMENT]) x)
                      = [WM_USER_REMOVE_DOCUMENT])).
  { cbn [inbox set_inbox]. destruct (IsPlaying s1) eqn:Hp.
    - destruct (Hx2 eq_refl) as (G1 & G2 & _). rewrite G2. auto.
    - rewrite (Hx1 eq_refl). split; [exact Hpx | left; reflexivity]. }
  destruct H3 as [H3 H4].
  destruct (RemoveDocument_loop_healthy (fun k => sched (i + k)%nat)
              (set_inbox (inbox x ++ [WM_USER_REMOVE_DOCUMENT]) x) doc
              (Hk (i + 0)%nat) Hdx H3 H4) as (y & Ey & G1 & G2 & G3).
  rewrite Ey. cbn [fst snd]. repeat apply conj; try assumption. lia.
Qed.

(** X22.  With a player thread that completes at least one round of its
    run loop during every sleep of the foreground, [RemoveDocument]
    detaches the document and the view and leaves the player stopped
    after at most two sleeps of 100 ms. *)
Theorem RemoveDocument_healthy sched s doc :
  m_hThread s = true -> inbox s = [] -> renderer_inert s -> m_pDocument s = Some doc ->
  (forall k, (0 < sched k)%nat) ->
  m_pDocument (RemoveDocument sched s) = None
  /\ m_pTrackerView (RemoveDocument sched s) = None
  /\ IsPlaying (RemoveDocument sched s) = false
  /\ RemoveDocument_elapsed sched s <= 200.
Proof. apply RemoveDocument_detaches. Qed.

Lemma RemoveDocument_healthy_witness :
  m_pDocument (RemoveDocument Samples.healthy (Samples.playing_engine Samples.pf_ok)) = None.
Proof.
  apply (RemoveDocument_healthy Samples.healthy (Samples.playing_engine Samples.pf_ok)
           Samples.doc).
  - reflexivity.
  - reflexivity.
  - vm_compute. exact I.
  - reflexivity.
  - intros k. unfold Samples.healthy. lia.
Defined.

Lemma WaitForStop_loop_stuck sched fuel i s :
  (forall k, sched k = 0%nat) ->
  WaitForStop_loop sched fuel i s = ((if IsPlaying s then i + fuel else i)%nat, s).
Proof.
  intros Hk. revert i. induction fuel as [|fuel IH]; intros i.
  - cbn. destruct (IsPlaying s); f_equal; lia.
  - cbn [WaitForStop_loop]. unfold Sleep100. rewrite Hk. change (engine_run 0 s) with s.
    rewrite IH. destruct (IsPlaying s); f_equal; lia.
Qed.

Lemma RemoveDocument_loop_stuck sched fuel i s doc :
  (forall k, sched k = 0%nat) -> m_pDocument s = Some doc ->
  RemoveDocument_loop sched fuel i s = ((i + fuel)%nat, s).
Proof.
  intros Hk Hd. revert i. induction fuel as [|fuel IH]; intros i.
  - cbn. f_equal. lia.
  - cbn [RemoveDocument_loop]. rewrite Hd. unfold Sleep100. rewrite Hk.
    change (engine_run 0 s) with s. rewrite IH. f_equal. lia.
Qed.

(** X23.  With a player thread that is stuck, [RemoveDocument] still
    returns: after five seconds, nine if the player was playing, with
    the document still attached and the player as it was. *)
Theorem RemoveDocument_stuck sched s doc :
  m_pDocument s = Some doc -> (forall k, sched k = 0%nat) ->
  m_pDocument (RemoveDocument sched s) = Some doc
  /\ IsPlaying (RemoveDocument sched s) = IsPlaying s
  /\ RemoveDocument_elapsed sched s = if IsPlaying s then 9000 else 5000.
Proof.
  intros Hd Hk. unfold RemoveDocument, RemoveDocument_elapsed. cbv zeta.
  rewrite WaitForStop_result, (WaitForStop_loop_stuck _ _ _ _ Hk). cbn [fst snd].
  assert (H1 : m_pDocument (PostThreadMessage WM_USER_REMOVE_DOCUMENT (StopPlayer s))
               = Some doc
               /\ IsPlaying (PostThreadMessage WM_USER_REMOVE_DOCUMENT (StopPlayer s))
                  = IsPlaying s
               /\ IsPlaying (StopPlayer s) = IsPlaying s).
  { unfold StopPlayer, PostThreadMessage. destruct (m_hThread s) eqn:Ht; cbn [negb];
      fields; rewrite ?Ht; auto. }
  destruct H1 as (H1 & H2 & H3).
  rewrite (RemoveDocument_loop_stuck _ _ _ _ doc); [|intros k; apply Hk | exact H1].
  cbn [fst snd]. rewrite H3. split; [exact H1|]. split; [exact H2|].
  destruct (IsPlaying s); reflexivity.
Qed.

Lemma RemoveDocument_stuck_witness :
  RemoveDocument_elapsed (fun _ => 0%nat) (Samples.playing_engine Samples.pf_ok) = 9000.
Proof.
  exact (proj2 (proj2 (RemoveDocument_stuck (fun _ => 0%nat)
                         (Samples.playing_engine Samples.pf_ok) Samples.doc
                         eq_refl (fun _ => eq_refl)))).
Defined.


(** X28.  The view is attached once: while a view is attached
    [AssignView] is ignored, whatever it is handed, and only after
    [RemoveDocument] has detached the view does [AssignView] attach the
    one it is handed. *)
Theorem view_is_attached_once sched s doc v pView :
  m_hThread s = true -> inbox s = [] -> renderer_inert s -> m_pDocument s = Some doc ->
  (forall k, (0 < sched k)%nat) ->
  m_pTrackerView s = Some v ->
  AssignView pView s = s
  /\ m_pTrackerView (AssignView pView (RemoveDocument sched s)) = pView.
Proof.
  intros Ht Hi Hr Hd Hk Hv. split.
  - unfold AssignView. rewrite Hv. reflexivity.
  - destruct (RemoveDocument_detaches sched s doc Ht Hi Hr Hd Hk) as (_ & H & _).
    unfold AssignView. rewrite H. reflexivity.
Qed.

Lemma view_is_attached_once_witness :
  m_pTrackerView
    (AssignView (Some Samples.view)
       (RemoveDocument Samples.healthy (Samples.playing_engine Samples.pf_ok)))
  = Some Samples.view.
Proof.
  apply (view_is_attached_once Samples.healthy (Samples.playing_engine Samples.pf_ok)
           Samples.doc Samples.view (Some Samples.view)).
  - reflexivity.
  - reflexivity.
  - vm_compute. exact I.
  - reflexivity.
  - intros k. unfold Samples.healthy. lia.
  - reflexivity.
Defined.

(** ** Rendering to a file *)

Lemma renderer_ResetAPU s : m_pWaveRenderer (ResetAPU s) = m_pWaveRenderer s.
Proof. frame. Qed.

Lemma StopRendering_rendering s :
  is_rendering_impl s = true ->
  m_pWaveRenderer (StopRendering s) = None
  /\ IsPlaying (StopRendering s) = false
  /\ RegisterImage (log (StopRendering s)) = power_on_image
  /\ dev (StopRendering s) = dev s.
Proof.
  intros H. assert (Hd : dev (StopRendering s) = dev s).
  { assert (S : steady s (StopRendering s)) by steady_auto. apply S. }
  split; [|split; [|split; [|exact Hd]]].
  - unfold StopRendering. rewrite H. cbn [negb]. cbv zeta. rewrite renderer_ResetAPU.
    destruct (HaltPlayer_effect (ResetBuffer (set_m_pWaveRenderer None s))) as (_ & _ & ->).
    reflexivity.
  - unfold StopRendering. rewrite H. cbn [negb]. cbv zeta.
    unfold IsPlaying. rewrite driver_ResetAPU.
    apply (proj1 (HaltPlayer_effect (ResetBuffer (set_m_pWaveRenderer None s)))).
  - unfold StopRendering. rewrite H. cbn [negb]. cbv zeta.
    rewrite log_ResetAPU. apply RegisterImage_power_on.
Qed.

(** X24.  Where a finished buffer goes over the life of a render.  Once
    the thread has handled the start request of an accepted
    [RenderToFile], every buffer is flushed to the renderer, the audio
    device is not played to and [PlayBuffer] cannot fail; once
    [StopRendering] has run, the renderer is gone, the player is halted,
    the emulation is back at its power-on image, and buffers go to the
    audio device again, to the visualizer only if the device took
    them. *)
Theorem render_routes_buffers sched r played s :
  m_hThread s = true -> inbox s = [] -> IsPlaying s = false -> Finished r = false ->
  PlayBuffer played (pump (snd (RenderToFile sched true (Some r) s)))
  = (true, [RendererFlushBuffer])
  /\ m_pWaveRenderer (StopRendering (pump (snd (RenderToFile sched true (Some r) s)))) = None
  /\ IsPlaying (StopRendering (pump (snd (RenderToFile sched true (Some r) s)))) = false
  /\ RegisterImage (log (StopRendering (pump (snd (RenderToFile sched true (Some r) s)))))
     = power_on_image
  /\ PlayBuffer played (StopRendering (pump (snd (RenderToFile sched true (Some r) s))))
     = (played,
        DoPlayBuffer ::
          (if played && m_pVisualizerWnd (dev s) then [VisualizerFlushSamples] else [])).
Proof.
  intros Ht Hi Hp Hf.
  assert (E : m_pWaveRenderer (pump (snd (RenderToFile sched true (Some r) s)))
              = Some (renderer_Start (renderer_SetOutputFile r))
              /\ dev (pump (snd (RenderToFile sched true (Some r) s))) = dev s).
  { unfold RenderToFile. rewrite Hp. cbv zeta. cbn [snd]. unfold PostThreadMessage, pump.
    fields. rewrite Ht, Hi. cbn [app foldl dispatch]. split; reflexivity. }
  revert E. generalize (pump (snd (RenderToFile sched true (Some r) s))).
  intros x [Hr Hd].
  assert (R : is_rendering_impl x = true).
  { unfold is_rendering_impl. rewrite Hr. cbn. rewrite Hf. reflexivity. }
  destruct (StopRendering_rendering x R) as (H1 & H2 & H3 & H4).
  split; [unfold PlayBuffer; rewrite Hr, R; reflexivity|].
  split; [exact H1|]. split; [exact H2|]. split; [exact H3|].
  unfold PlayBuffer, is_rendering_impl. rewrite H1, H4, Hd. cbn [negb].
  destruct played; reflexivity.
Qed.

Lemma render_routes_buffers_witness :
  PlayBuffer true (pump (snd (RenderToFile Samples.healthy true (Some Samples.renderer)
                                (Samples.engine Samples.pf_ok))))
  = (true, [RendererFlushBuffer]).
Proof.
  exact (proj1 (render_routes_buffers Samples.healthy Samples.renderer true
                  (Samples.engine Samples.pf_ok) eq_refl eq_refl eq_refl eq_refl)).
Defined.

(** ** The sample preview *)

(** X25.  The preview of a sample stays inside the sample.  For an
    offset whose start address lies in the sample and a sample that ends
    within 4096 bytes of it, the length written to $4013 fits the
    register, and the bytes the DPCM unit then reads, [16 * Length + 1]
    from byte [64 * Offset] on, end inside the sample and leave out less
    than sixteen bytes at its end; the last write fires the sample. *)
Theorem preview_sample_within_bounds size_bits size Offset Pitch s :
  size_bits = 32 \/ size_bits = 64 ->
  0 <= Offset -> 64 * Offset < size -> size <= 64 * Offset + 4096 -> size < 2 ^ 31 ->
  exists Length,
    new_events s (snd (PlayPreviewSample size_bits size Offset Pitch s))
    = [ApuWrite 0x4010 Pitch; ApuWrite 0x4012 Offset; ApuWrite 0x4013 Length;
       ApuWrite 0x4015 0x0F; ApuWrite 0x4015 0x1F]
    /\ 0 <= Length <= 255
    /\ 64 * Offset + 16 * Length + 1 <= size <= 64 * Offset + 16 * Length + 16
    /\ RegisterImage (log (snd (PlayPreviewSample size_bits size Offset Pitch s))) !! 0x4015
       = Some 0x1F.
Proof.
  intros Hb Ho Hlo Hhi Hs.
  assert (Hpow : 2 ^ 32 <= 2 ^ size_bits) by (destruct Hb as [-> | ->]; lia).
  assert (E1 : (size - 1) mod 2 ^ size_bits = size - 1) by (apply Z.mod_small; lia).
  assert (E2 : Z.shiftr (size - 1) 4 = (size - 1) / 16)
    by (rewrite Z.shiftr_div_pow2 by lia; reflexivity).
  assert (E3 : to_int (Z.shiftl Offset 2) = 4 * Offset).
  { rewrite Z.shiftl_mul_pow2 by lia. rewrite to_int_small; [lia|]. unfold is_int. lia. }
  assert (Hq : 4 * Offset <= (size - 1) / 16 <= 4 * Offset + 255).
  { split.
    - apply Z.div_le_lower_bound; lia.
    - apply Z.lt_succ_r, Z.div_lt_upper_bound; lia. }
  assert (Hm : 16 * ((size - 1) / 16) <= size - 1 < 16 * ((size - 1) / 16) + 16).
  { pose proof (Z.div_mod (size - 1) 16 ltac:(lia)) as D.
    pose proof (Z.mod_pos_bound (size - 1) 16 ltac:(lia)) as B. lia. }
  exists ((size - 1) / 16 - 4 * Offset).
  assert (E4 : to_int (((size - 1) / 16 - 4 * Offset) mod 2 ^ size_bits)
               = (size - 1) / 16 - 4 * Offset).
  { rewrite Z.mod_small by lia. apply to_int_small. unfold is_int. lia. }
  unfold PlayPreviewSample. cbv zeta. cbn [snd]. rewrite E1, E2, E3, E4, Z.lor_0_r.
  split; [|split; [lia|split; [lia|]]].
  - apply new_events_app. cbn. rewrite <- !app_assoc. reflexivity.
  - cbn [log emit set_log]. unfold RegisterImage. rewrite !foldl_app. cbn [foldl apu_step].
    apply lookup_insert_eq.
Qed.

Lemma preview_sample_within_bounds_witness :
  exists Length,
    new_events (Samples.engine Samples.pf_ok)
      (snd (PlayPreviewSample 64 4081 0 15 (Samples.engine Samples.pf_ok)))
    = [ApuWrite 0x4010 15; ApuWrite 0x4012 0; ApuWrite 0x4013 Length;
       ApuWrite 0x4015 0x0F; ApuWrite 0x4015 0x1F]
    /\ 0 <= Length <= 255
    /\ 64 * 0 + 16 * Length + 1 <= 4081 <= 64 * 0 + 16 * Length + 16
    /\ RegisterImage (log (snd (PlayPreviewSample 64 4081 0 15
                                  (Samples.engine Samples.pf_ok)))) !! 0x4015
       = Some 0x1F.
Proof.
  apply (preview_sample_within_bounds 64 4081 0 15 (Samples.engine Samples.pf_ok)).
  - right. reflexivity.
  - lia.
  - lia.
  - lia.
  - lia.
Defined.


End EngineMoreFacts.

(** * The start and the exit of the thread *)
Module ThreadFacts.

Import AudioDevice Engine Control Thread EngineFacts.

Lemma dev_ResetAPU s : dev (ResetAPU s) = dev s.
Proof. frame. Qed.

Lemma started_engine g :
  IsAudioDeviceOpen (set_m_iFrameCounter 0 (ResetAPU g)) = IsAudioDeviceOpen g
  /\ RegisterImage (log (set_m_iFrameCounter 0 (ResetAPU g))) = power_on_image
  /\ m_iFrameCounter (set_m_iFrameCounter 0 (ResetAPU g)) = 0.
Proof.
  pose proof (dev_ResetAPU g) as Hd. pose proof (log_ResetAPU g) as Hl.
  revert Hd Hl. generalize (ResetAPU g). intros x Hd Hl.
  unfold IsAudioDeviceOpen. cbn [dev log m_iFrameCounter set_m_iFrameCounter].
  rewrite Hd, Hl, RegisterImage_power_on. auto.
Qed.

(** X26.  [InitInstance] fails only for want of the sound object, and
    then touches nothing.  With the sound object it returns TRUE whether
    or not the audio device could be set up: the thread runs, the audio
    device is open exactly if its channel opened, the emulation is at
    its power-on image and the frame count starts at zero. *)
Theorem InitInstance_result t :
  fst (InitInstance t) = m_pDSound t
  /\ if m_pDSound t
     then m_bRunning (snd (InitInstance t)) = true
          /\ IsAudioDeviceOpen (gen (snd (InitInstance t))) = channel_opens (gen t)
          /\ RegisterImage (log (gen (snd (InitInstance t)))) = power_on_image
          /\ m_iFrameCounter (gen (snd (InitInstance t))) = 0
     else snd (InitInstance t) = t.
Proof.
  unfold InitInstance. destruct (m_pDSound t); cbn [negb]; [|split; reflexivity].
  cbv zeta. cbn [fst snd gen m_bRunning].
  destruct (started_engine (OnLoadSettings (gen t))) as (H1 & H2 & H3).
  rewrite <- EngineMoreFacts.IsAudioDeviceOpen_OnLoadSettings.
  split; [reflexivity|]. split; [reflexivity|]. split; [exact H1|]. split; [exact H2 | exact H3].
Qed.

Lemma CloseAudio_closed t :
  m_pAudioDriver (dev (gen (CloseAudio t))) = None
  /\ m_pDSound (CloseAudio t) = false
  /\ m_hInterruptEvent (CloseAudio t) = false
  /\ m_bRunning (CloseAudio t) = m_bRunning t.
Proof.
  unfold CloseAudio. cbv zeta.
  destruct (m_pDSound t), (m_hInterruptEvent t);
    destruct (m_pAudioDriver (dev (gen t))) eqn:E; cbn; auto.
Qed.

(** X27.  The exit of the thread shuts the sound interface down for
    good: the audio driver is released, the thread does not count as
    running, a later [InitInstance] fails, and every resource is closed
    once only, a second [CloseAudio] or [ExitInstance] doing nothing. *)
Theorem ExitInstance_closes t :
  IsRunning (ExitInstance t) = false
  /\ IsAudioDeviceOpen (gen (ExitInstance t)) = false
  /\ InitInstance (ExitInstance t) = (false, ExitInstance t)
  /\ CloseAudio (CloseAudio t) = CloseAudio t
  /\ ExitInstance (ExitInstance t) = ExitInstance t.
Proof.
  destruct (CloseAudio_closed t) as (H1 & H2 & H3 & H4).
  assert (C : forall u, m_pAudioDriver (dev (gen u)) = None -> m_pDSound u = false ->
                        m_hInterruptEvent u = false -> CloseAudio u = u).
  { intros [g ds ev run calls]. cbn. intros G -> ->. unfold CloseAudio. cbn. rewrite G.
    rewrite app_nil_r. reflexivity. }
  split; [|split; [|split; [|split]]].
  - unfold IsRunning, ExitInstance. cbn. apply andb_false_r.
  - unfold IsAudioDeviceOpen, ExitInstance. cbn [gen]. rewrite H1. reflexivity.
  - unfold InitInstance, ExitInstance. cbn [m_pDSound]. rewrite H2. reflexivity.
  - apply C; assumption.
  - unfold ExitInstance at 1. cbv zeta. rewrite C.
    + unfold ExitInstance. reflexivity.
    + unfold ExitInstance. cbn [gen]. exact H1.
    + unfold ExitInstance. cbn [m_pDSound]. exact H2.
    + unfold ExitInstance. cbn [m_hInterruptEvent]. exact H3.
Qed.

Lemma thread_OnLoadSettings s : m_hThread (OnLoadSettings s) = m_hThread s.
Proof.
  unfold OnLoadSettings. destruct (ResetAudioDevice _ _) as [ok d].
  destruct (negb ok && _); reflexivity.
Qed.

Lemma thread_ResetAPU s : m_hThread (ResetAPU s) = m_hThread s.
Proof. frame. Qed.

(** X29.  The life of the thread's sound interface.  After
    [InitializeSound], [InitInstance] succeeds and the thread counts as
    running exactly if it has a handle; [ExitInstance] then releases
    what [InitializeSound] acquired, the sound device and the interrupt
    event, each once, and the thread no longer counts as running. *)
Theorem thread_lifecycle t :
  fst (InitInstance (snd (InitializeSound t))) = true
  /\ IsRunning (snd (InitInstance (snd (InitializeSound t)))) = m_hThread (gen t)
  /\ os_calls (ExitInstance (snd (InitInstance (snd (InitializeSound t)))))
     = os_calls t ++ [CreateEvent; EnumerateDevices; ResumeThread; SetThreadPriority;
                      CloseDevice; CloseHandle]
  /\ IsRunning (ExitInstance (snd (InitInstance (snd (InitializeSound t))))) = false.
Proof.
  pose proof (thread_OnLoadSettings (gen t)) as H1.
  pose proof (thread_ResetAPU (OnLoadSettings (gen t))) as H2.
  assert (E : InitInstance (snd (InitializeSound t))
              = (true,
                 {| gen := set_m_iFrameCounter 0 (ResetAPU (OnLoadSettings (gen t)));
                    m_pDSound := true; m_hInterruptEvent := true; m_bRunning := true;
                    os_calls := (os_calls t ++ [CreateEvent; EnumerateDevices; ResumeThread])
                                ++ [SetThreadPriority] |})) by reflexivity.
  rewrite E. clear E. revert H1 H2.
  generalize (OnLoadSettings (gen t)). intros g1 H1.
  generalize (ResetAPU g1). intros g2 H2. cbn [fst snd].
  split; [reflexivity|]. split; [|split].
  - unfold IsRunning. cbn [gen m_bRunning set_m_iFrameCounter m_hThread].
    rewrite andb_true_r. congruence.
  - unfold ExitInstance, CloseAudio. cbv zeta.
    cbn [gen m_pDSound m_hInterruptEvent m_bRunning os_calls].
    rewrite <- !app_assoc. reflexivity.
  - unfold IsRunning, ExitInstance. cbn [m_bRunning]. apply andb_false_r.
Qed.

End ThreadFacts.
